(** * unbindEnergy: impactor kinematics against a planet's binding energy

    A shallow embedding of [planetary-impact-physics/unbindEnergy.c] and of its
    QB64 port [unbindEnergy.bas], from the command line to the printed lines,
    and of [planetary-impact-physics/unbindDose.c].

    The programs compute in C [double] / QB64 [DOUBLE].  Two readings of that
    type are used, each transcribed from the same source lines:

    - the exact reading [dbl]: a real number or one of the IEEE special
      values [+inf], [-inf], [NaN].  Arithmetic is exact (no rounding, no
      overflow, one zero taken as [+0]) and division by zero, [inf] and [NaN]
      follow IEEE 754, because the programs do divide by a retention of
      [0.00] and carry the resulting infinity on;
    - the binary64 reading ([Module Binary64]), on the kernel's primitive
      floats: the speed lines and the whole of [main] of [unbindEnergy.c],
      with libm's [cbrt] and [pow] left as parameters, for what rounding,
      overflow or a NaN can change. *)

From Stdlib Require Import Reals Lra Lia ZArith Bool List String Ascii.
From Stdlib Require Floats.
Import ListNotations.

(* ================================================================== *)
(** * The exact reading of [double] *)
(* ================================================================== *)

Inductive dbl : Type :=
| Num (r : R)
| PInf
| NInf
| NaN.

Declare Scope dbl_scope.
Delimit Scope dbl_scope with dbl.
Bind Scope dbl_scope with dbl.

(** Sign of a value, as IEEE multiplication and division use it. *)
Inductive sgn : Type := Neg | Zero | Pos.

Definition Rsgn (x : R) : sgn :=
  if Rlt_dec 0 x then Pos else if Rlt_dec x 0 then Neg else Zero.

Definition inf_of (s : sgn) : dbl :=
  match s with Pos => PInf | Neg => NInf | Zero => NaN end.

Definition sgn_mul (s t : sgn) : sgn :=
  match s, t with
  | Zero, _ | _, Zero => Zero
  | Pos, Pos | Neg, Neg => Pos
  | Pos, Neg | Neg, Pos => Neg
  end.

Definition dadd (a b : dbl) : dbl :=
  match a, b with
  | NaN, _ | _, NaN => NaN
  | Num x, Num y => Num (x + y)
  | PInf, NInf | NInf, PInf => NaN
  | PInf, _ | _, PInf => PInf
  | NInf, _ | _, NInf => NInf
  end.

Definition dopp (a : dbl) : dbl :=
  match a with
  | Num x => Num (- x)
  | PInf => NInf
  | NInf => PInf
  | NaN => NaN
  end.

Definition dsub (a b : dbl) : dbl := dadd a (dopp b).

Definition dmul (a b : dbl) : dbl :=
  match a, b with
  | NaN, _ | _, NaN => NaN
  | Num x, Num y => Num (x * y)
  | Num x, PInf | PInf, Num x => inf_of (Rsgn x)
  | Num x, NInf | NInf, Num x => inf_of (sgn_mul Neg (Rsgn x))
  | PInf, PInf | NInf, NInf => PInf
  | PInf, NInf | NInf, PInf => NInf
  end.

(** [x / 0] is an infinity of the sign of [x] and [0 / 0] is [NaN]; a finite
    value over an infinity is [0]. *)
Definition ddiv (a b : dbl) : dbl :=
  match a, b with
  | NaN, _ | _, NaN => NaN
  | Num x, Num y =>
      if Req_dec_T y 0 then inf_of (Rsgn x) else Num (x / y)
  | Num _, (PInf | NInf) => Num 0
  | PInf, Num y => if Rlt_dec y 0 then NInf else PInf
  | NInf, Num y => if Rlt_dec y 0 then PInf else NInf
  | (PInf | NInf), (PInf | NInf) => NaN
  end.

Definition dsqrt (a : dbl) : dbl :=
  match a with
  | Num x => if Rlt_dec x 0 then NaN else Num (sqrt x)
  | PInf => PInf
  | NInf | NaN => NaN
  end.

(** The real cube root, by [exp (ln x / 3)] on each side of zero. *)
Definition Rcbrt (x : R) : R :=
  if Rlt_dec 0 x then Rpower x (/ 3)
  else if Rlt_dec x 0 then - Rpower (- x) (/ 3)
  else 0.

(** C's [cbrt]. *)
Definition cbrt (a : dbl) : dbl :=
  match a with
  | Num x => Num (Rcbrt x)
  | PInf => PInf
  | NInf => NInf
  | NaN => NaN
  end.

(** C's [pow (x, 3.0)], QB64's [x ^ 3]. *)
Definition pow3 (a : dbl) : dbl :=
  match a with
  | Num x => Num (x * x * x)
  | PInf => PInf
  | NInf => NInf
  | NaN => NaN
  end.

(** Comparisons: every comparison with [NaN] is false. *)
Definition dltb (a b : dbl) : bool :=
  match a, b with
  | NaN, _ | _, NaN => false
  | Num x, Num y => if Rlt_dec x y then true else false
  | NInf, (Num _ | PInf) => true
  | Num _, PInf => true
  | _, _ => false
  end.

Definition dleb (a b : dbl) : bool :=
  match a, b with
  | NaN, _ | _, NaN => false
  | Num x, Num y => if Rle_dec x y then true else false
  | NInf, _ => true
  | _, PInf => true
  | _, _ => false
  end.

Definition dgeb (a b : dbl) : bool := dleb b a.

Notation "# r" := (Num r%R) (at level 1, r at level 0, format "# r") : dbl_scope.
Infix "+" := dadd : dbl_scope.
Infix "-" := dsub : dbl_scope.
Infix "*" := dmul : dbl_scope.
Infix "/" := ddiv : dbl_scope.
Infix "<?" := dltb (at level 70, no associativity) : dbl_scope.
Infix "<=?" := dleb (at level 70, no associativity) : dbl_scope.
Infix ">=?" := dgeb (at level 70, no associativity) : dbl_scope.

Local Open Scope Z_scope.
Local Open Scope dbl_scope.

(* ================================================================== *)
(** * Constants *)
(* ================================================================== *)

(** [main]'s [c], [PI], [MERCURY_MASS], [CERES_MASS]; [c_real] is the real
    number that [c] holds, in m/s. *)
Definition c_real : R := 299792458.0.
Definition c : dbl := Num c_real.
Definition PI : dbl := #3.14159265358979323846.
Definition MERCURY_MASS : dbl := #3.30e23.
Definition CERES_MASS : dbl := #9.38e20.

Definition PLANET_EARTH : Z := 0.
Definition PLANET_MARS : Z := 1.
Definition PLANET_VENUS : Z := 2.
Definition PLANET_JUPITER : Z := 3.
Definition PLANET_SATURN : Z := 4.
Definition PLANET_URANUS : Z := 5.
Definition PLANET_NEPTUNE : Z := 6.
Definition PLANET_PLUTO : Z := 7.
Definition PLANET_MOON : Z := 8.
Definition PLANET_VACUUM : Z := 9.

Definition MATERIAL_STONY : Z := 0.
Definition MATERIAL_IRON : Z := 1.
Definition MATERIAL_COMETARY : Z := 2.

(* ================================================================== *)
(** * Body registry *)
(* ================================================================== *)

(** [get_planetary_binding_energy]: a [switch] on the planet type, whose
    [PLANET_VACUUM] label falls into [default]. *)
Definition get_planetary_binding_energy (planet_type : Z) : dbl :=
  if planet_type =? PLANET_EARTH then #2.49e32
  else if planet_type =? PLANET_MARS then #4.87e30
  else if planet_type =? PLANET_VENUS then #1.57e32
  else if planet_type =? PLANET_JUPITER then #2.06e36
  else if planet_type =? PLANET_SATURN then #2.22e35
  else if planet_type =? PLANET_URANUS then #1.19e34
  else if planet_type =? PLANET_NEPTUNE then #1.69e34
  else if planet_type =? PLANET_PLUTO then #2.85e27
  else if planet_type =? PLANET_MOON then #1.23e29
  else #2.49e32.

(* ================================================================== *)
(** * Atmospheric retention, C port *)
(* ================================================================== *)

(** [atmospheric_retention]: each band is an early [return]. *)
Definition atmospheric_retention
    (diameter_km : dbl) (planet_type material_type : Z) : dbl :=
  if planet_type =? PLANET_EARTH then
    if material_type =? MATERIAL_IRON then
      if diameter_km <? #0.01 then #0.00
      else if diameter_km <? #0.03 then #0.20
      else if diameter_km <? #0.05 then #0.50
      else if diameter_km <? #0.10 then #0.80
      else if diameter_km <? #0.20 then #0.90
      else #0.95
    else if material_type =? MATERIAL_COMETARY then
      if diameter_km <? #0.05 then #0.00
      else if diameter_km <? #0.20 then #0.05
      else #0.80
    else
      if diameter_km <? #0.01 then #0.01
      else if diameter_km <? #0.03 then #0.10
      else if diameter_km <? #0.20 then #0.50
      else #0.90
  else if planet_type =? PLANET_MARS then
    if material_type =? MATERIAL_IRON then
      if diameter_km <? #0.001 then #0.80 else #0.95
    else if material_type =? MATERIAL_COMETARY then
      if diameter_km <? #0.01 then #0.70 else #0.90
    else
      if diameter_km <? #0.005 then #0.85 else #0.95
  else if planet_type =? PLANET_VENUS then
    if material_type =? MATERIAL_IRON then
      if diameter_km <? #0.10 then #0.00
      else if diameter_km <? #0.50 then #0.10
      else if diameter_km <? #1.00 then #0.50
      else #0.80
    else if material_type =? MATERIAL_COMETARY then
      if diameter_km <? #1.00 then #0.00 else #0.30
    else
      if diameter_km <? #0.20 then #0.00
      else if diameter_km <? #1.00 then #0.05
      else #0.60
  else if planet_type =? PLANET_JUPITER then
    if material_type =? MATERIAL_IRON then
      if diameter_km <? #1.00 then #0.00
      else if diameter_km <? #10.0 then #0.01
      else #0.20
    else
      if diameter_km <? #10.0 then #0.00 else #0.10
  else if planet_type =? PLANET_SATURN then
    if material_type =? MATERIAL_IRON then
      if diameter_km <? #0.50 then #0.00
      else if diameter_km <? #5.00 then #0.05
      else #0.30
    else
      if diameter_km <? #5.00 then #0.00 else #0.15
  else if planet_type =? PLANET_URANUS then
    if material_type =? MATERIAL_IRON then
      if diameter_km <? #2.00 then #0.00
      else if diameter_km <? #10.0 then #0.02
      else #0.25
    else
      if diameter_km <? #10.0 then #0.00 else #0.15
  else if planet_type =? PLANET_NEPTUNE then
    if material_type =? MATERIAL_IRON then
      if diameter_km <? #3.00 then #0.00
      else if diameter_km <? #15.0 then #0.01
      else #0.20
    else
      if diameter_km <? #15.0 then #0.00 else #0.10
  else if planet_type =? PLANET_PLUTO then
    if material_type =? MATERIAL_IRON then
      if diameter_km <? #0.001 then #0.95 else #0.99
    else if material_type =? MATERIAL_COMETARY then
      if diameter_km <? #0.01 then #0.90 else #0.98
    else
      if diameter_km <? #0.005 then #0.92 else #0.98
  else if planet_type =? PLANET_MOON then
    if material_type =? MATERIAL_IRON then
      if diameter_km <? #0.001 then #0.99 else #1.00
    else if material_type =? MATERIAL_COMETARY then
      if diameter_km <? #0.001 then #0.98 else #0.99
    else
      if diameter_km <? #0.001 then #0.99 else #1.00
  else #1.00.

(* ================================================================== *)
(** * Atmospheric retention, QB64 port *)
(* ================================================================== *)

(** A QB64 function returns the last value assigned to its own name when
    control reaches [END FUNCTION]; an assignment does not leave the function
    ([IsNumeric] in the same file writes [EXIT FUNCTION] where it wants to).
    [IF cond THEN AtmosphericRetention = v] is therefore a conditional update
    of the pending result, and the statements after it still run. *)
Definition assign_if (cond : bool) (v pending : dbl) : dbl :=
  if cond then v else pending.

(** [AtmosphericRetention]: [SELECT CASE] has cases 0, 1, 2, 3, 8, 9 and
    [CASE ELSE]; the pending result starts at zero. *)
Definition AtmosphericRetention
    (diameter_km : dbl) (planet_type material_type : Z) : dbl :=
  let result := #0 in
  if planet_type =? 0 then
    if material_type =? MATERIAL_IRON then
      let result := assign_if (diameter_km <? #0.01) #0.00 result in
      let result := assign_if (diameter_km <? #0.03) #0.20 result in
      let result := assign_if (diameter_km <? #0.05) #0.50 result in
      let result := assign_if (diameter_km <? #0.10) #0.80 result in
      let result := assign_if (diameter_km <? #0.20) #0.90 result in
      let result := #0.95 in
      result
    else if material_type =? MATERIAL_COMETARY then
      let result := assign_if (diameter_km <? #0.05) #0.00 result in
      let result := assign_if (diameter_km <? #0.20) #0.05 result in
      let result := #0.80 in
      result
    else
      let result := assign_if (diameter_km <? #0.01) #0.01 result in
      let result := assign_if (diameter_km <? #0.03) #0.10 result in
      let result := assign_if (diameter_km <? #0.20) #0.50 result in
      let result := #0.90 in
      result
  else if planet_type =? 1 then
    if material_type =? MATERIAL_IRON then
      let result := assign_if (diameter_km <? #0.001) #0.80 result in
      let result := #0.95 in
      result
    else if material_type =? MATERIAL_COMETARY then
      let result := assign_if (diameter_km <? #0.01) #0.70 result in
      let result := #0.90 in
      result
    else
      let result := assign_if (diameter_km <? #0.005) #0.85 result in
      let result := #0.95 in
      result
  else if planet_type =? 2 then
    if material_type =? MATERIAL_IRON then
      let result := assign_if (diameter_km <? #0.10) #0.00 result in
      let result := assign_if (diameter_km <? #0.50) #0.10 result in
      let result := assign_if (diameter_km <? #1.00) #0.50 result in
      let result := #0.80 in
      result
    else if material_type =? MATERIAL_COMETARY then
      let result := assign_if (diameter_km <? #1.00) #0.00 result in
      let result := #0.30 in
      result
    else
      let result := assign_if (diameter_km <? #0.20) #0.00 result in
      let result := assign_if (diameter_km <? #1.00) #0.05 result in
      let result := #0.60 in
      result
  else if planet_type =? 3 then
    if material_type =? MATERIAL_IRON then
      let result := assign_if (diameter_km <? #1.00) #0.00 result in
      let result := assign_if (diameter_km <? #10.0) #0.01 result in
      let result := #0.20 in
      result
    else
      let result := assign_if (diameter_km <? #10.0) #0.00 result in
      let result := #0.10 in
      result
  else if planet_type =? 8 then
    if material_type =? MATERIAL_IRON then
      let result := assign_if (diameter_km <? #0.001) #0.99 result in
      let result := #1.00 in
      result
    else if material_type =? MATERIAL_COMETARY then
      let result := assign_if (diameter_km <? #0.001) #0.98 result in
      let result := #0.99 in
      result
    else
      let result := assign_if (diameter_km <? #0.001) #0.99 result in
      let result := #1.00 in
      result
  else if planet_type =? 9 then #1.00
  else #1.00.

(* ================================================================== *)
(** * Names of bodies and materials *)
(* ================================================================== *)

(** [tolower] on one byte, in the C locale. *)
Definition tolower (ch : ascii) : Z :=
  let n := Z.of_N (N_of_ascii ch) in
  if ((65 <=? n) && (n <=? 90))%Z then (n + 32)%Z else n.

(** [strcasecmp]: zero exactly when the strings agree byte for byte after
    [tolower]; otherwise the difference at the first disagreement. *)
Fixpoint strcasecmp (a b : string) : Z :=
  match a, b with
  | EmptyString, EmptyString => 0
  | EmptyString, String y _ => (0 - tolower y)%Z
  | String x _, EmptyString => tolower x
  | String x a', String y b' =>
      if (tolower x =? tolower y)%Z then strcasecmp a' b'
      else (tolower x - tolower y)%Z
  end.

(** [get_planet_type]; [None] is the C null pointer. *)
Definition get_planet_type (planet_name : option string) : Z :=
  match planet_name with
  | None => PLANET_EARTH
  | Some name =>
      if strcasecmp name "earth" =? 0 then PLANET_EARTH
      else if strcasecmp name "mars" =? 0 then PLANET_MARS
      else if strcasecmp name "venus" =? 0 then PLANET_VENUS
      else if strcasecmp name "jupiter" =? 0 then PLANET_JUPITER
      else if strcasecmp name "saturn" =? 0 then PLANET_SATURN
      else if strcasecmp name "uranus" =? 0 then PLANET_URANUS
      else if strcasecmp name "neptune" =? 0 then PLANET_NEPTUNE
      else if strcasecmp name "pluto" =? 0 then PLANET_PLUTO
      else if strcasecmp name "moon" =? 0 then PLANET_MOON
      else if strcasecmp name "vacuum" =? 0 then PLANET_VACUUM
      else PLANET_EARTH
  end.

(** [get_material_type]. *)
Definition get_material_type (material_name : option string) : Z :=
  match material_name with
  | None => MATERIAL_STONY
  | Some name =>
      if strcasecmp name "iron" =? 0 then MATERIAL_IRON
      else if strcasecmp name "cometary" =? 0 then MATERIAL_COMETARY
      else if strcasecmp name "stony" =? 0 then MATERIAL_STONY
      else MATERIAL_STONY
  end.

(* ================================================================== *)
(** * The three solve modes *)
(* ================================================================== *)

(** The arithmetic of the modes is the same text in both ports; they differ in
    the retention function they call and in how they spell the cube root
    ([cbrt] in C, [^ (1.0 / 3.0)] in QB64): both are parameters of
    [Section Solver]. *)

(** The two required speeds, the lines shared by modes [m] and [d]:
    [v_class = sqrt (2.0 * (U / effective_eps) / m)],
    [gamma = 1.0 + (U / effective_eps) / (m * c * c)],
    [beta2 = 1.0 - 1.0 / (gamma * gamma)],
    [v_rel = c * sqrt (beta2 <= 0.0 ? 0.0 : beta2)]. *)
Definition classical_speed (U effective_eps m : dbl) : dbl :=
  dsqrt (#2.0 * (U / effective_eps) / m).

Definition relativistic_speed (U effective_eps m : dbl) : dbl :=
  let gamma := #1.0 + (U / effective_eps) / (m * c * c) in
  let beta2 := #1.0 - #1.0 / (gamma * gamma) in
  c * dsqrt (if beta2 <=? #0.0 then #0.0 else beta2).

(** Mode [v]'s [gamma = 1.0 / sqrt (1.0 - beta * beta)] and
    [k_per_mass = (gamma - 1.0) * c * c]: the kinetic energy per unit mass at
    [beta = v / c], the specification's [relativisticEnergyPerMass]. *)
Definition relativisticEnergyPerMass (beta : dbl) : dbl :=
  let gamma := #1.0 / dsqrt (#1.0 - beta * beta) in
  (gamma - #1.0) * c * c.

(** The variables a mode has computed when it starts printing results. *)
Record speed_vars : Type := {
  sv_retention : dbl;
  sv_effective_eps : dbl;
  sv_m : dbl;
  sv_v_class : dbl;
  sv_v_rel : dbl
}.

Record mass_vars : Type := {
  mv_retention : dbl;
  mv_effective_eps : dbl;
  mv_m_req : dbl;
  mv_D : dbl;
  mv_m_class : dbl
}.

Section Solver.

Variable retention_of : dbl -> Z -> Z -> dbl.
Variable cube_root : dbl -> dbl.

(** Mode [m]: the diameter is only estimated, at 3000 kg/m^3, to look the
    retention up. *)
Definition mode_m (U m eps : dbl) (planet_type material_type : Z)
  : speed_vars :=
  let volume := m / #3000.0 in
  let D_km := #2.0 * cube_root ((#3.0 * volume) / (#4.0 * PI)) / #1000.0 in
  let retention := retention_of D_km planet_type material_type in
  let effective_eps := eps * retention in
  {| sv_retention := retention;
     sv_effective_eps := effective_eps;
     sv_m := m;
     sv_v_class := classical_speed U effective_eps m;
     sv_v_rel := relativistic_speed U effective_eps m |}.

(** Mode [d]. *)
Definition mode_d (U D_km rho eps : dbl) (planet_type material_type : Z)
  : speed_vars :=
  let retention := retention_of D_km planet_type material_type in
  let effective_eps := eps * retention in
  let D := D_km * #1000.0 in
  let volume := (#4.0 / #3.0) * PI * pow3 (D / #2.0) in
  let m := rho * volume in
  {| sv_retention := retention;
     sv_effective_eps := effective_eps;
     sv_m := m;
     sv_v_class := classical_speed U effective_eps m;
     sv_v_rel := relativistic_speed U effective_eps m |}.

(** Mode [v], after [beta = v / c] has passed the [beta >= 1.0] test: the
    straight-line text from [gamma] to [m_class], every reassignment a new
    [let]. *)
Definition mode_v (U v beta rho eps : dbl) (planet_type material_type : Z)
  : mass_vars :=
  let gamma := #1.0 / dsqrt (#1.0 - beta * beta) in
  let k_per_mass := (gamma - #1.0) * c * c in
  let m_req := U / (eps * k_per_mass) in
  let volume := m_req / rho in
  let D_initial := #2.0 * cube_root ((#3.0 * volume) / (#4.0 * PI)) in
  let D_km_initial := D_initial / #1000.0 in
  let retention := retention_of D_km_initial planet_type material_type in
  let effective_eps := eps * retention in
  let m_req := U / (effective_eps * k_per_mass) in
  let volume := m_req / rho in
  let D_initial := #2.0 * cube_root ((#3.0 * volume) / (#4.0 * PI)) in
  let D_km_initial := D_initial / #1000.0 in
  let retention := retention_of D_km_initial planet_type material_type in
  let effective_eps := eps * retention in
  let m_req := U / (effective_eps * k_per_mass) in
  let volume := m_req / rho in
  let D := #2.0 * cube_root ((#3.0 * volume) / (#4.0 * PI)) in
  let m_class := #2.0 * U / (effective_eps * v * v) in
  {| mv_retention := retention;
     mv_effective_eps := effective_eps;
     mv_m_req := m_req;
     mv_D := D;
     mv_m_class := m_class |}.

(** ** The three-pass schedule, as the specification words it

    A pass maps a mass to the diameter of the sphere of that mass at the
    given density; the first pass takes the mass from the requested
    efficiency alone, and a refining pass looks the retention up at the
    diameter it is given. *)

Definition sphere_diameter (m rho : dbl) : dbl :=
  #2.0 * cube_root ((#3.0 * (m / rho)) / (#4.0 * PI)).

Record pass : Type := {
  pass_retention : option dbl;
  pass_efficiency : dbl;
  pass_mass : dbl;
  pass_diameter : dbl
}.

Definition first_pass (U k rho eps : dbl) : pass :=
  let m := U / (eps * k) in
  {| pass_retention := None;
     pass_efficiency := eps;
     pass_mass := m;
     pass_diameter := sphere_diameter m rho |}.

Definition refine_pass (U k rho eps : dbl) (planet_type material_type : Z)
    (prev : pass) : pass :=
  let retention :=
    retention_of (pass_diameter prev / #1000.0) planet_type material_type in
  let effective_eps := eps * retention in
  let m := U / (effective_eps * k) in
  {| pass_retention := Some retention;
     pass_efficiency := effective_eps;
     pass_mass := m;
     pass_diameter := sphere_diameter m rho |}.

(** [n] passes in all: the first, then [n - 1] refinements. *)
Definition passes (n : nat) (U k rho eps : dbl)
    (planet_type material_type : Z) : pass :=
  Nat.iter (Nat.pred n) (refine_pass U k rho eps planet_type material_type)
    (first_pass U k rho eps).

End Solver.

(* ================================================================== *)
(** * [main], C port *)
(* ================================================================== *)

(** What a run receives once [argv] has been read: the mode letter
    [argv[1][0]], the three numbers as [atof] and the defaults left them, and
    the three optional names ([None] for a null pointer; [has_object] is set
    exactly when [object_name] is).  Reading [argv] itself, and the usage
    message for fewer than two arguments, are embedded further down, in
    [request_of_argv] and [main_argv]. *)
Record request : Type := {
  mode : ascii;
  quantity : dbl;          (* argv[2]: m, D_km or v_km_s *)
  rho : dbl;
  eps : dbl;
  object_name : option string;
  planet_name : option string;
  material_name : option string
}.

(** One constructor per [printf] / [fprintf] format of [main]. *)
Inductive line : Type :=
| OBJECT (name : string)
| PLANET (name : string) (U : dbl)
| MATERIAL (name : string) (retention : dbl)
| INPUT_m (m eps : dbl)
| INPUT_D (D_km rho eps : dbl)
| INPUT_v (v_km_s rho eps : dbl)
| TARGET (U_over_eff effective_eps : dbl)
| RESULT_mass (m in_mercury in_ceres : dbl)
| SPEED_classical (km_s : dbl)
| SPEED_relativistic (km_s : dbl)
| NOTE_ultra_relativistic
| CONCLUSION_survives (planet : string)
| CONCLUSION_destroyed (planet : string) (km_s : dbl)
| MASS_required (m in_mercury in_ceres : dbl)
| MASS_classical (m : dbl)
| DIAMETER_equivalent (km : dbl)
| NOTE_any_impactor (km v_km_s : dbl) (planet : string)
| ERR_inputs_must_be_positive
| ERR_speed_must_be_below_c
| ERR_first_arg.

(** Standard output, standard error and the exit status. *)
Record outcome : Type := {
  out : list line;
  err : list line;
  status : Z
}.

Definition named {A : Type} (name : option string) (f : string -> A)
  : list A :=
  match name with Some s => [f s] | None => [] end.

Definition display (name : option string) (fallback : string) : string :=
  match name with Some s => s | None => fallback end.

(** The [if (v_rel >= 0.99 * c)] that closes modes [m] and [d]. *)
Definition conclusion (planet_name : option string) (v_rel : dbl)
  : list line :=
  if v_rel >=? #0.99 * c then
    [NOTE_ultra_relativistic;
     CONCLUSION_survives (display planet_name "TARGET")]
  else
    [CONCLUSION_destroyed (display planet_name "TARGET") (v_rel / #1000.0)].

Definition is_mode (lower upper : ascii) (m : ascii) : bool :=
  Ascii.eqb m lower || Ascii.eqb m upper.

(** [main] once [argv] has been read, in the exact reading; [Binary64.main]
    is the same text on binary64 values. *)
Definition main (r : request) : outcome :=
  let planet_type := get_planet_type (planet_name r) in
  let material_type := get_material_type (material_name r) in
  let U := get_planetary_binding_energy planet_type in
  if is_mode "m" "M" (mode r) then
    let m := quantity r in
    let eps := eps r in
    if (m <=? #0.0) || (eps <=? #0.0) then
      {| out := []; err := [ERR_inputs_must_be_positive]; status := 1 |}
    else
      let s := mode_m atmospheric_retention cbrt U m eps
                 planet_type material_type in
      {| out :=
           named (object_name r) OBJECT
           ++ named (planet_name r) (fun n => PLANET n U)
           ++ named (material_name r) (fun n => MATERIAL n (sv_retention s))
           ++ [INPUT_m m eps;
               TARGET (U / sv_effective_eps s) (sv_effective_eps s);
               SPEED_classical (sv_v_class s / #1000.0);
               SPEED_relativistic (sv_v_rel s / #1000.0)]
           ++ conclusion (planet_name r) (sv_v_rel s);
         err := [];
         status := 0 |}
  else if is_mode "d" "D" (mode r) then
    let D_km := quantity r in
    let rho := rho r in
    let eps := eps r in
    if (D_km <=? #0.0) || (rho <=? #0.0) || (eps <=? #0.0) then
      {| out := []; err := [ERR_inputs_must_be_positive]; status := 1 |}
    else
      let s := mode_d atmospheric_retention U D_km rho eps
                 planet_type material_type in
      {| out :=
           named (object_name r) OBJECT
           ++ named (planet_name r) (fun n => PLANET n U)
           ++ named (material_name r) (fun n => MATERIAL n (sv_retention s))
           ++ [INPUT_D D_km rho eps;
               TARGET (U / sv_effective_eps s) (sv_effective_eps s);
               RESULT_mass (sv_m s) (sv_m s / MERCURY_MASS)
                 (sv_m s / CERES_MASS);
               SPEED_classical (sv_v_class s / #1000.0);
               SPEED_relativistic (sv_v_rel s / #1000.0)]
           ++ conclusion (planet_name r) (sv_v_rel s);
         err := [];
         status := 0 |}
  else if is_mode "v" "V" (mode r) then
    let v_km_s := quantity r in
    let rho := rho r in
    let eps := eps r in
    if (v_km_s <=? #0.0) || (rho <=? #0.0) || (eps <=? #0.0) then
      {| out := []; err := [ERR_inputs_must_be_positive]; status := 1 |}
    else
      let header :=
        named (object_name r) OBJECT
        ++ [PLANET (display (planet_name r) "target") U] in
      let v := v_km_s * #1000.0 in
      let beta := v / c in
      if beta >=? #1.0 then
        {| out := header; err := [ERR_speed_must_be_below_c]; status := 1 |}
      else
        let s := mode_v atmospheric_retention cbrt U v beta rho eps
                   planet_type material_type in
        {| out :=
             header
             ++ named (material_name r)
                  (fun n => MATERIAL n (mv_retention s))
             ++ [INPUT_v v_km_s rho eps;
                 TARGET (U / mv_effective_eps s) (mv_effective_eps s);
                 MASS_required (mv_m_req s) (mv_m_req s / MERCURY_MASS)
                   (mv_m_req s / CERES_MASS);
                 MASS_classical (mv_m_class s);
                 DIAMETER_equivalent (mv_D s / #1000.0);
                 NOTE_any_impactor (mv_D s / #1000.0) v_km_s
                   (display (planet_name r) "target")];
           err := [];
           status := 0 |}
  else
    {| out := []; err := [ERR_first_arg]; status := 1 |}.

(** The verdict a run prints, if it prints one. *)
Inductive verdict : Type := DESTROYED | SURVIVES.

Definition verdict_of_line (l : line) : option verdict :=
  match l with
  | CONCLUSION_destroyed _ _ => Some DESTROYED
  | CONCLUSION_survives _ => Some SURVIVES
  | _ => None
  end.

Fixpoint printed_verdict (ls : list line) : option verdict :=
  match ls with
  | [] => None
  | l :: rest =>
      match verdict_of_line l with
      | Some v => Some v
      | None => printed_verdict rest
      end
  end.

(* ================================================================== *)
(** * Vocabulary of the statements *)
(* ================================================================== *)

(** A number the command line can carry: finite and strictly positive, or
    on the other side of the positivity test. *)
Definition finite_positive (a : dbl) : Prop :=
  exists x : R, a = Num x /\ (0 < x)%R.

Definition non_positive (a : dbl) : Prop :=
  match a with
  | Num x => (x <= 0)%R
  | NInf => True
  | PInf | NaN => False
  end.

(** The numbers a mode requires: mode [m] reads no density. *)
Definition valid_inputs (r : request) : Prop :=
  finite_positive (quantity r)
  /\ finite_positive (eps r)
  /\ (is_mode "m" "M" (mode r) = false -> finite_positive (rho r)).

Definition some_input_non_positive (r : request) : Prop :=
  non_positive (quantity r)
  \/ non_positive (eps r)
  \/ (is_mode "m" "M" (mode r) = false /\ non_positive (rho r)).

Definition known_mode (r : request) : bool :=
  is_mode "m" "M" (mode r) || is_mode "d" "D" (mode r)
  || is_mode "v" "V" (mode r).

(** The relativistic speed [v_rel] that modes [m] and [d] compute. *)
Definition required_speed (r : request) : dbl :=
  let planet_type := get_planet_type (planet_name r) in
  let material_type := get_material_type (material_name r) in
  let U := get_planetary_binding_energy planet_type in
  if is_mode "m" "M" (mode r) then
    sv_v_rel (mode_m atmospheric_retention cbrt U (quantity r) (eps r)
                planet_type material_type)
  else
    sv_v_rel (mode_d atmospheric_retention U (quantity r) (rho r) (eps r)
                planet_type material_type).





(** [beta2 = 1 - 1 / gamma^2] at [gamma = 1 + y], and the kinetic energy per
    unit mass at [beta = b], as real functions. *)
Definition beta2_of (y : R) : R := (1 - 1 / ((1 + y) * (1 + y)))%R.

Definition energy_per_mass_at (b : R) : R :=
  ((1 / sqrt (1 - b * b) - 1) * c_real * c_real)%R.

(** The mass mode [d] computes for a diameter of 1.0 km at 7800 kg/m^3. *)
Definition one_km_iron_mass : R :=
  (7800 * (4.0 / 3.0 * 3.14159265358979323846
           * (1.0 * 1000.0 / 2.0 * (1.0 * 1000.0 / 2.0)
              * (1.0 * 1000.0 / 2.0))))%R.

(** Runs from the README and the header comment of the sources. *)
Definition run_v_pluto_stony : request :=
  {| mode := "v"; quantity := #30000; rho := #2000; eps := #0.25;
     object_name := Some "30,000 km/s at 2000 kg/m^3"%string;
     planet_name := Some "pluto"%string;
     material_name := Some "stony"%string |}.

Definition run_d_pluto_iron : request :=
  {| mode := "d"; quantity := #1.0; rho := #7800; eps := #0.25;
     object_name := Some "1km iron"%string;
     planet_name := Some "pluto"%string;
     material_name := Some "iron"%string |}.

(** A speed above that of light, and a negative mass. *)
Definition run_v_too_fast : request :=
  {| mode := "v"; quantity := #300000; rho := #3000.0; eps := #1.0;
     object_name := None; planet_name := None; material_name := None |}.

Definition run_m_negative : request :=
  {| mode := "m"; quantity := #(-5); rho := #3000.0; eps := #1.0;
     object_name := None; planet_name := None; material_name := None |}.


(** Case analysis on the comparisons of reals inside the [dbl] operations,
    and on the chain of tests on a planet or material type. *)
Ltac case_dec :=
  match goal with
  | |- context [Rlt_dec ?a ?b] => destruct (Rlt_dec a b)
  | |- context [Rle_dec ?a ?b] => destruct (Rle_dec a b)
  | |- context [Req_dec_T ?a ?b] => destruct (Req_dec_T a b)
  end.

Ltac case_planet :=
  repeat match goal with
         | |- context [Z.eqb ?a ?b] => destruct (Z.eqb a b)
         end.

(* ================================================================== *)
(** * The binary64 reading *)
(* ================================================================== *)

(** The same source lines on IEEE 754 binary64 values, where [+], [-], [*],
    [/] and [sqrt] round to nearest as the C operators and [sqrt] of libm
    do.  Decimal constants denote the nearest binary64 value, as [atof] and
    the C compiler read them.  First the four speed lines of modes [m] and
    [d], then the whole of [main]. *)
Module Binary64.
Import PrimFloat.
Local Open Scope float_scope.
#[local] Set Warnings "-inexact-float".

Definition c : float := 299792458.0.

Definition classical_speed (U effective_eps m : float) : float :=
  sqrt (2.0 * (U / effective_eps) / m).

Definition relativistic_speed (U effective_eps m : float) : float :=
  let gamma := 1.0 + (U / effective_eps) / (m * c * c) in
  let beta2 := 1.0 - 1.0 / (gamma * gamma) in
  c * sqrt (if beta2 <=? 0.0 then 0.0 else beta2).

(** Mode [v]'s [gamma] and [k_per_mass]. *)
Definition relativisticEnergyPerMass (beta : float) : float :=
  let gamma := 1.0 / sqrt (1.0 - beta * beta) in
  (gamma - 1.0) * c * c.

(** Binding energies of Jupiter, of Pluto and of the default body, and the
    runs evaluated below. *)
Definition U_jupiter : float := 2.06e36.
Definition U_pluto : float := 2.85e27.
Definition U_default : float := 2.49e32.

(** [unbindEnergy m 4.084070e12 0.25 x jupiter iron]: the estimated
    diameter is 1.375 km, in Jupiter's 1 to 10 km iron band. *)
Definition jupiter_iron_speed : float :=
  relativistic_speed U_jupiter (0.25 * 0.01) 4.084070e12.

Definition jupiter_iron_energy_per_mass : float :=
  U_jupiter / (0.25 * 0.01) / 4.084070e12.

(** [unbindEnergy d 1.0 7800 0.25 x pluto iron]: [pow (500.0, 3.0)] is
    [1.25e8] exactly, which the product of three factors gives as well. *)
Definition pluto_iron_mass : float :=
  7800.0 * ((4.0 / 3.0) * 3.14159265358979323846
            * (500.0 * 500.0 * 500.0)).
Definition pluto_iron_speed : float :=
  relativistic_speed U_pluto (0.25 * 0.99) pluto_iron_mass.

(** [unbindEnergy m 2.31e31 1.0 x vacuum stony]: no atmosphere, so the
    retention is [1.00] whatever the estimated diameter. *)
Definition slow_classical : float :=
  classical_speed U_default (1.0 * 1.00) 2.31e31.
Definition slow_relativistic : float :=
  relativistic_speed U_default (1.0 * 1.00) 2.31e31.

(** ** The whole of [main] on binary64 values

    The same source lines as in the exact reading, transcribed a second time
    on the kernel's floats: every test is the double comparison (false on a
    NaN) and every operation rounds, overflows and underflows as the C
    operator does.  [get_planet_type], [get_material_type] and the types of
    names are shared with the exact reading. *)

Definition PI : float := 3.14159265358979323846.
Definition MERCURY_MASS : float := 3.30e23.
Definition CERES_MASS : float := 9.38e20.

(** [get_planetary_binding_energy]: a [switch] on the planet type, whose
    [PLANET_VACUUM] label falls into [default]. *)
Definition get_planetary_binding_energy (planet_type : Z) : float :=
  if (planet_type =? PLANET_EARTH)%Z then 2.49e32
  else if (planet_type =? PLANET_MARS)%Z then 4.87e30
  else if (planet_type =? PLANET_VENUS)%Z then 1.57e32
  else if (planet_type =? PLANET_JUPITER)%Z then 2.06e36
  else if (planet_type =? PLANET_SATURN)%Z then 2.22e35
  else if (planet_type =? PLANET_URANUS)%Z then 1.19e34
  else if (planet_type =? PLANET_NEPTUNE)%Z then 1.69e34
  else if (planet_type =? PLANET_PLUTO)%Z then 2.85e27
  else if (planet_type =? PLANET_MOON)%Z then 1.23e29
  else 2.49e32.

(** [atmospheric_retention]: each band is an early [return]. *)
Definition atmospheric_retention
    (diameter_km : float) (planet_type material_type : Z) : float :=
  if (planet_type =? PLANET_EARTH)%Z then
    if (material_type =? MATERIAL_IRON)%Z then
      if diameter_km <? 0.01 then 0.00
      else if diameter_km <? 0.03 then 0.20
      else if diameter_km <? 0.05 then 0.50
      else if diameter_km <? 0.10 then 0.80
      else if diameter_km <? 0.20 then 0.90
      else 0.95
    else if (material_type =? MATERIAL_COMETARY)%Z then
      if diameter_km <? 0.05 then 0.00
      else if diameter_km <? 0.20 then 0.05
      else 0.80
    else
      if diameter_km <? 0.01 then 0.01
      else if diameter_km <? 0.03 then 0.10
      else if diameter_km <? 0.20 then 0.50
      else 0.90
  else if (planet_type =? PLANET_MARS)%Z then
    if (material_type =? MATERIAL_IRON)%Z then
      if diameter_km <? 0.001 then 0.80 else 0.95
    else if (material_type =? MATERIAL_COMETARY)%Z then
      if diameter_km <? 0.01 then 0.70 else 0.90
    else
      if diameter_km <? 0.005 then 0.85 else 0.95
  else if (planet_type =? PLANET_VENUS)%Z then
    if (material_type =? MATERIAL_IRON)%Z then
      if diameter_km <? 0.10 then 0.00
      else if diameter_km <? 0.50 then 0.10
      else if diameter_km <? 1.00 then 0.50
      else 0.80
    else if (material_type =? MATERIAL_COMETARY)%Z then
      if diameter_km <? 1.00 then 0.00 else 0.30
    else
      if diameter_km <? 0.20 then 0.00
      else if diameter_km <? 1.00 then 0.05
      else 0.60
  else if (planet_type =? PLANET_JUPITER)%Z then
    if (material_type =? MATERIAL_IRON)%Z then
      if diameter_km <? 1.00 then 0.00
      else if diameter_km <? 10.0 then 0.01
      else 0.20
    else
      if diameter_km <? 10.0 then 0.00 else 0.10
  else if (planet_type =? PLANET_SATURN)%Z then
    if (material_type =? MATERIAL_IRON)%Z then
      if diameter_km <? 0.50 then 0.00
      else if diameter_km <? 5.00 then 0.05
      else 0.30
    else
      if diameter_km <? 5.00 then 0.00 else 0.15
  else if (planet_type =? PLANET_URANUS)%Z then
    if (material_type =? MATERIAL_IRON)%Z then
      if diameter_km <? 2.00 then 0.00
      else if diameter_km <? 10.0 then 0.02
      else 0.25
    else
      if diameter_km <? 10.0 then 0.00 else 0.15
  else if (planet_type =? PLANET_NEPTUNE)%Z then
    if (material_type =? MATERIAL_IRON)%Z then
      if diameter_km <? 3.00 then 0.00
      else if diameter_km <? 15.0 then 0.01
      else 0.20
    else
      if diameter_km <? 15.0 then 0.00 else 0.10
  else if (planet_type =? PLANET_PLUTO)%Z then
    if (material_type =? MATERIAL_IRON)%Z then
      if diameter_km <? 0.001 then 0.95 else 0.99
    else if (material_type =? MATERIAL_COMETARY)%Z then
      if diameter_km <? 0.01 then 0.90 else 0.98
    else
      if diameter_km <? 0.005 then 0.92 else 0.98
  else if (planet_type =? PLANET_MOON)%Z then
    if (material_type =? MATERIAL_IRON)%Z then
      if diameter_km <? 0.001 then 0.99 else 1.00
    else if (material_type =? MATERIAL_COMETARY)%Z then
      if diameter_km <? 0.001 then 0.98 else 0.99
    else
      if diameter_km <? 0.001 then 0.99 else 1.00
  else 1.00.

(** The variables of the modes. *)
Record speed_vars : Type := {
  sv_retention : float;
  sv_effective_eps : float;
  sv_m : float;
  sv_v_class : float;
  sv_v_rel : float
}.

Record mass_vars : Type := {
  mv_retention : float;
  mv_effective_eps : float;
  mv_m_req : float;
  mv_D : float;
  mv_m_class : float
}.

Section Solver.

Variable retention_of : float -> Z -> Z -> float.
Variable cube_root : float -> float.
Variable pow : float -> float -> float.

(** Mode [m]. *)
Definition mode_m (U m eps : float) (planet_type material_type : Z)
  : speed_vars :=
  let volume := m / 3000.0 in
  let D_km := 2.0 * cube_root ((3.0 * volume) / (4.0 * PI)) / 1000.0 in
  let retention := retention_of D_km planet_type material_type in
  let effective_eps := eps * retention in
  {| sv_retention := retention;
     sv_effective_eps := effective_eps;
     sv_m := m;
     sv_v_class := classical_speed U effective_eps m;
     sv_v_rel := relativistic_speed U effective_eps m |}.

(** Mode [d]. *)
Definition mode_d (U D_km rho eps : float) (planet_type material_type : Z)
  : speed_vars :=
  let retention := retention_of D_km planet_type material_type in
  let effective_eps := eps * retention in
  let D := D_km * 1000.0 in
  let volume := (4.0 / 3.0) * PI * pow (D / 2.0) 3.0 in
  let m := rho * volume in
  {| sv_retention := retention;
     sv_effective_eps := effective_eps;
     sv_m := m;
     sv_v_class := classical_speed U effective_eps m;
     sv_v_rel := relativistic_speed U effective_eps m |}.

(** Mode [v], after the [beta >= 1.0] test. *)
Definition mode_v (U v beta rho eps : float) (planet_type material_type : Z)
  : mass_vars :=
  let gamma := 1.0 / sqrt (1.0 - beta * beta) in
  let k_per_mass := (gamma - 1.0) * c * c in
  let m_req := U / (eps * k_per_mass) in
  let volume := m_req / rho in
  let D_initial := 2.0 * cube_root ((3.0 * volume) / (4.0 * PI)) in
  let D_km_initial := D_initial / 1000.0 in
  let retention := retention_of D_km_initial planet_type material_type in
  let effective_eps := eps * retention in
  let m_req := U / (effective_eps * k_per_mass) in
  let volume := m_req / rho in
  let D_initial := 2.0 * cube_root ((3.0 * volume) / (4.0 * PI)) in
  let D_km_initial := D_initial / 1000.0 in
  let retention := retention_of D_km_initial planet_type material_type in
  let effective_eps := eps * retention in
  let m_req := U / (effective_eps * k_per_mass) in
  let volume := m_req / rho in
  let D := 2.0 * cube_root ((3.0 * volume) / (4.0 * PI)) in
  let m_class := 2.0 * U / (effective_eps * v * v) in
  {| mv_retention := retention;
     mv_effective_eps := effective_eps;
     mv_m_req := m_req;
     mv_D := D;
     mv_m_class := m_class |}.

(** The three-pass schedule, as the specification words it. *)

Definition sphere_diameter (m rho : float) : float :=
  2.0 * cube_root ((3.0 * (m / rho)) / (4.0 * PI)).

Record pass : Type := {
  pass_retention : option float;
  pass_efficiency : float;
  pass_mass : float;
  pass_diameter : float
}.

Definition first_pass (U k rho eps : float) : pass :=
  let m := U / (eps * k) in
  {| pass_retention := None;
     pass_efficiency := eps;
     pass_mass := m;
     pass_diameter := sphere_diameter m rho |}.

Definition refine_pass (U k rho eps : float) (planet_type material_type : Z)
    (prev : pass) : pass :=
  let retention :=
    retention_of (pass_diameter prev / 1000.0) planet_type material_type in
  let effective_eps := eps * retention in
  let m := U / (effective_eps * k) in
  {| pass_retention := Some retention;
     pass_efficiency := effective_eps;
     pass_mass := m;
     pass_diameter := sphere_diameter m rho |}.

(** [n] passes in all: the first, then [n - 1] refinements. *)
Definition passes (n : nat) (U k rho eps : float)
    (planet_type material_type : Z) : pass :=
  Nat.iter (Nat.pred n) (refine_pass U k rho eps planet_type material_type)
    (first_pass U k rho eps).

End Solver.

(** The request, the printed lines and the outcome, on binary64 values. *)
Record request : Type := {
  mode : ascii;
  quantity : float;          (* argv[2]: m, D_km or v_km_s *)
  rho : float;
  eps : float;
  object_name : option string;
  planet_name : option string;
  material_name : option string
}.

Inductive line : Type :=
| OBJECT (name : string)
| PLANET (name : string) (U : float)
| MATERIAL (name : string) (retention : float)
| INPUT_m (m eps : float)
| INPUT_D (D_km rho eps : float)
| INPUT_v (v_km_s rho eps : float)
| TARGET (U_over_eff effective_eps : float)
| RESULT_mass (m in_mercury in_ceres : float)
| SPEED_classical (km_s : float)
| SPEED_relativistic (km_s : float)
| NOTE_ultra_relativistic
| CONCLUSION_survives (planet : string)
| CONCLUSION_destroyed (planet : string) (km_s : float)
| MASS_required (m in_mercury in_ceres : float)
| MASS_classical (m : float)
| DIAMETER_equivalent (km : float)
| NOTE_any_impactor (km v_km_s : float) (planet : string)
| ERR_inputs_must_be_positive
| ERR_speed_must_be_below_c
| ERR_first_arg.

Record outcome : Type := {
  out : list line;
  err : list line;
  status : Z
}.

(** The [if (v_rel >= 0.99 * c)] that closes modes [m] and [d]. *)
Definition conclusion (planet_name : option string) (v_rel : float)
  : list line :=
  if 0.99 * c <=? v_rel then
    [NOTE_ultra_relativistic;
     CONCLUSION_survives (display planet_name "TARGET")]
  else
    [CONCLUSION_destroyed (display planet_name "TARGET") (v_rel / 1000.0)].

Section Libm.

(** The two functions of libm that [main] calls besides [sqrt]; what they
    return is theirs to say. *)
Variable cbrt : float -> float.
Variable pow : float -> float -> float.

Definition main (r : request) : outcome :=
  let planet_type := get_planet_type (planet_name r) in
  let material_type := get_material_type (material_name r) in
  let U := get_planetary_binding_energy planet_type in
  if is_mode "m" "M" (mode r) then
    let m := quantity r in
    let eps := eps r in
    if (m <=? 0.0) || (eps <=? 0.0) then
      {| out := []; err := [ERR_inputs_must_be_positive]; status := 1 |}
    else
      let s := mode_m atmospheric_retention cbrt U m eps
                 planet_type material_type in
      {| out :=
           named (object_name r) OBJECT
           ++ named (planet_name r) (fun n => PLANET n U)
           ++ named (material_name r) (fun n => MATERIAL n (sv_retention s))
           ++ [INPUT_m m eps;
               TARGET (U / sv_effective_eps s) (sv_effective_eps s);
               SPEED_classical (sv_v_class s / 1000.0);
               SPEED_relativistic (sv_v_rel s / 1000.0)]
           ++ conclusion (planet_name r) (sv_v_rel s);
         err := [];
         status := 0 |}
  else if is_mode "d" "D" (mode r) then
    let D_km := quantity r in
    let rho := rho r in
    let eps := eps r in
    if (D_km <=? 0.0) || (rho <=? 0.0) || (eps <=? 0.0) then
      {| out := []; err := [ERR_inputs_must_be_positive]; status := 1 |}
    else
      let s := mode_d atmospheric_retention pow U D_km rho eps
                 planet_type material_type in
      {| out :=
           named (object_name r) OBJECT
           ++ named (planet_name r) (fun n => PLANET n U)
           ++ named (material_name r) (fun n => MATERIAL n (sv_retention s))
           ++ [INPUT_D D_km rho eps;
               TARGET (U / sv_effective_eps s) (sv_effective_eps s);
               RESULT_mass (sv_m s) (sv_m s / MERCURY_MASS)
                 (sv_m s / CERES_MASS);
               SPEED_classical (sv_v_class s / 1000.0);
               SPEED_relativistic (sv_v_rel s / 1000.0)]
           ++ conclusion (planet_name r) (sv_v_rel s);
         err := [];
         status := 0 |}
  else if is_mode "v" "V" (mode r) then
    let v_km_s := quantity r in
    let rho := rho r in
    let eps := eps r in
    if (v_km_s <=? 0.0) || (rho <=? 0.0) || (eps <=? 0.0) then
      {| out := []; err := [ERR_inputs_must_be_positive]; status := 1 |}
    else
      let header :=
        named (object_name r) OBJECT
        ++ [PLANET (display (planet_name r) "target") U] in
      let v := v_km_s * 1000.0 in
      let beta := v / c in
      if 1.0 <=? beta then
        {| out := header; err := [ERR_speed_must_be_below_c]; status := 1 |}
      else
        let s := mode_v atmospheric_retention cbrt U v beta rho eps
                   planet_type material_type in
        {| out :=
             header
             ++ named (material_name r)
                  (fun n => MATERIAL n (mv_retention s))
             ++ [INPUT_v v_km_s rho eps;
                 TARGET (U / mv_effective_eps s) (mv_effective_eps s);
                 MASS_required (mv_m_req s) (mv_m_req s / MERCURY_MASS)
                   (mv_m_req s / CERES_MASS);
                 MASS_classical (mv_m_class s);
                 DIAMETER_equivalent (mv_D s / 1000.0);
                 NOTE_any_impactor (mv_D s / 1000.0) v_km_s
                   (display (planet_name r) "target")];
           err := [];
           status := 0 |}
  else
    {| out := []; err := [ERR_first_arg]; status := 1 |}.

(** The variables of the mode, [m] or [d], that a request runs. *)
Definition speed_run (r : request) : speed_vars :=
  let planet_type := get_planet_type (planet_name r) in
  let material_type := get_material_type (material_name r) in
  let U := get_planetary_binding_energy planet_type in
  if is_mode "m" "M" (mode r) then
    mode_m atmospheric_retention cbrt U (quantity r) (eps r)
      planet_type material_type
  else
    mode_d atmospheric_retention pow U (quantity r) (rho r) (eps r)
      planet_type material_type.

End Libm.

(** The positivity test of the request's mode: [m <= 0.0 || eps <= 0.0] in
    mode [m], [D_km <= 0.0 || rho <= 0.0 || eps <= 0.0] in mode [d] (and the
    same on [v_km_s] in mode [v]). *)
Definition turned_away (r : request) : bool :=
  if is_mode "m" "M" (mode r) then
    (quantity r <=? 0.0) || (eps r <=? 0.0)
  else
    (quantity r <=? 0.0) || (rho r <=? 0.0) || (eps r <=? 0.0).

(** The verdict a run prints, if it prints one. *)
Definition verdict_of_line (l : line) : option verdict :=
  match l with
  | CONCLUSION_destroyed _ _ => Some DESTROYED
  | CONCLUSION_survives _ => Some SURVIVES
  | _ => None
  end.

Fixpoint printed_verdict (ls : list line) : option verdict :=
  match ls with
  | [] => None
  | l :: rest =>
      match verdict_of_line l with
      | Some v => Some v
      | None => printed_verdict rest
      end
  end.

(** Stand-ins for libm, to run the program on an input: [pow (x, 3.0)] as a
    product, which is exact at the half diameters of the runs below (500.0
    and 187.5), and a cube root by Newton's iteration from [x] itself.  No
    statement depends on them but the runs that name them. *)
Definition pow_by_products (x y : float) : float := x * x * x.

Fixpoint newton_cbrt (n : nat) (x y : float) : float :=
  match n with
  | O => y
  | S n' => newton_cbrt n' x ((2.0 * y + x / (y * y)) / 3.0)
  end.

Definition cbrt_by_newton (x : float) : float :=
  if (x =? 0.0) || (abs x =? infinity) || negb (x =? x) then x
  else newton_cbrt 2000 x x.

(** Runs from the header comment and the README. *)
Definition run_v_pluto_stony : request :=
  {| mode := "v"; quantity := 30000.0; rho := 2000.0; eps := 0.25;
     object_name := Some "30,000 km/s at 2000 kg/m^3"%string;
     planet_name := Some "pluto"%string;
     material_name := Some "stony"%string |}.

Definition run_d_pluto_iron : request :=
  {| mode := "d"; quantity := 1.0; rho := 7800.0; eps := 0.25;
     object_name := Some "1km iron"%string;
     planet_name := Some "pluto"%string;
     material_name := Some "iron"%string |}.

(** [unbindEnergy v 299792.458]: the double that [atof] returns is below
    [c / 1000]. *)
Definition run_v_just_below_c : request :=
  {| mode := "v"; quantity := 299792.458; rho := 3000.0; eps := 1.0;
     object_name := None; planet_name := None; material_name := None |}.

(** [unbindEnergy d nan 3000 1]: nothing is not positive. *)
Definition run_d_nan : request :=
  {| mode := "d"; quantity := nan; rho := 3000.0; eps := 1.0;
     object_name := None; planet_name := None; material_name := None |}.

(** [unbindEnergy d 1 1e300 1 x jupiter stony]: the mass overflows. *)
Definition run_d_overflow : request :=
  {| mode := "d"; quantity := 1.0; rho := 1e300; eps := 1.0;
     object_name := Some "x"%string;
     planet_name := Some "jupiter"%string;
     material_name := Some "stony"%string |}.

(** A positive finite value. *)
Definition positive_finite (x : float) : bool :=
  (0.0 <? x) && (x <? infinity).

(** The README's [d 0.375 2000 0.25 "Apophis" jupiter stony]: below
    Jupiter's first band. *)
Definition run_d_jupiter_stony : request :=
  {| mode := "d"; quantity := 0.375; rho := 2000.0; eps := 0.25;
     object_name := Some "Apophis"%string;
     planet_name := Some "jupiter"%string;
     material_name := Some "stony"%string |}.
End Binary64.

(* ================================================================== *)
(** * The QB64 port: names *)
(* ================================================================== *)

(** [UCASE$] maps the letters a to z to A to Z and leaves every other byte
    alone. *)
Definition ucase_char (ch : ascii) : ascii :=
  let n := N_of_ascii ch in
  if ((97 <=? n) && (n <=? 122))%N then ascii_of_N (n - 32) else ch.

Fixpoint UCASE (s : string) : string :=
  match s with
  | EmptyString => EmptyString
  | String ch rest => String (ucase_char ch) (UCASE rest)
  end.

(** [GetPlanetType]: [SELECT CASE] on the upper-cased name. *)
Definition GetPlanetType (planet_name : string) : Z :=
  if (String.length planet_name =? 0)%nat then PLANET_EARTH
  else
    let pname := UCASE planet_name in
    if String.eqb pname "EARTH" then PLANET_EARTH
    else if String.eqb pname "MARS" then PLANET_MARS
    else if String.eqb pname "VENUS" then PLANET_VENUS
    else if String.eqb pname "JUPITER" then PLANET_JUPITER
    else if String.eqb pname "SATURN" then PLANET_SATURN
    else if String.eqb pname "URANUS" then PLANET_URANUS
    else if String.eqb pname "NEPTUNE" then PLANET_NEPTUNE
    else if String.eqb pname "PLUTO" then PLANET_PLUTO
    else if String.eqb pname "MOON" then PLANET_MOON
    else if String.eqb pname "VACUUM" then PLANET_VACUUM
    else PLANET_EARTH.

(** [GetMaterialType]. *)
Definition GetMaterialType (material_name : string) : Z :=
  if (String.length material_name =? 0)%nat then MATERIAL_STONY
  else
    let mname := UCASE material_name in
    if String.eqb mname "IRON" then MATERIAL_IRON
    else if String.eqb mname "COMETARY" then MATERIAL_COMETARY
    else if String.eqb mname "STONY" then MATERIAL_STONY
    else MATERIAL_STONY.

(* ================================================================== *)
(** * The QB64 port: the command line *)
(* ================================================================== *)

(** [ASC]: the code of a character. *)
Definition ASC (ch : ascii) : Z := Z.of_N (N_of_ascii ch).

(** A QB64 truth value: zero is false, anything else true; [NOT] and [AND]
    are the bitwise operations. *)
Definition truthy (z : Z) : bool := negb (z =? 0)%Z.

(** An INTEGER array as a function of the index, and one assignment to it. *)
Definition array_set (a : Z -> Z) (i v : Z) : Z -> Z :=
  fun j => if (j =? i)%Z then v else a j.

(** The table [numeric(255)]: zero everywhere, then [-1] at the codes 48 to
    57 by the [FOR] loop and at the codes of [.], [-], [+], [e] and [E]. *)
Definition numeric : Z -> Z :=
  let t := fun _ : Z => 0%Z in
  let t := fold_left (fun a i => array_set a i (-1)%Z)
             (map (fun k => (48 + Z.of_nat k)%Z) (seq 0 10)) t in
  let t := array_set t (ASC ".") (-1)%Z in
  let t := array_set t (ASC "-") (-1)%Z in
  let t := array_set t (ASC "+") (-1)%Z in
  let t := array_set t (ASC "e") (-1)%Z in
  let t := array_set t (ASC "E") (-1)%Z in
  t.

(** The [FOR I = 1 TO l] loop of [IsNumeric]: leave with 0 at the first
    character whose table entry is false, else fall through to [-1]. *)
Fixpoint IsNumeric_scan (s : string) : Z :=
  match s with
  | EmptyString => (-1)%Z
  | String ch rest =>
      if truthy (Z.lnot (numeric (ASC ch))) then 0%Z
      else IsNumeric_scan rest
  end.

Definition IsNumeric (A : string) : Z :=
  if (String.length A =? 0)%nat then 0%Z else IsNumeric_scan A.

(** [CHR$(34)], the double quote. *)
Definition CHR34 : ascii := ascii_of_nat 34.

(** The variables of [ParseArgs] that live across iterations; [pa_args] holds
    [args(1)] to [args(count)]. *)
Record parse_vars : Type := {
  pa_in_quotes : Z;
  pa_current_arg : string;
  pa_args : list string
}.

(** [count = count + 1 : args(count) = current_arg : current_arg = ""].  The
    caller's array is [args(1 TO 25)]: a twenty-sixth store is a
    subscript-out-of-range error, [None]. *)
Definition store_arg (st : parse_vars) : option parse_vars :=
  if (List.length (pa_args st) <? 25)%nat then
    Some {| pa_in_quotes := pa_in_quotes st;
            pa_current_arg := EmptyString;
            pa_args := pa_args st ++ [pa_current_arg st] |}
  else None.

(** One turn of the [WHILE] loop, on the character [MID$(temp, i, 1)]. *)
Definition parse_char (st : parse_vars) (ch : ascii) : option parse_vars :=
  if Ascii.eqb ch CHR34 then
    Some {| pa_in_quotes := (1 - pa_in_quotes st)%Z;
            pa_current_arg := pa_current_arg st;
            pa_args := pa_args st |}
  else if Ascii.eqb ch " " && (pa_in_quotes st =? 0)%Z then
    if (0 <? String.length (pa_current_arg st))%nat then store_arg st
    else Some st
  else
    if negb (Ascii.eqb ch CHR34) then
      Some {| pa_in_quotes := pa_in_quotes st;
              pa_current_arg :=
                (pa_current_arg st ++ String ch EmptyString)%string;
              pa_args := pa_args st |}
    else Some st.

Fixpoint parse_loop (temp : string) (st : parse_vars) : option parse_vars :=
  match temp with
  | EmptyString => Some st
  | String ch rest =>
      match parse_char st ch with
      | Some st' => parse_loop rest st'
      | None => None
      end
  end.

(** [ParseArgs]: the arguments stored, in order; the count returned is their
    number.  The counter [i] is an [INTEGER], of 16 bits, and the loop
    [WHILE i <= LEN(temp)] is left with [i = LEN(temp) + 1]: that needs
    [LEN(temp) <= 32766].  On a longer line [i = i + 1] passes 32767 before
    the test can fail, and the function returns no count: [None]. *)
Definition ParseArgs (cmdline : string) : option (list string) :=
  let temp := (cmdline ++ " ")%string in
  if (32766 <? Z.of_nat (String.length temp))%Z then None
  else
    match parse_loop temp {| pa_in_quotes := 0; pa_current_arg := EmptyString;
                             pa_args := [] |} with
    | None => None
    | Some st =>
        if (0 <? String.length (pa_current_arg st))%nat then
          match store_arg st with
          | Some st' => Some (pa_args st')
          | None => None
          end
        else Some (pa_args st)
    end.

(** ** Vocabulary for the command line *)

(** The 256 bytes. *)
Definition all_ascii : list ascii := map ascii_of_nat (seq 0 256).

(** A C string holds no NUL byte before its end. *)
Fixpoint c_string (s : string) : bool :=
  match s with
  | EmptyString => true
  | String ch rest => negb (Ascii.eqb ch zero) && c_string rest
  end.

Fixpoint all_chars (p : ascii -> bool) (s : string) : bool :=
  match s with
  | EmptyString => true
  | String ch rest => p ch && all_chars p rest
  end.

Definition has_char (ch : ascii) (s : string) : bool :=
  negb (all_chars (fun x => negb (Ascii.eqb x ch)) s).

(** The characters the table [numeric] marks. *)
Definition numeric_char (ch : ascii) : bool :=
  has_char ch "0123456789.-+eE".

(** An argument as a shell user writes it for [ParseArgs]: between double
    quotes when it holds a space, bare otherwise; arguments are separated by
    one space. *)
Definition quote_arg (a : string) : string :=
  String CHR34 (a ++ String CHR34 EmptyString).

Definition show_arg (a : string) : string :=
  if has_char " " a then quote_arg a else a.

Fixpoint show_args (l : list string) : string :=
  match l with
  | [] => EmptyString
  | a :: rest =>
      match rest with
      | [] => show_arg a
      | _ :: _ => (show_arg a ++ String " " (show_args rest))%string
      end
  end.

(** An argument [ParseArgs] can return: not empty, no double quote. *)
Definition plain_arg (a : string) : bool :=
  (0 <? String.length a)%nat && negb (has_char CHR34 a).

(** What holds of the variables of [ParseArgs] at every turn of its loop. *)
Definition parse_invariant (st : parse_vars) : Prop :=
  (List.length (pa_args st) <= 25)%nat
  /\ forallb plain_arg (pa_args st) = true
  /\ has_char CHR34 (pa_current_arg st) = false.

(** ** Names on the QB64 command line *)

(** [args(i)] for the array [args(1 TO 25)]; an element that was never
    assigned holds the empty string.  Every index the program computes lies
    between 1 and the number of stored arguments. *)
Definition arg_at (args : list string) (i : Z) : string :=
  nth (Z.to_nat (i - 1)%Z) args EmptyString.

(** The variables the top-level code sets while it looks for names. *)
Record name_vars : Type := {
  nv_arg_count : Z;
  nv_object_name : string;
  nv_planet_name : string;
  nv_material_name : string;
  nv_has_object : Z;
  nv_has_atmospheric : Z
}.

(** The two blocks that follow the call of [ParseArgs]: planet and material
    as the last two arguments, then the object name. *)
Definition qb_names (args : list string) : name_vars :=
  let arg_count := Z.of_nat (List.length args) in
  let v :=
    {| nv_arg_count := arg_count;
       nv_object_name := EmptyString;
       nv_planet_name := EmptyString;
       nv_material_name := EmptyString;
       nv_has_object := 0;
       nv_has_atmospheric := 0 |} in
  let v :=
    if (6 <=? arg_count)%Z then
      if truthy (Z.land (Z.lnot (IsNumeric (arg_at args (arg_count - 1)%Z)))
                        (Z.lnot (IsNumeric (arg_at args arg_count)))) then
        let planet_name := arg_at args (arg_count - 1)%Z in
        let material_name := arg_at args arg_count in
        let arg_count := (arg_count - 2)%Z in
        if (4 <=? arg_count)%Z then
          if truthy (Z.lnot (IsNumeric (arg_at args arg_count))) then
            {| nv_arg_count := (arg_count - 1)%Z;
               nv_object_name := arg_at args arg_count;
               nv_planet_name := planet_name;
               nv_material_name := material_name;
               nv_has_object := 1;
               nv_has_atmospheric := 1 |}
          else
            {| nv_arg_count := arg_count;
               nv_object_name := EmptyString;
               nv_planet_name := planet_name;
               nv_material_name := material_name;
               nv_has_object := 0;
               nv_has_atmospheric := 1 |}
        else
          {| nv_arg_count := arg_count;
             nv_object_name := EmptyString;
             nv_planet_name := planet_name;
             nv_material_name := material_name;
             nv_has_object := 0;
             nv_has_atmospheric := 1 |}
      else v
    else v in
  if (nv_has_atmospheric v =? 0)%Z then
    if (3 <? nv_arg_count v)%Z then
      if truthy (Z.lnot (IsNumeric (arg_at args (nv_arg_count v)))) then
        {| nv_arg_count := (nv_arg_count v - 1)%Z;
           nv_object_name := arg_at args (nv_arg_count v);
           nv_planet_name := nv_planet_name v;
           nv_material_name := nv_material_name v;
           nv_has_object := 1;
           nv_has_atmospheric := nv_has_atmospheric v |}
      else v
    else v
  else v.

(** From [COMMAND$] to the names: [ParseArgs] is called only on a line that
    is not empty. *)
Definition qb_command_line (cmd : string) : option name_vars :=
  if (0 <? String.length cmd)%nat then
    match ParseArgs cmd with
    | Some args => Some (qb_names args)
    | None => None
    end
  else Some (qb_names []).

(** The first character of a string: [argv[1][0]] in C, the NUL of an empty
    string included. *)
Definition first_char (s : string) : ascii :=
  match s with
  | String ch _ => ch
  | EmptyString => zero
  end.

(** ** Numbers on the QB64 command line *)

(** [LEFT$ (s, 1)]. *)
Definition LEFT1 (s : string) : string :=
  match s with
  | EmptyString => EmptyString
  | String ch _ => String ch EmptyString
  end.

Section QB64Numbers.

(** QB64's [VAL] is what it is. *)
Variable VAL : string -> dbl.

(** What the main module has read when a mode starts to compute, laid out
    as the C port's [request]: the upper-cased mode letter, the numbers as
    [VAL] and the defaults left them, the object name when [has_object] is
    set, planet and material when their strings are not empty.  [None] is
    the usage text, printed when [arg_count < 2].  As in the C port, mode
    [M] reads no density and an unknown mode letter reads nothing. *)
Definition qb_request (args : list string) : option request :=
  let v := qb_names args in
  let arg_count := nv_arg_count v in
  let object_name :=
    if truthy (nv_has_object v) then Some (nv_object_name v) else None in
  let planet_name :=
    if (0 <? String.length (nv_planet_name v))%nat
    then Some (nv_planet_name v) else None in
  let material_name :=
    if (0 <? String.length (nv_material_name v))%nat
    then Some (nv_material_name v) else None in
  if (arg_count <? 2)%Z then None
  else
    let mode_char := UCASE (LEFT1 (arg_at args 1)) in
    if String.eqb mode_char "M" then
      let mass_val := VAL (arg_at args 2) in
      let epsilon := #1.0 in
      let epsilon :=
        if (2 <? arg_count)%Z then VAL (arg_at args 3) else epsilon in
      Some {| mode := first_char mode_char;
              quantity := mass_val;
              rho := #3000.0;
              eps := epsilon;
              object_name := object_name;
              planet_name := planet_name;
              material_name := material_name |}
    else if String.eqb mode_char "D" || String.eqb mode_char "V" then
      let number := VAL (arg_at args 2) in
      let density := #3000.0 in
      let epsilon := #1.0 in
      let density :=
        if (2 <? arg_count)%Z then VAL (arg_at args 3) else density in
      let epsilon :=
        if (3 <? arg_count)%Z then VAL (arg_at args 4) else epsilon in
      Some {| mode := first_char mode_char;
              quantity := number;
              rho := density;
              eps := epsilon;
              object_name := object_name;
              planet_name := planet_name;
              material_name := material_name |}
    else
      Some {| mode := first_char mode_char;
              quantity := #0.0;
              rho := #3000.0;
              eps := #1.0;
              object_name := object_name;
              planet_name := planet_name;
              material_name := material_name |}.

End QB64Numbers.

(* ================================================================== *)
(** * [main], C port: reading [argv] *)
(* ================================================================== *)

(** [argv[i]]. *)
Definition argv_at (argv : list string) (i : nat) : string :=
  nth i argv EmptyString.

(** The names [main] has found when it reaches the modes. *)
Record found_names : Type := {
  fn_object_name : option string;
  fn_planet_name : option string;
  fn_material_name : option string;
  fn_has_object : bool;
  fn_has_atmospheric : bool
}.

Section Argv.

(** The C library: [consumed s] tells that [strtod (s, &endptr)] leaves
    [*endptr] at the terminating NUL, and [atof] is what it is. *)
Variable consumed : string -> bool.
Variable atof : string -> dbl.

(** The block [if (argc > 3) { ... }]. *)
Definition find_names (argv : list string) : found_names :=
  let argc := List.length argv in
  let f :=
    {| fn_object_name := None; fn_planet_name := None;
       fn_material_name := None; fn_has_object := false;
       fn_has_atmospheric := false |} in
  if (3 <? argc)%nat then
    let f :=
      if (6 <=? argc)%nat then
        if negb (consumed (argv_at argv (argc - 2)))
           && negb (consumed (argv_at argv (argc - 1))) then
          let f :=
            {| fn_object_name := fn_object_name f;
               fn_planet_name := Some (argv_at argv (argc - 2));
               fn_material_name := Some (argv_at argv (argc - 1));
               fn_has_object := fn_has_object f;
               fn_has_atmospheric := true |} in
          if (7 <=? argc)%nat then
            if negb (consumed (argv_at argv (argc - 3))) then
              {| fn_object_name := Some (argv_at argv (argc - 3));
                 fn_planet_name := fn_planet_name f;
                 fn_material_name := fn_material_name f;
                 fn_has_object := true;
                 fn_has_atmospheric := fn_has_atmospheric f |}
            else f
          else f
        else f
      else f in
    if negb (fn_has_atmospheric f) then
      let last_arg := argv_at argv (argc - 1) in
      if negb (consumed last_arg) then
        {| fn_object_name := Some last_arg;
           fn_planet_name := fn_planet_name f;
           fn_material_name := fn_material_name f;
           fn_has_object := true;
           fn_has_atmospheric := fn_has_atmospheric f |}
      else f
    else f
  else f.

(** The numbers each mode reads, or the defaults; [None] when [argc < 3],
    where [main] prints the usage and returns 1.  Mode [m] reads no density,
    a field [main] does not look at in that mode; for a first argument that is
    none of the three letters no number is read at all. *)
Definition request_of_argv (argv : list string) : option request :=
  let argc := List.length argv in
  let f := find_names argv in
  let has_object := fn_has_object f in
  if (argc <? 3)%nat then None
  else
    let mode := first_char (argv_at argv 1) in
    let second :=
      (3 <? argc)%nat && (negb has_object || (4 <? argc)%nat) in
    if is_mode "m" "M" mode then
      Some {| mode := mode;
              quantity := atof (argv_at argv 2);
              rho := #3000.0;
              eps := if second then atof (argv_at argv 3) else #1.0;
              object_name := fn_object_name f;
              planet_name := fn_planet_name f;
              material_name := fn_material_name f |}
    else if is_mode "d" "D" mode || is_mode "v" "V" mode then
      Some {| mode := mode;
              quantity := atof (argv_at argv 2);
              rho := if second then atof (argv_at argv 3) else #3000.0;
              eps := if (4 <? argc)%nat && has_object
                     then atof (argv_at argv 4)
                     else if (3 <? argc)%nat && has_object then #1.0
                          else #1.0;
              object_name := fn_object_name f;
              planet_name := fn_planet_name f;
              material_name := fn_material_name f |}
    else
      Some {| mode := mode;
              quantity := #0.0;
              rho := #3000.0;
              eps := #1.0;
              object_name := fn_object_name f;
              planet_name := fn_planet_name f;
              material_name := fn_material_name f |}.

(** [main] from [argv] on; [None] is the usage message on standard error and
    the exit status 1. *)
Definition main_argv (argv : list string) : option outcome :=
  match request_of_argv argv with
  | Some r => Some (main r)
  | None => None
  end.

End Argv.

(** The simplifications every reading of a concrete [argv] shape needs. *)
Ltac read_argv :=
  unfold main_argv, request_of_argv, find_names;
  cbn [List.length Nat.ltb Nat.leb Nat.sub argv_at nth];
  repeat match goal with
         | H : _ = _ |- _ => rewrite H
         end;
  cbn [negb andb orb fn_has_object fn_has_atmospheric
       fn_object_name fn_planet_name fn_material_name].

(* ================================================================== *)
(** * Vocabulary for the solver *)
(* ================================================================== *)

(** The variables of the mode, [m] or [d], that a request runs. *)
Definition speed_run (r : request) : speed_vars :=
  let planet_type := get_planet_type (planet_name r) in
  let material_type := get_material_type (material_name r) in
  let U := get_planetary_binding_energy planet_type in
  if is_mode "m" "M" (mode r) then
    mode_m atmospheric_retention cbrt U (quantity r) (eps r)
      planet_type material_type
  else
    mode_d atmospheric_retention U (quantity r) (rho r) (eps r)
      planet_type material_type.

(** The diameter, in metres, of the sphere of mass [m] and density [rh], as
    a real function. *)
Definition diameter_of (m rh : R) : R :=
  (2.0 * Rcbrt (3.0 * (m / rh) / (4.0 * 3.14159265358979323846)))%R.

(** Evaluation of the integer tests and array reads of the QB64 main module
    on an argument list of known length. *)
Ltac eval_closed :=
  repeat first
    [ progress cbn [List.length nv_arg_count nv_object_name nv_planet_name
                    nv_material_name nv_has_object nv_has_atmospheric]
    | progress cbv zeta
    | match goal with
      | |- context [Z.of_nat ?n] =>
          let z := eval compute in (Z.of_nat n) in
          progress change (Z.of_nat n) with z
      | |- context [Z.sub ?a ?b] =>
          let z := eval compute in (Z.sub a b) in
          lazymatch z with
          | Z0 => idtac | Zpos _ => idtac | Zneg _ => idtac
          end;
          progress change (Z.sub a b) with z
      | |- context [Z.leb ?a ?b] =>
          let r := eval compute in (Z.leb a b) in
          lazymatch r with true => idtac | false => idtac end;
          change (Z.leb a b) with r
      | |- context [Z.ltb ?a ?b] =>
          let r := eval compute in (Z.ltb a b) in
          lazymatch r with true => idtac | false => idtac end;
          change (Z.ltb a b) with r
      | |- context [Z.eqb ?a ?b] =>
          let r := eval compute in (Z.eqb a b) in
          lazymatch r with true => idtac | false => idtac end;
          change (Z.eqb a b) with r
      | |- context [truthy ?z] =>
          let r := eval compute in (truthy z) in
          lazymatch r with true => idtac | false => idtac end;
          change (truthy z) with r
      | |- context [Nat.ltb 0 (String.length EmptyString)] =>
          change (Nat.ltb 0 (String.length EmptyString)) with false
      | |- context [arg_at (?x :: ?l) ?i] =>
          let r := eval cbv [arg_at nth Z.to_nat Z.sub Z.add Z.opp Z.pos_sub
                             Pos.to_nat Pos.iter_op Nat.add Z.succ_double
                             Z.pred_double Z.double Pos.pred_double]
                   in (arg_at (x :: l) i) in
          progress change (arg_at (x :: l) i) with r
      end
    | progress cbv iota ].

(* ================================================================== *)
(** * unbindDose: the radiation dose at the distance of the Moon *)
(* ================================================================== *)

(** A shallow embedding of [planetary-impact-physics/unbindDose.c], in the
    exact reading of [double]. *)
Module Dose.

Definition M_PI : dbl := #3.14159265358979323846.

(** C's [cos]: not a number at an infinity. *)
Definition dcos (a : dbl) : dbl :=
  match a with
  | Num x => Num (cos x)
  | PInf | NInf | NaN => NaN
  end.

Definition calc_dose (F A f M cos_theta : dbl) : dbl :=
  (F * A * f * cos_theta) / M.

(** The eight numbers of [main], as [atof] and the defaults left them. *)
Record inputs : Type := {
  E : dbl;
  eta : dbl;
  d : dbl;
  A : dbl;
  M : dbl;
  f : dbl;
  theta_deg : dbl;
  atmos_trans : dbl
}.

(** One constructor per [printf] of [main] that prints text. *)
Inductive line : Type :=
| TITLE
| RULE
| FLUENCE (F : dbl)
| DOSE_upper (D : dbl)
| WARNING_upper
| DOSE_lower (theta_deg D : dbl)
| WARNING_lower.

(** The two doses [main] computes. *)
Definition D_upper (i : inputs) : dbl :=
  let F := eta i * E i / (#4.0 * M_PI * d i * d i) in
  let F_attenuated := F * atmos_trans i in
  calc_dose F_attenuated (A i) (f i) (M i) #1.0.

Definition D_lower (i : inputs) : dbl :=
  let cos_theta := dcos (theta_deg i * M_PI / #180.0) in
  let F := eta i * E i / (#4.0 * M_PI * d i * d i) in
  let F_attenuated := F * atmos_trans i in
  calc_dose F_attenuated (A i) (f i) (M i) cos_theta.

Definition main (i : inputs) : list line :=
  let F := eta i * E i / (#4.0 * M_PI * d i * d i) in
  let F_attenuated := F * atmos_trans i in
  [TITLE; RULE; FLUENCE F_attenuated; DOSE_upper (D_upper i)]
  ++ (if #8 <? D_upper i then [WARNING_upper] else [])
  ++ [DOSE_lower (theta_deg i) (D_lower i)]
  ++ (if #8 <? D_lower i then [WARNING_lower] else []).

(** Inputs that are numbers, with the energy, the fractions and the
    transmission not negative and the distance and the mass positive. *)
Definition physical (i : inputs) : Prop :=
  exists e h x a m g th tr : R,
    i = {| E := Num e; eta := Num h; d := Num x; A := Num a; M := Num m;
           f := Num g; theta_deg := Num th; atmos_trans := Num tr |}
    /\ (0 <= e)%R /\ (0 <= h)%R /\ (0 < x)%R /\ (0 <= a)%R /\ (0 < m)%R
    /\ (0 <= g)%R /\ (0 <= tr)%R.

(** The same run at [k] times the distance. *)
Definition at_distance (k : R) (i : inputs) : inputs :=
  {| E := E i; eta := eta i; d := Num k * d i; A := A i; M := M i;
     f := f i; theta_deg := theta_deg i; atmos_trans := atmos_trans i |}.

(** The usage line's defaults. *)
Definition defaults : inputs :=
  {| E := #2.49e32; eta := #3e-3; d := #3.844e8; A := #0.7; M := #70.0;
     f := #1.0; theta_deg := #75.0; atmos_trans := #1.0 |}.

End Dose.

(* ================================================================== *)
(** * Real-number facts behind the kinematics *)
(* ================================================================== *)

Section RealKinematics.

Local Open Scope R_scope.

Lemma c_real_pos : 0 < c_real.
Proof. unfold c_real; lra. Qed.

Lemma c_real_sq_pos : 0 < c_real * c_real.
Proof. apply Rmult_lt_0_compat; apply c_real_pos. Qed.

Lemma div_le_bound a b d : 0 < d -> a <= b * d -> a / d <= b.
Proof.
  intros Hd H. apply Rmult_le_reg_r with d; [lra|].
  unfold Rdiv. rewrite Rmult_assoc, Rinv_l by lra. lra.
Qed.

Lemma le_div_bound a b d : 0 < d -> a * d <= b -> a <= b / d.
Proof.
  intros Hd H. apply Rmult_le_reg_r with d; [lra|].
  unfold Rdiv. rewrite Rmult_assoc, Rinv_l by lra. lra.
Qed.

Lemma div_lt_one a d : 0 < d -> a < d -> a / d < 1.
Proof.
  intros Hd H. apply Rmult_lt_reg_r with d; [lra|].
  unfold Rdiv. rewrite Rmult_assoc, Rinv_l by lra. lra.
Qed.

Lemma one_le_div a d : 0 < d -> d <= a -> 1 <= a / d.
Proof. intros Hd H. apply le_div_bound; lra. Qed.

Lemma quotient_nonneg U e m : 0 <= U -> 0 < e -> 0 < m -> 0 <= U / e / m.
Proof.
  intros HU He Hm.
  apply Rmult_le_pos; [apply Rmult_le_pos; [lra|] |];
    apply Rlt_le, Rinv_0_lt_compat; lra.
Qed.

Lemma over_c2_nonneg x : 0 <= x -> 0 <= x / (c_real * c_real).
Proof.
  intros Hx. pose proof c_real_sq_pos.
  apply Rmult_le_pos; [lra|]. apply Rlt_le, Rinv_0_lt_compat; lra.
Qed.

Lemma beta2_of_range y : 0 <= y -> 0 <= beta2_of y < 1.
Proof.
  intros Hy. unfold beta2_of.
  assert (Hg : 1 <= (1 + y) * (1 + y)) by nra.
  assert (Hi : 0 < 1 / ((1 + y) * (1 + y)) <= 1).
  { split.
    - apply Rdiv_lt_0_compat; lra.
    - apply div_le_bound; lra. }
  lra.
Qed.

Lemma beta2_of_quotient y :
  0 <= y -> beta2_of y = (y * y + 2 * y) / ((1 + y) * (1 + y)).
Proof. intros Hy. unfold beta2_of. field. nra. Qed.

Lemma beta2_of_le y : 0 <= y -> beta2_of y <= 2 * y.
Proof.
  intros Hy. rewrite beta2_of_quotient by assumption.
  apply div_le_bound; nra.
Qed.

Lemma sqrt_lt_one x : 0 <= x < 1 -> sqrt x < 1.
Proof.
  intros H. pose proof (sqrt_lt_1_alt x 1 H) as Hs.
  rewrite sqrt_1 in Hs. exact Hs.
Qed.

Lemma sqrt_inv_sq g : 0 < g -> sqrt (1 / (g * g)) = 1 / g.
Proof.
  intros Hg.
  replace (1 / (g * g)) with ((1 / g) * (1 / g)) by (field; lra).
  apply sqrt_square. apply Rlt_le, Rdiv_lt_0_compat; lra.
Qed.

(** The relativistic kinetic energy is at least the classical one:
    [gamma - 1 >= beta^2 / 2]. *)
Lemma lorentz_ge_classical b :
  0 <= b < 1 -> b * b / 2 <= 1 / sqrt (1 - b * b) - 1.
Proof.
  intros Hb.
  set (s := sqrt (1 - b * b)).
  assert (H1 : 0 < 1 - b * b <= 1) by nra.
  assert (Hs0 : 0 < s) by (apply sqrt_lt_R0; lra).
  assert (Hss : s * s = 1 - b * b) by (apply sqrt_sqrt; lra).
  assert (Hs1 : s <= 1) by nra.
  replace (b * b) with (1 - s * s) by lra.
  apply Rle_trans with ((1 - s) / s).
  - apply le_div_bound; [lra|]. nra.
  - right. field. lra.
Qed.

Lemma energy_per_mass_at_bound b :
  0 <= b < 1 -> b * c_real * (b * c_real) / 2 <= energy_per_mass_at b.
Proof.
  intros Hb. pose proof c_real_sq_pos as Hcc. unfold energy_per_mass_at.
  pose proof (lorentz_ge_classical b Hb) as H.
  replace (b * c_real * (b * c_real) / 2)
    with (b * b / 2 * (c_real * c_real)) by lra.
  rewrite Rmult_assoc. apply Rmult_le_compat_r; lra.
Qed.

(** The relativistic speed never exceeds the classical one. *)
Lemma rel_le_classical_real x :
  0 <= x ->
  c_real * sqrt (beta2_of (x / (c_real * c_real))) <= sqrt (2 * x).
Proof.
  intros Hx. pose proof c_real_pos as Hc. pose proof c_real_sq_pos as Hcc.
  pose proof (over_c2_nonneg x Hx) as Hy.
  pose proof (beta2_of_range _ Hy) as Hb.
  pose proof (beta2_of_le _ Hy) as Hle.
  rewrite <- (sqrt_square c_real) at 1 by lra.
  rewrite <- sqrt_mult by lra.
  apply sqrt_le_1_alt.
  replace (2 * x) with (c_real * c_real * (2 * (x / (c_real * c_real))))
    by (field; lra).
  apply Rmult_le_compat_l; lra.
Qed.

(** The cube root is one: its cube gives the argument back. *)
Lemma Rcbrt_cube x : 0 <= x -> Rcbrt x * Rcbrt x * Rcbrt x = x.
Proof.
  intros Hx. unfold Rcbrt.
  destruct (Rlt_dec 0 x) as [Hpos|Hnpos].
  - assert (Hp : 0 < Rpower x (/ 3)) by apply exp_pos.
    replace (Rpower x (/ 3) * Rpower x (/ 3) * Rpower x (/ 3))
      with (Rpower x (/ 3) ^ 3) by ring.
    rewrite <- Rpower_pow by assumption.
    rewrite Rpower_mult.
    replace (/ 3 * INR 3) with 1 by (simpl; field).
    apply Rpower_1; assumption.
  - destruct (Rlt_dec x 0); lra.
Qed.

Lemma Rcbrt_nonneg x : 0 <= x -> 0 <= Rcbrt x.
Proof.
  intros Hx. unfold Rcbrt.
  destruct (Rlt_dec 0 x); [apply Rlt_le, exp_pos|].
  destruct (Rlt_dec x 0); lra.
Qed.

Lemma cube_lt a b : 0 <= a -> a < b -> a * a * a < b * b * b.
Proof.
  intros Ha Hab.
  assert (H1 : a * a <= b * b) by nra.
  assert (H2 : 0 < b * b) by nra.
  nra.
Qed.

(** The cube root lies where the cubes say it does. *)
Lemma Rcbrt_between lo hi x :
  0 <= lo -> lo * lo * lo <= x -> x < hi * hi * hi ->
  lo <= Rcbrt x < hi.
Proof.
  intros Hlo H1 H2.
  assert (Hx : 0 <= x) by nra.
  pose proof (Rcbrt_nonneg x Hx) as Hr.
  pose proof (Rcbrt_cube x Hx) as Hc.
  split.
  - destruct (Rle_lt_dec lo (Rcbrt x)) as [H|H]; [assumption|].
    pose proof (cube_lt (Rcbrt x) lo Hr H). lra.
  - destruct (Rlt_le_dec (Rcbrt x) hi) as [H|H]; [assumption|].
    assert (Hhi : hi * hi * hi <= Rcbrt x * Rcbrt x * Rcbrt x).
    { destruct (Rlt_le_dec hi 0) as [Hneg|Hpos].
      - assert (hi * hi * hi <= 0) by nra. lra.
      - destruct H as [H|H]; [|rewrite H; lra].
        apply Rlt_le, cube_lt; assumption. }
    lra.
Qed.

End RealKinematics.

(* ================================================================== *)
(** * Evaluating the exact reading *)
(* ================================================================== *)

Lemma c_num : c = Num c_real.
Proof. reflexivity. Qed.

Lemma ddiv_num a b : b <> 0%R -> Num a / Num b = Num (a / b).
Proof.
  intros Hb. cbn [ddiv].
  destruct (Req_dec_T b 0); [contradiction | reflexivity].
Qed.

Lemma ddiv_pos_zero a : (0 < a)%R -> Num a / Num 0 = PInf.
Proof.
  intros Ha. cbn [ddiv]. destruct (Req_dec_T 0 0) as [_|H]; [|lra].
  unfold Rsgn. destruct (Rlt_dec 0 a); [reflexivity | lra].
Qed.

Lemma ddiv_by_zero a b : (0 < a)%R -> b = 0%R -> Num a / Num b = PInf.
Proof. intros Ha ->. apply ddiv_pos_zero; assumption. Qed.

Lemma dsqrt_num a : (0 <= a)%R -> dsqrt (Num a) = Num (sqrt a).
Proof.
  intros Ha. cbn [dsqrt]. destruct (Rlt_dec a 0); [lra | reflexivity].
Qed.

Lemma dleb_true a b : (a <= b)%R -> (Num a <=? Num b) = true.
Proof. intros H. cbn [dleb]. destruct (Rle_dec a b); [reflexivity | lra]. Qed.

Lemma dleb_false a b : (b < a)%R -> (Num a <=? Num b) = false.
Proof. intros H. cbn [dleb]. destruct (Rle_dec a b); [lra | reflexivity]. Qed.

Lemma dltb_true a b : (a < b)%R -> (Num a <? Num b) = true.
Proof. intros H. cbn [dltb]. destruct (Rlt_dec a b); [reflexivity | lra]. Qed.

Lemma dltb_false a b : (b <= a)%R -> (Num a <? Num b) = false.
Proof. intros H. cbn [dltb]. destruct (Rlt_dec a b); [lra | reflexivity]. Qed.

Lemma dleb_num_iff a b : (Num a <=? Num b) = true <-> (a <= b)%R.
Proof.
  cbn [dleb]. destruct (Rle_dec a b); split; intros; try assumption;
    try reflexivity; try discriminate; contradiction.
Qed.

Lemma dltb_num_iff a b : (Num a <? Num b) = true <-> (a < b)%R.
Proof.
  cbn [dltb]. destruct (Rlt_dec a b); split; intros; try assumption;
    try reflexivity; try discriminate; contradiction.
Qed.

Lemma non_positive_dleb a : non_positive a -> (a <=? #0.0) = true.
Proof.
  destruct a as [x| | |]; cbn [non_positive]; intros H;
    try contradiction; [|reflexivity].
  apply dleb_true. lra.
Qed.

Lemma finite_positive_dleb a : finite_positive a -> (a <=? #0.0) = false.
Proof. intros (x & -> & Hx). apply dleb_false. lra. Qed.

(** ** The registry and the retention tables *)

Lemma binding_energy_pos planet_type :
  exists u, get_planetary_binding_energy planet_type = Num u /\ (0 < u)%R.
Proof.
  unfold get_planetary_binding_energy.
  case_planet; (eexists; split; [reflexivity | lra]).
Qed.

(** Whatever the diameter, infinite or not a number included, the C table
    answers with a fraction. *)
Lemma retention_range d planet_type material_type :
  exists t,
    atmospheric_retention d planet_type material_type = Num t
    /\ (0 <= t <= 1)%R.
Proof.
  unfold atmospheric_retention.
  case_planet; destruct d; cbn [dltb]; repeat case_dec;
    (eexists; split; [reflexivity | lra]).
Qed.

Lemma retention_monotone d1 d2 planet_type material_type :
  (d1 < d2)%R ->
  (atmospheric_retention (Num d1) planet_type material_type
     <=? atmospheric_retention (Num d2) planet_type material_type) = true.
Proof.
  intros H. unfold atmospheric_retention.
  case_planet; cbn [dltb]; repeat (case_dec; try lra);
    apply dleb_true; lra.
Qed.

Lemma effective_eps_num ep d planet_type material_type :
  (0 < ep)%R ->
  exists e,
    Num ep * atmospheric_retention d planet_type material_type = Num e
    /\ (0 <= e)%R.
Proof.
  intros He.
  destruct (retention_range d planet_type material_type) as (t & -> & Ht).
  exists (ep * t)%R. split; [reflexivity|]. apply Rmult_le_pos; lra.
Qed.

(** The QB64 table does not depend on the diameter at all: the last
    assignment of each branch overwrites the banded ones. *)
Lemma AtmosphericRetention_constant d d' planet_type material_type :
  AtmosphericRetention d planet_type material_type
  = AtmosphericRetention d' planet_type material_type.
Proof. unfold AtmosphericRetention. case_planet; reflexivity. Qed.

(** ** The speed lines *)

Lemma gamma_argument U e m :
  (0 < e)%R -> (0 < m)%R ->
  (U / e / (m * c_real * c_real) = U / e / m / (c_real * c_real))%R.
Proof. intros He Hm. pose proof c_real_pos. field. repeat split; lra. Qed.

Lemma mass_c2_pos m : (0 < m)%R -> (0 < m * c_real * c_real)%R.
Proof.
  intros Hm. pose proof c_real_pos.
  apply Rmult_lt_0_compat; [apply Rmult_lt_0_compat|]; assumption.
Qed.

Lemma relativistic_speed_num U e m :
  (0 <= U)%R -> (0 < e)%R -> (0 < m)%R ->
  relativistic_speed (Num U) (Num e) (Num m)
  = Num (c_real * sqrt (beta2_of (U / e / m / (c_real * c_real)))).
Proof.
  intros HU He Hm.
  pose proof (over_c2_nonneg _ (quotient_nonneg U e m HU He Hm)) as Hy.
  pose proof (beta2_of_range _ Hy) as Hb.
  pose proof (mass_c2_pos m Hm) as Hmcc.
  unfold relativistic_speed. rewrite c_num.
  rewrite (ddiv_num U) by lra. cbn [dmul].
  rewrite ddiv_num by lra.
  cbn [dadd]. rewrite gamma_argument by assumption.
  set (y := (U / e / m / (c_real * c_real))%R) in *.
  cbn [dmul]. rewrite ddiv_num by (apply Rgt_not_eq; nra).
  unfold dsub. cbn [dopp dadd].
  assert (Eb : (1.0 + - (1.0 / ((1.0 + y) * (1.0 + y))))%R = beta2_of y).
  { unfold beta2_of. replace 1.0%R with 1%R by lra. reflexivity. }
  rewrite Eb. cbn [dleb].
  destruct (Rle_dec (beta2_of y) 0.0) as [Hle|Hgt].
  - assert (E : beta2_of y = 0%R) by lra.
    rewrite E. rewrite dsqrt_num by lra. cbn [dmul].
    do 2 f_equal. f_equal. lra.
  - rewrite dsqrt_num by lra. reflexivity.
Qed.

Lemma classical_speed_num U e m :
  (0 <= U)%R -> (0 < e)%R -> (0 < m)%R ->
  classical_speed (Num U) (Num e) (Num m) = Num (sqrt (2 * (U / e / m))).
Proof.
  intros HU He Hm.
  pose proof (quotient_nonneg U e m HU He Hm) as Hx.
  unfold classical_speed.
  rewrite (ddiv_num U) by lra. cbn [dmul].
  rewrite ddiv_num by lra.
  replace (2.0 * (U / e) / m)%R with (2 * (U / e / m))%R
    by (replace 2.0%R with 2%R by lra; field; lra).
  apply dsqrt_num. lra.
Qed.

(** With an effective efficiency of zero the energy target is [+inf]: the
    classical speed is infinite and the relativistic one is [c] itself. *)
Lemma relativistic_speed_inf U m :
  (0 < U)%R -> (0 < m)%R ->
  relativistic_speed (Num U) (Num 0) (Num m) = Num c_real.
Proof.
  intros HU Hm. pose proof (mass_c2_pos m Hm) as Hmcc.
  unfold relativistic_speed. rewrite c_num.
  rewrite ddiv_pos_zero by assumption. cbn [dmul ddiv].
  destruct (Rlt_dec (m * c_real * c_real) 0) as [H|_]; [lra|].
  cbn [dadd dmul ddiv]. unfold dsub. cbn [dopp dadd].
  rewrite dleb_false by lra. rewrite dsqrt_num by lra.
  cbn [dmul]. f_equal.
  replace (1.0 + - 0)%R with 1%R by lra. rewrite sqrt_1. lra.
Qed.

Lemma classical_speed_inf U m :
  (0 < U)%R -> (0 < m)%R ->
  classical_speed (Num U) (Num 0) (Num m) = PInf.
Proof.
  intros HU Hm. unfold classical_speed.
  rewrite ddiv_pos_zero by assumption. cbn [dmul].
  unfold Rsgn. destruct (Rlt_dec 0 2.0); [|lra]. cbn [inf_of ddiv].
  destruct (Rlt_dec m 0); [lra|]. reflexivity.
Qed.

Lemma relativistic_speed_finite U e m :
  (0 < U)%R -> (0 <= e)%R -> (0 < m)%R ->
  exists v, relativistic_speed (Num U) (Num e) (Num m) = Num v.
Proof.
  intros HU He Hm. destruct (Req_dec_T e 0) as [-> | Hne].
  - eexists. apply relativistic_speed_inf; assumption.
  - eexists. apply relativistic_speed_num; lra.
Qed.

Lemma speeds_ordered U e m :
  (0 < U)%R -> (0 <= e)%R -> (0 < m)%R ->
  (relativistic_speed (Num U) (Num e) (Num m)
     <=? classical_speed (Num U) (Num e) (Num m)) = true.
Proof.
  intros HU He Hm.
  destruct (Req_dec_T e 0) as [-> | Hne].
  - rewrite relativistic_speed_inf, classical_speed_inf by assumption.
    reflexivity.
  - rewrite relativistic_speed_num, classical_speed_num by lra.
    apply dleb_true, rel_le_classical_real, quotient_nonneg; lra.
Qed.

Lemma sphere_mass_num D_km rh :
  (0 < D_km)%R -> (0 < rh)%R ->
  exists m,
    Num rh * ((#4.0 / #3.0) * PI * pow3 (Num D_km * #1000.0 / #2.0)) = Num m
    /\ (0 < m)%R.
Proof.
  intros HD Hr. unfold PI.
  rewrite (ddiv_num 4.0) by lra. cbn [dmul].
  rewrite ddiv_num by lra. cbn [pow3 dmul].
  eexists; split; [reflexivity|].
  set (h := (D_km * 1000.0 / 2.0)%R).
  assert (Hh : (0 < h)%R) by (unfold h; lra).
  assert (Hhhh : (0 < h * h * h)%R)
    by (apply Rmult_lt_0_compat; [apply Rmult_lt_0_compat|]; assumption).
  apply Rmult_lt_0_compat; [assumption|].
  apply Rmult_lt_0_compat; [lra | assumption].
Qed.

(** ** Mode [v] *)

Lemma energy_per_mass_num b :
  (0 <= b < 1)%R ->
  relativisticEnergyPerMass (Num b) = Num (energy_per_mass_at b).
Proof.
  intros Hb. unfold relativisticEnergyPerMass, energy_per_mass_at.
  cbn [dmul]. unfold dsub. cbn [dopp dadd].
  assert (H1 : (0 < 1.0 + - (b * b))%R) by nra.
  rewrite dsqrt_num by lra.
  rewrite ddiv_num by (apply Rgt_not_eq, sqrt_lt_R0; lra).
  rewrite c_num. cbn [dadd dmul]. f_equal.
  replace 1.0%R with 1%R by lra. reflexivity.
Qed.

(** The straight-line text of mode [v] is the three-pass schedule, for any
    retention table and cube root: for the C port and for the QB64 port. *)
Lemma mode_v_passes retention_of cube_root U v beta rh ep pt mt :
  let k := relativisticEnergyPerMass beta in
  let p2 := passes retention_of cube_root 2 U k rh ep pt mt in
  let p3 := passes retention_of cube_root 3 U k rh ep pt mt in
  mode_v retention_of cube_root U v beta rh ep pt mt
  = {| mv_retention := retention_of (pass_diameter p2 / #1000.0) pt mt;
       mv_effective_eps := pass_efficiency p3;
       mv_m_req := pass_mass p3;
       mv_D := pass_diameter p3;
       mv_m_class := #2.0 * U / (pass_efficiency p3 * v * v) |}.
Proof. reflexivity. Qed.

Lemma masses_ordered (u e k v : R) :
  (0 < u)%R -> (0 <= e)%R -> (0 < v)%R -> (v * v / 2 <= k)%R ->
  (Num u / (Num e * Num k) <=? #2.0 * Num u / (Num e * Num v * Num v))
  = true.
Proof.
  intros Hu He Hv Hk. cbn [dmul].
  assert (Hvv : (0 < v * v)%R) by (apply Rmult_lt_0_compat; assumption).
  destruct (Req_dec_T e 0) as [-> | Hne].
  - rewrite ddiv_by_zero by lra. rewrite ddiv_by_zero by lra. reflexivity.
  - assert (He' : (0 < e)%R) by lra.
    assert (Hek : (0 < e * k)%R) by (apply Rmult_lt_0_compat; lra).
    assert (Hev : (0 < e * v * v)%R)
      by (rewrite Rmult_assoc; apply Rmult_lt_0_compat; lra).
    rewrite !ddiv_num by lra. apply dleb_true.
    apply div_le_bound; [assumption|].
    replace (2.0 * u / (e * v * v) * (e * k))%R
      with (u * (2 * k / (v * v)))%R
      by (replace 2.0%R with 2%R by lra; field; lra).
    rewrite <- (Rmult_1_r u) at 1.
    apply Rmult_le_compat_l; [lra|].
    apply le_div_bound; lra.
Qed.

Lemma refine_pass_ordered (u k v rh ep : R) pt mt prev :
  (0 < u)%R -> (0 < ep)%R -> (0 < v)%R -> (v * v / 2 <= k)%R ->
  let p := refine_pass atmospheric_retention cbrt (Num u) (Num k) (Num rh)
             (Num ep) pt mt prev in
  (pass_mass p <=? #2.0 * Num u / (pass_efficiency p * Num v * Num v))
  = true.
Proof.
  intros Hu He Hv Hk p. subst p. unfold refine_pass.
  cbn [pass_mass pass_efficiency].
  destruct (effective_eps_num ep (pass_diameter prev / #1000.0) pt mt He)
    as (e & -> & Hee).
  apply masses_ordered; assumption.
Qed.

Lemma beta_in_range v_km_s :
  (0 < v_km_s)%R -> (v_km_s * 1000 < c_real)%R ->
  (0 < v_km_s * 1000.0 / c_real < 1)%R.
Proof.
  intros Hv Hvc. pose proof c_real_pos as Hc. split.
  - apply Rdiv_lt_0_compat; lra.
  - apply div_lt_one; lra.
Qed.

(* ================================================================== *)
(** * What [main] prints *)
(* ================================================================== *)

Lemma is_mode_cases lower upper md :
  is_mode lower upper md = true -> md = lower \/ md = upper.
Proof.
  unfold is_mode. intros H. apply orb_true_iff in H.
  destruct H as [H|H]; apply Ascii.eqb_eq in H; auto.
Qed.

Lemma mode_v_not_m_d md :
  is_mode "v" "V" md = true ->
  is_mode "m" "M" md = false /\ is_mode "d" "D" md = false.
Proof.
  intros H. destruct (is_mode_cases _ _ _ H) as [-> | ->]; split; reflexivity.
Qed.

Lemma mode_d_not_m md :
  is_mode "d" "D" md = true -> is_mode "m" "M" md = false.
Proof.
  intros H. destruct (is_mode_cases _ _ _ H) as [-> | ->]; reflexivity.
Qed.

Lemma printed_verdict_app l1 l2 :
  printed_verdict (l1 ++ l2)
  = match printed_verdict l1 with
    | Some v => Some v
    | None => printed_verdict l2
    end.
Proof.
  induction l1 as [|l l1 IH]; [reflexivity|].
  cbn [app printed_verdict]. destruct (verdict_of_line l); [reflexivity|].
  exact IH.
Qed.

Lemma printed_verdict_named (name : option string) (f : string -> line) :
  (forall s, verdict_of_line (f s) = None) ->
  printed_verdict (named name f) = None.
Proof.
  intros Hf. destruct name as [s|]; cbn [named printed_verdict];
    [rewrite Hf|]; reflexivity.
Qed.

Lemma printed_verdict_conclusion pl v :
  printed_verdict (conclusion pl v)
  = if v >=? #0.99 * c then Some SURVIVES else Some DESTROYED.
Proof. unfold conclusion. destruct (v >=? #0.99 * c); reflexivity. Qed.

(** What each mode prints once its inputs have passed the tests. *)
Lemma main_mode_m r :
  is_mode "m" "M" (mode r) = true ->
  finite_positive (quantity r) -> finite_positive (eps r) ->
  let pt := get_planet_type (planet_name r) in
  let mt := get_material_type (material_name r) in
  let U := get_planetary_binding_energy pt in
  let s := mode_m atmospheric_retention cbrt U (quantity r) (eps r) pt mt in
  main r =
  {| out :=
       named (object_name r) OBJECT
       ++ named (planet_name r) (fun n => PLANET n U)
       ++ named (material_name r) (fun n => MATERIAL n (sv_retention s))
       ++ [INPUT_m (quantity r) (eps r);
           TARGET (U / sv_effective_eps s) (sv_effective_eps s);
           SPEED_classical (sv_v_class s / #1000.0);
           SPEED_relativistic (sv_v_rel s / #1000.0)]
       ++ conclusion (planet_name r) (sv_v_rel s);
     err := [];
     status := 0 |}.
Proof.
  intros Hmd Hq He pt mt U s. unfold main. rewrite Hmd.
  rewrite (finite_positive_dleb _ Hq), (finite_positive_dleb _ He).
  reflexivity.
Qed.

Lemma main_mode_d r :
  is_mode "d" "D" (mode r) = true ->
  finite_positive (quantity r) -> finite_positive (rho r) ->
  finite_positive (eps r) ->
  let pt := get_planet_type (planet_name r) in
  let mt := get_material_type (material_name r) in
  let U := get_planetary_binding_energy pt in
  let s := mode_d atmospheric_retention U (quantity r) (rho r) (eps r)
             pt mt in
  main r =
  {| out :=
       named (object_name r) OBJECT
       ++ named (planet_name r) (fun n => PLANET n U)
       ++ named (material_name r) (fun n => MATERIAL n (sv_retention s))
       ++ [INPUT_D (quantity r) (rho r) (eps r);
           TARGET (U / sv_effective_eps s) (sv_effective_eps s);
           RESULT_mass (sv_m s) (sv_m s / MERCURY_MASS)
             (sv_m s / CERES_MASS);
           SPEED_classical (sv_v_class s / #1000.0);
           SPEED_relativistic (sv_v_rel s / #1000.0)]
       ++ conclusion (planet_name r) (sv_v_rel s);
     err := [];
     status := 0 |}.
Proof.
  intros Hmd Hq Hr He pt mt U s. unfold main.
  rewrite (mode_d_not_m _ Hmd), Hmd.
  rewrite (finite_positive_dleb _ Hq), (finite_positive_dleb _ Hr),
    (finite_positive_dleb _ He).
  reflexivity.
Qed.

(** Mode [v] tests the speed against [c] after it has printed its header. *)
Lemma main_mode_v_header r :
  is_mode "v" "V" (mode r) = true ->
  finite_positive (quantity r) -> finite_positive (rho r) ->
  finite_positive (eps r) ->
  let pt := get_planet_type (planet_name r) in
  let mt := get_material_type (material_name r) in
  let U := get_planetary_binding_energy pt in
  let header :=
    named (object_name r) OBJECT
    ++ [PLANET (display (planet_name r) "target") U] in
  let v := quantity r * #1000.0 in
  let s := mode_v atmospheric_retention cbrt U v (v / c) (rho r) (eps r)
             pt mt in
  main r =
  if v / c >=? #1.0 then
    {| out := header; err := [ERR_speed_must_be_below_c]; status := 1 |}
  else
    {| out :=
         header
         ++ named (material_name r) (fun n => MATERIAL n (mv_retention s))
         ++ [INPUT_v (quantity r) (rho r) (eps r);
             TARGET (U / mv_effective_eps s) (mv_effective_eps s);
             MASS_required (mv_m_req s) (mv_m_req s / MERCURY_MASS)
               (mv_m_req s / CERES_MASS);
             MASS_classical (mv_m_class s);
             DIAMETER_equivalent (mv_D s / #1000.0);
             NOTE_any_impactor (mv_D s / #1000.0) (quantity r)
               (display (planet_name r) "target")];
       err := [];
       status := 0 |}.
Proof.
  intros Hmd Hq Hr He pt mt U header v s. unfold main.
  destruct (mode_v_not_m_d _ Hmd) as [Hm Hd]. rewrite Hm, Hd, Hmd.
  rewrite (finite_positive_dleb _ Hq), (finite_positive_dleb _ Hr),
    (finite_positive_dleb _ He).
  reflexivity.
Qed.

Lemma speed_test_passes v_km_s :
  (0 < v_km_s)%R -> (v_km_s * 1000 < c_real)%R ->
  (Num v_km_s * #1000.0 / c >=? #1.0) = false.
Proof.
  intros Hv Hvc. pose proof c_real_pos as Hc.
  cbn [dmul]. rewrite c_num, ddiv_num by lra.
  unfold dgeb. apply dleb_false.
  pose proof (beta_in_range v_km_s Hv Hvc). lra.
Qed.

Lemma speed_test_fails v_km_s :
  (c_real <= v_km_s * 1000)%R ->
  (Num v_km_s * #1000.0 / c >=? #1.0) = true.
Proof.
  intros Hvc. pose proof c_real_pos as Hc.
  cbn [dmul]. rewrite c_num, ddiv_num by lra.
  unfold dgeb. apply dleb_true.
  replace 1.0%R with 1%R by lra. apply one_le_div; lra.
Qed.

Lemma main_rejects_non_positive r :
  known_mode r = true -> some_input_non_positive r ->
  main r = {| out := []; err := [ERR_inputs_must_be_positive]; status := 1 |}.
Proof.
  unfold known_mode, some_input_non_positive. intros Hk H. unfold main.
  destruct (is_mode "m" "M" (mode r)) eqn:Hm.
  - destruct H as [H | [H | [H _]]]; [| |discriminate];
      rewrite (non_positive_dleb _ H); [reflexivity|].
    rewrite orb_true_r. reflexivity.
  - assert (E : (quantity r <=? #0.0) || (rho r <=? #0.0)
                || (eps r <=? #0.0) = true).
    { destruct H as [H | [H | [_ H]]]; rewrite (non_positive_dleb _ H);
        rewrite ?orb_true_r; reflexivity. }
    destruct (is_mode "d" "D" (mode r)); [rewrite E; reflexivity|].
    cbn [orb] in Hk. rewrite Hk, E. reflexivity.
Qed.

Lemma threshold_num : #0.99 * c = Num (0.99 * c_real).
Proof. reflexivity. Qed.

Lemma verdict_of_speed pl v :
  (printed_verdict (conclusion pl (Num v)) = Some DESTROYED
   <-> (Num v <? #0.99 * c) = true)
  /\ (printed_verdict (conclusion pl (Num v)) = Some SURVIVES
      <-> (#0.99 * c <=? Num v) = true).
Proof.
  rewrite printed_verdict_conclusion. unfold dgeb. rewrite threshold_num.
  rewrite dltb_num_iff, dleb_num_iff. cbn [dleb].
  destruct (Rle_dec (0.99 * c_real) v); split; split; intros H;
    try reflexivity; try discriminate; lra.
Qed.

Lemma printed_verdict_speed_lines (front : list line) pl v :
  printed_verdict front = None ->
  printed_verdict (front ++ conclusion pl v)
  = printed_verdict (conclusion pl v).
Proof. intros H. rewrite printed_verdict_app, H. reflexivity. Qed.

Lemma finite_positive_num x : (0 < x)%R -> finite_positive (Num x).
Proof. intros H. exists x. auto. Qed.

(** ** Names *)





(** ** The 1 km iron body against Pluto *)

Lemma sqrt_between lo hi x :
  (0 <= lo)%R -> (lo * lo <= x)%R -> (x < hi * hi)%R -> (0 <= hi)%R ->
  (lo <= sqrt x < hi)%R.
Proof.
  intros Hlo H1 H2 Hhi.
  assert (Hx : (0 <= x)%R) by nra.
  split.
  - rewrite <- (sqrt_square lo) by assumption. apply sqrt_le_1_alt; assumption.
  - rewrite <- (sqrt_square hi) by assumption. apply sqrt_lt_1_alt; lra.
Qed.

Lemma pluto_iron_vars :
  mode_d atmospheric_retention #2.85e27 #1.0 #7800 #0.25
    PLANET_PLUTO MATERIAL_IRON
  = {| sv_retention := #0.99;
       sv_effective_eps := Num (0.25 * 0.99);
       sv_m := Num one_km_iron_mass;
       sv_v_class := classical_speed #2.85e27 (Num (0.25 * 0.99))
                       (Num one_km_iron_mass);
       sv_v_rel := relativistic_speed #2.85e27 (Num (0.25 * 0.99))
                     (Num one_km_iron_mass) |}.
Proof.
  unfold mode_d.
  change (atmospheric_retention #1.0 PLANET_PLUTO MATERIAL_IRON)
    with (if #1.0 <? #0.001 then #0.95 else #0.99).
  rewrite dltb_false by lra. unfold PI.
  rewrite (ddiv_num 4.0) by lra. cbn [dmul].
  rewrite ddiv_num by lra. cbn [pow3 dmul].
  reflexivity.
Qed.

(** ** The retention of the runs evaluated on binary64 values *)

Lemma vacuum_retention d material_type :
  atmospheric_retention d PLANET_VACUUM material_type = #1.00.
Proof. reflexivity. Qed.

(** For 4.084070e12 kg the diameter estimated at 3000 kg/m^3 is between 1
    and 10 km. *)
Lemma jupiter_iron_run_retention :
  sv_retention
    (mode_m atmospheric_retention cbrt
       (get_planetary_binding_energy PLANET_JUPITER)
       #4.084070e12 #0.25 PLANET_JUPITER MATERIAL_IRON)
  = #0.01.
Proof.
  unfold mode_m. cbn [sv_retention]. unfold PI.
  rewrite (ddiv_num 4.084070e12) by lra. cbn [dmul].
  rewrite ddiv_num by lra. cbn [cbrt dmul].
  rewrite ddiv_num by lra.
  set (q := (3.0 * (4.084070e12 / 3000.0)
             / (4.0 * 3.14159265358979323846))%R).
  assert (Hq : (500 <= Rcbrt q < 5000)%R)
    by (apply Rcbrt_between; unfold q; lra).
  change (atmospheric_retention ?d PLANET_JUPITER MATERIAL_IRON)
    with (if d <? #1.00 then #0.00
          else if d <? #10.0 then #0.01 else #0.20).
  rewrite dltb_false by lra. rewrite dltb_true by lra. reflexivity.
Qed.

(* ================================================================== *)
(** * The claims *)
(* ================================================================== *)

(** C2, as amended. In exact arithmetic, for every finite energy target
    [U / effective_eps >= 0] and mass [m > 0], that is for every finite
    non-negative energy per unit mass, the relativistic speed computed as
    [gamma = 1 + (U / effective_eps) / (m c^2)],
    [beta2 = 1 - 1 / gamma^2] clamped at zero, [v = c sqrt beta2] is a
    number with [0 <= v < c].  (In binary64 the strict bound is lost: see
    [Binary64Facts.speed_reaches_c].) *)
Theorem relativistic_speed_below_c (U e m : R) :
  (0 <= U)%R -> (0 < e)%R -> (0 < m)%R ->
  exists v : R,
    relativistic_speed (Num U) (Num e) (Num m) = Num v
    /\ (0 <= v)%R /\ (v < c_real)%R.
Proof.
  intros HU He Hm. pose proof c_real_pos as Hc.
  exists (c_real * sqrt (beta2_of (U / e / m / (c_real * c_real))))%R.
  split; [apply relativistic_speed_num; assumption|].
  pose proof (over_c2_nonneg _ (quotient_nonneg U e m HU He Hm)) as Hy.
  pose proof (beta2_of_range _ Hy) as Hb.
  pose proof (sqrt_pos (beta2_of (U / e / m / (c_real * c_real)))) as Hs0.
  pose proof (sqrt_lt_one _ Hb) as Hs1.
  split; [apply Rmult_le_pos; lra | nra].
Qed.

Lemma relativistic_speed_below_c_witness :
  exists v : R,
    relativistic_speed #2.06e36 #0.0025 #4.084070e12 = Num v
    /\ (0 <= v)%R /\ (v < c_real)%R.
Proof.
  apply (relativistic_speed_below_c 2.06e36 0.0025 4.084070e12); lra.
Defined.

(** C3, as amended. In exact arithmetic the round trip is exact: for
    every energy per unit mass [x = U / effective_eps / m >= 0], the speed
    of modes [m] and [d], divided by [c] and fed to mode [v]'s
    [gamma = 1 / sqrt (1 - beta^2)], [k_per_mass = (gamma - 1) c^2], gives
    [x] back.  (In binary64 it does not once the speed has rounded to [c]:
    see [Binary64Facts.round_trip_diverges].) *)
Theorem energy_speed_round_trip (U e m : R) :
  (0 <= U)%R -> (0 < e)%R -> (0 < m)%R ->
  relativisticEnergyPerMass (relativistic_speed (Num U) (Num e) (Num m) / c)
  = Num U / Num e / Num m.
Proof.
  intros HU He Hm. pose proof c_real_pos as Hc.
  pose proof c_real_sq_pos as Hcc.
  rewrite relativistic_speed_num by assumption.
  rewrite (ddiv_num U), ddiv_num by lra.
  pose proof (quotient_nonneg U e m HU He Hm) as Hx.
  set (x := (U / e / m)%R) in *.
  pose proof (over_c2_nonneg x Hx) as Hy.
  set (y := (x / (c_real * c_real))%R) in *.
  pose proof (beta2_of_range _ Hy) as Hb.
  rewrite c_num, ddiv_num by lra.
  replace (c_real * sqrt (beta2_of y) / c_real)%R with (sqrt (beta2_of y))
    by (field; lra).
  unfold relativisticEnergyPerMass. cbn [dmul]. unfold dsub. cbn [dopp dadd].
  rewrite sqrt_sqrt by lra.
  assert (E : (1.0 + - beta2_of y = 1 / ((1 + y) * (1 + y)))%R)
    by (unfold beta2_of; lra).
  assert (Hg : (0 < 1 / (1 + y))%R) by (apply Rdiv_lt_0_compat; lra).
  assert (Hgg : (0 < 1 / ((1 + y) * (1 + y)))%R)
    by (apply Rdiv_lt_0_compat; nra).
  rewrite E, dsqrt_num by lra. rewrite sqrt_inv_sq by lra.
  rewrite ddiv_num by lra.
  rewrite c_num. cbn [dadd dmul]. f_equal.
  replace 1.0%R with 1%R by lra.
  unfold y. field. lra.
Qed.

Lemma energy_speed_round_trip_witness :
  relativisticEnergyPerMass
    (relativistic_speed #2.85e27 #0.2475 #4.084070e12 / c)
  = #2.85e27 / #0.2475 / #4.084070e12.
Proof.
  apply (energy_speed_round_trip 2.85e27 0.2475 4.084070e12); lra.
Defined.

(** C4, counterexample. The run [v 30000 2000 0.25 ... pluto stony]
    succeeds at a speed strictly below [0.99 c] and prints neither DESTROYED
    nor SURVIVES. *)
Lemma mode_v_prints_no_verdict :
  (quantity run_v_pluto_stony * #1000.0 <? #0.99 * c) = true
  /\ status (main run_v_pluto_stony) = 0
  /\ printed_verdict (out (main run_v_pluto_stony)) = None.
Proof.
  split; [|split].
  - rewrite threshold_num. cbn [quantity run_v_pluto_stony dmul].
    apply dltb_true. unfold c_real. lra.
  - rewrite (main_mode_v_header run_v_pluto_stony eq_refl);
      try (apply finite_positive_num; lra).
    cbn [quantity run_v_pluto_stony].
    rewrite speed_test_passes by (unfold c_real; lra). reflexivity.
  - rewrite (main_mode_v_header run_v_pluto_stony eq_refl);
      try (apply finite_positive_num; lra).
    cbn [quantity run_v_pluto_stony].
    rewrite speed_test_passes by (unfold c_real; lra). reflexivity.
Qed.

(** C5. For every planet type and material type (the pairs of the tables
    and any other value), the C retention function is non-decreasing in the
    diameter, [retention d1 <= retention d2] for [0 < d1 < d2], and its
    value lies between 0 and 1. *)
Theorem retention_monotone_bounded
    (d1 d2 : R) (planet_type material_type : Z) :
  (0 < d1)%R -> (d1 < d2)%R ->
  (atmospheric_retention (Num d1) planet_type material_type
     <=? atmospheric_retention (Num d2) planet_type material_type) = true
  /\ (#0 <=? atmospheric_retention (Num d1) planet_type material_type) = true
  /\ (atmospheric_retention (Num d2) planet_type material_type <=? #1) = true.
Proof.
  intros H0 H. split; [apply retention_monotone; assumption|].
  destruct (retention_range (Num d1) planet_type material_type)
    as (t1 & -> & Ht1).
  destruct (retention_range (Num d2) planet_type material_type)
    as (t2 & -> & Ht2).
  split; apply dleb_true; lra.
Qed.

Lemma retention_monotone_bounded_witness :
  (atmospheric_retention #0.02 PLANET_EARTH MATERIAL_IRON
     <=? atmospheric_retention #0.04 PLANET_EARTH MATERIAL_IRON) = true.
Proof.
  apply (retention_monotone_bounded 0.02 0.04 PLANET_EARTH MATERIAL_IRON);
    lra.
Defined.

(** C6, as amended. In each of the three modes, if a number the mode
    requires is non-positive, the run fails with "Inputs must be positive."
    and status 1 and has printed nothing.  In mode [v] with positive inputs
    and a speed of [c] or more, the run fails with "Speed must be < c." and
    status 1 before any mass or diameter is computed, after the OBJECT line
    (when an object is named) and the PLANET line, which carries the binding
    energy, have been printed. *)
Theorem validation_failures (r : request) :
  known_mode r = true ->
  (some_input_non_positive r ->
     main r
     = {| out := []; err := [ERR_inputs_must_be_positive]; status := 1 |})
  /\ (is_mode "v" "V" (mode r) = true ->
      forall v_km_s : R,
        quantity r = Num v_km_s -> (0 < v_km_s)%R ->
        finite_positive (rho r) -> finite_positive (eps r) ->
        (c_real <= v_km_s * 1000)%R ->
        main r
        = {| out :=
               named (object_name r) OBJECT
               ++ [PLANET (display (planet_name r) "target")
                     (get_planetary_binding_energy
                        (get_planet_type (planet_name r)))];
             err := [ERR_speed_must_be_below_c];
             status := 1 |}).
Proof.
  intros Hk. split.
  - apply main_rejects_non_positive; assumption.
  - intros Hv v_km_s Eq Hpos Hr He Hc.
    assert (Hq : finite_positive (quantity r)) by (exists v_km_s; auto).
    rewrite (main_mode_v_header r Hv Hq Hr He).
    rewrite Eq, speed_test_fails by assumption. reflexivity.
Qed.

Lemma validation_failures_witness :
  main run_m_negative
  = {| out := []; err := [ERR_inputs_must_be_positive]; status := 1 |}
  /\ status (main run_v_too_fast) = 1.
Proof.
  split.
  - apply (proj1 (validation_failures run_m_negative eq_refl)).
    left. cbn. lra.
  - rewrite (proj2 (validation_failures run_v_too_fast eq_refl) eq_refl
               300000%R eq_refl).
    + reflexivity.
    + lra.
    + apply finite_positive_num. lra.
    + apply finite_positive_num. lra.
    + unfold c_real. lra.
Defined.

(** C6, counterexample. The run [v 300000] (faster than light, every
    input positive) fails with status 1 and "Speed must be < c.", and its
    standard output is not empty: the PLANET line with the binding energy
    has been printed before the failure. *)
Lemma too_fast_prints_before_failing :
  status (main run_v_too_fast) = 1
  /\ err (main run_v_too_fast) = [ERR_speed_must_be_below_c]
  /\ out (main run_v_too_fast) = [PLANET "target" #2.49e32].
Proof.
  assert (E : main run_v_too_fast
              = {| out := [PLANET "target" #2.49e32];
                   err := [ERR_speed_must_be_below_c]; status := 1 |}).
  { rewrite (main_mode_v_header run_v_too_fast eq_refl);
      try (apply finite_positive_num; lra).
    cbn [quantity run_v_too_fast].
    rewrite speed_test_fails by (unfold c_real; lra). reflexivity. }
  rewrite E. repeat split.
Qed.



(** C8. The run [d 1.0 7800 0.25 "1km iron" pluto iron] of the C port
    prints a retention of 0.99, a mass [m] with
    [4.0840695e12 <= m < 4.0840705e12] kg (4.084070e12 to seven digits), a
    relativistic speed [v] with [73378.3205 <= v < 73378.3215] km/s
    (73378.321 to three decimals), and DESTROYED, the speed being below
    [0.99 c]. *)
Theorem pluto_iron_scenario :
  exists m v : R,
    main run_d_pluto_iron
    = {| out :=
           [OBJECT "1km iron"; PLANET "pluto" #2.85e27;
            MATERIAL "iron" #0.99;
            INPUT_D #1.0 #7800 #0.25;
            TARGET (#2.85e27 / Num (0.25 * 0.99)) (Num (0.25 * 0.99));
            RESULT_mass (Num m) (Num m / MERCURY_MASS) (Num m / CERES_MASS);
            SPEED_classical
              (classical_speed #2.85e27 (Num (0.25 * 0.99)) (Num m)
               / #1000.0);
            SPEED_relativistic (Num v);
            CONCLUSION_destroyed "pluto" (Num v)];
         err := [];
         status := 0 |}
    /\ (4.0840695e12 <= m < 4.0840705e12)%R
    /\ (73378.3205 <= v < 73378.3215)%R
    /\ (v * 1000 < 0.99 * c_real)%R.
Proof.
  assert (Hm : (4.0840695e12 <= one_km_iron_mass < 4.0840705e12)%R)
    by (unfold one_km_iron_mass; lra).
  assert (Hm0 : (0 < one_km_iron_mass)%R) by lra.
  pose proof (relativistic_speed_num 2.85e27 (0.25 * 0.99) one_km_iron_mass
                ltac:(lra) ltac:(lra) Hm0) as Hrel.
  set (y := (2.85e27 / (0.25 * 0.99) / one_km_iron_mass
             / (c_real * c_real))%R) in *.
  assert (Hs : (73378320.5 / c_real <= sqrt (beta2_of y)
                < 73378321.5 / c_real)%R).
  { apply sqrt_between; unfold y, beta2_of, one_km_iron_mass, c_real; lra. }
  assert (Hc : (0 < c_real)%R) by apply c_real_pos.
  assert (Hv : (73378320.5 <= c_real * sqrt (beta2_of y) < 73378321.5)%R).
  { destruct Hs as [Hs1 Hs2]. split.
    - apply Rmult_le_compat_l with (r := c_real) in Hs1; [|lra].
      replace (c_real * (73378320.5 / c_real))%R with 73378320.5%R in Hs1
        by (field; lra). exact Hs1.
    - apply Rmult_lt_compat_l with (r := c_real) in Hs2; [|lra].
      replace (c_real * (73378321.5 / c_real))%R with 73378321.5%R in Hs2
        by (field; lra). exact Hs2. }
  exists one_km_iron_mass, (c_real * sqrt (beta2_of y) / 1000.0)%R.
  split; [|split; [exact Hm | split; [lra | unfold c_real in *; lra]]].
  rewrite (main_mode_d run_d_pluto_iron eq_refl);
    try (apply finite_positive_num; lra).
  cbn [run_d_pluto_iron quantity rho eps planet_name material_name
       object_name named app].
  change (get_planet_type (Some "pluto"%string)) with PLANET_PLUTO.
  change (get_material_type (Some "iron"%string)) with MATERIAL_IRON.
  change (get_planetary_binding_energy PLANET_PLUTO) with #2.85e27.
  rewrite pluto_iron_vars.
  cbn [sv_retention sv_effective_eps sv_m sv_v_class sv_v_rel].
  rewrite Hrel. unfold conclusion, dgeb. rewrite threshold_num.
  rewrite dleb_false by (unfold c_real in *; lra).
  rewrite (ddiv_num (c_real * sqrt (beta2_of y))) by lra.
  reflexivity.
Qed.

(** C9. The two ports do not return the same retention.  For a 5 m iron
    body against Earth the C function returns 0.00, the first band, and the
    QB64 function 0.95, as it does for every diameter: its banded
    assignments are all overwritten by the last one.  For a 1 km iron body
    against Pluto the C function returns 0.99 and the QB64 function, which
    has no case for Pluto (nor for Saturn, Uranus or Neptune), returns
    1.00. *)
Theorem ports_disagree_on_retention :
  AtmosphericRetention #0.005 PLANET_EARTH MATERIAL_IRON = #0.95
  /\ atmospheric_retention #0.005 PLANET_EARTH MATERIAL_IRON = #0.00
  /\ (forall d, AtmosphericRetention d PLANET_EARTH MATERIAL_IRON = #0.95)
  /\ AtmosphericRetention #1.0 PLANET_PLUTO MATERIAL_IRON = #1.00
  /\ atmospheric_retention #1.0 PLANET_PLUTO MATERIAL_IRON = #0.99.
Proof.
  split; [reflexivity|]. split; [|split; [|split; [reflexivity|]]].
  - change (atmospheric_retention #0.005 PLANET_EARTH MATERIAL_IRON)
      with (if #0.005 <? #0.01 then #0.00 else
            if #0.005 <? #0.03 then #0.20 else
            if #0.005 <? #0.05 then #0.50 else
            if #0.005 <? #0.10 then #0.80 else
            if #0.005 <? #0.20 then #0.90 else #0.95).
    rewrite dltb_true by lra. reflexivity.
  - intros d.
    rewrite (AtmosphericRetention_constant d #0.005 PLANET_EARTH
               MATERIAL_IRON). reflexivity.
  - change (atmospheric_retention #1.0 PLANET_PLUTO MATERIAL_IRON)
      with (if #1.0 <? #0.001 then #0.95 else #0.99).
    rewrite dltb_false by lra. reflexivity.
Qed.

(** C10, as amended. In exact arithmetic, for every positive mass
    (mode [m]), positive diameter and density (mode [d]) and positive
    efficiency, against every body and material, the classical speed is at
    least the relativistic speed, an infinite classical speed against [c]
    when the retention is zero; and in mode [v], for a positive speed below
    [c], the classical mass is at least the relativistic mass.  (In binary64
    the ordering of the speeds can fail: see
    [Binary64Facts.classical_below_relativistic].) *)
Theorem classical_bounds_relativistic
    (x rh ep : R) (planet_type material_type : Z) :
  (0 < x)%R -> (0 < rh)%R -> (0 < ep)%R ->
  let U := get_planetary_binding_energy planet_type in
  let by_mass :=
    mode_m atmospheric_retention cbrt U (Num x) (Num ep)
      planet_type material_type in
  let by_diameter :=
    mode_d atmospheric_retention U (Num x) (Num rh) (Num ep)
      planet_type material_type in
  let v := Num x * #1000.0 in
  let by_speed :=
    mode_v atmospheric_retention cbrt U v (v / c) (Num rh) (Num ep)
      planet_type material_type in
  (sv_v_rel by_mass <=? sv_v_class by_mass) = true
  /\ (sv_v_rel by_diameter <=? sv_v_class by_diameter) = true
  /\ ((x * 1000 < c_real)%R ->
      (mv_m_req by_speed <=? mv_m_class by_speed) = true).
Proof.
  intros Hx Hr He U by_mass by_diameter v by_speed.
  subst U by_mass by_diameter by_speed.
  destruct (binding_energy_pos planet_type) as (u & -> & Hu).
  split; [|split].
  - unfold mode_m. cbn [sv_v_rel sv_v_class].
    match goal with |- context [Num ep * atmospheric_retention ?d ?p ?m] =>
      destruct (effective_eps_num ep d p m He) as (e & -> & Hee) end.
    apply speeds_ordered; assumption.
  - unfold mode_d. cbn [sv_v_rel sv_v_class].
    destruct (effective_eps_num ep (Num x) planet_type material_type He)
      as (e & -> & Hee).
    destruct (sphere_mass_num x rh Hx Hr) as (mm & -> & Hmm).
    apply speeds_ordered; assumption.
  - intros Hvc. pose proof c_real_pos as Hc.
    rewrite mode_v_passes. cbn [mv_m_req mv_m_class].
    unfold passes. cbn [Nat.pred Nat.iter].
    subst v. cbn [dmul]. rewrite c_num, ddiv_num by lra.
    pose proof (beta_in_range x Hx Hvc) as Hb.
    set (b := (x * 1000.0 / c_real)%R) in *.
    rewrite energy_per_mass_num by lra.
    apply refine_pass_ordered; try lra.
    pose proof (energy_per_mass_at_bound b
                  (conj (Rlt_le _ _ (proj1 Hb)) (proj2 Hb))) as Hk.
    replace (x * 1000.0)%R with (b * c_real)%R by (unfold b; field; lra).
    exact Hk.
Qed.

Lemma classical_bounds_relativistic_witness :
  (sv_v_rel (mode_d atmospheric_retention
               (get_planetary_binding_energy PLANET_JUPITER)
               #0.375 #2000 #0.25 PLANET_JUPITER MATERIAL_STONY)
   <=? sv_v_class (mode_d atmospheric_retention
                     (get_planetary_binding_energy PLANET_JUPITER)
                     #0.375 #2000 #0.25 PLANET_JUPITER MATERIAL_STONY))
  = true.
Proof.
  apply (classical_bounds_relativistic 0.375 2000 0.25
           PLANET_JUPITER MATERIAL_STONY); lra.
Defined.

(* ================================================================== *)
(** * Where rounding shows *)
(* ================================================================== *)

(** Evaluations of the binary64 reading, by the kernel's own floating-point
    unit. *)
Module Binary64Facts.
  Import PrimFloat Binary64.
  Local Open Scope float_scope.
  #[local] Set Warnings "-inexact-float".

(** C2, counterexample. On binary64 values the speed lines return [c]
    itself for a 4.084070e12 kg iron body against Jupiter: the energy per
    unit mass is finite, [gamma] is about 2.2e9, [1 / gamma^2] is about
    2e-19, below half an ulp of [1.0], so [beta2] rounds to [1.0] and
    [v_rel = c * sqrt 1.0 = c]: not strictly below [c]. *)
Lemma speed_reaches_c :
  (jupiter_iron_energy_per_mass <? infinity) = true
  /\ (jupiter_iron_speed =? c) = true
  /\ (jupiter_iron_speed <? c) = false.
Proof. repeat split; vm_compute; reflexivity. Qed.

(** C3, counterexample. On binary64 values, for the same body against
    Jupiter, the energy per unit mass is finite, the speed it maps to is [c],
    so [beta] is [1.0] (a speed that mode [v] turns away), and the inverse
    lines give [+inf]: no tolerance relates that to the energy started
    from. *)
Lemma round_trip_diverges :
  (jupiter_iron_energy_per_mass <? infinity) = true
  /\ (1.0 <=? jupiter_iron_speed / c) = true
  /\ (relativisticEnergyPerMass (jupiter_iron_speed / c) =? infinity) = true.
Proof. repeat split; vm_compute; reflexivity. Qed.

(** C10, counterexample. On binary64 values, for a mass of 2.31e31 kg in
    vacuum at efficiency 1.0, the classical speed is about 4.64 m/s and the
    relativistic speed about 6.32 m/s: [gamma - 1] is about 1.2e-16, which
    rounds up to one ulp of [1.0], and the speed computed from the rounded
    [gamma] exceeds the classical one. *)
Lemma classical_below_relativistic :
  (slow_classical <? slow_relativistic) = true
  /\ (slow_classical <? 4.75) = true
  /\ (6.25 <? slow_relativistic) = true.
Proof. repeat split; vm_compute; reflexivity. Qed.

(** The binary64 speed of the 1 km iron body against Pluto lies in the
    interval proved for the exact reading. *)
Lemma pluto_iron_speed_interval :
  (73378320.5 <=? pluto_iron_speed) = true
  /\ (pluto_iron_speed <? 73378321.5) = true.
Proof. split; vm_compute; reflexivity. Qed.

(** ** The whole program on binary64 values *)

(** Comparisons of binary64 values: the order is total off the NaNs. *)
Lemma SFcompare_swap (x y : SpecFloat.spec_float) :
  SpecFloat.SFcompare y x = option_map CompOpp (SpecFloat.SFcompare x y).
Proof.
  destruct x as [sx|sx| |sx mx ex], y as [sy|sy| |sy my ey];
    try destruct sx; try destruct sy; try reflexivity;
    cbn [SpecFloat.SFcompare option_map];
    rewrite (Z.compare_antisym ex ey);
    destruct (ex ?= ey)%Z; cbn [CompOpp]; try reflexivity;
    rewrite (Pos.compare_cont_antisym mx my Eq); cbn [CompOpp];
    rewrite ?CompOpp_involutive; reflexivity.
Qed.

Lemma SFcompare_self (x : SpecFloat.spec_float) :
  SpecFloat.SFcompare x x = match x with
                            | SpecFloat.S754_nan => None
                            | _ => Some Eq
                            end.
Proof.
  destruct x as [s|s| |s m e]; try destruct s; try reflexivity;
    cbn [SpecFloat.SFcompare]; rewrite Z.compare_refl;
    change (Pos.compare_cont Eq m m) with (Pos.compare m m);
    rewrite Pos.compare_refl; reflexivity.
Qed.

Lemma SFleb_false_iff (a b : SpecFloat.spec_float) :
  SpecFloat.SFleb b a = false
  <-> SpecFloat.SFltb a b = true
      \/ SpecFloat.SFeqb a a = false \/ SpecFloat.SFeqb b b = false.
Proof.
  unfold SpecFloat.SFleb, SpecFloat.SFltb, SpecFloat.SFeqb.
  rewrite !SFcompare_self, (SFcompare_swap a b).
  destruct (SpecFloat.SFcompare a b) as [[]|] eqn:E;
    cbn [option_map CompOpp];
    destruct a as [sa|sa| |sa ma ea], b as [sb|sb| |sb mb eb];
    try (cbn in E; discriminate E); intuition congruence.
Qed.

(** [x >= y] fails exactly when [x < y] or one of the two is a NaN. *)
Lemma leb_false_iff (x y : float) :
  (y <=? x) = false
  <-> (x <? y) = true \/ (x =? x) = false \/ (y =? y) = false.
Proof.
  rewrite FloatAxioms.leb_spec, FloatAxioms.ltb_spec, !FloatAxioms.eqb_spec.
  apply SFleb_false_iff.
Qed.

(** Mode [v]'s straight-line text is the three-pass schedule, over any
    table and any cube root. *)
Lemma mode_v_schedule
    (retention_of : float -> Z -> Z -> float) (cube_root : float -> float)
    (U v beta rho eps : float) (pt mt : Z) :
  let k := relativisticEnergyPerMass beta in
  let p2 := passes retention_of cube_root 2 U k rho eps pt mt in
  let p3 := passes retention_of cube_root 3 U k rho eps pt mt in
  mode_v retention_of cube_root U v beta rho eps pt mt
  = {| mv_retention := retention_of (pass_diameter p2 / 1000.0) pt mt;
       mv_effective_eps := pass_efficiency p3;
       mv_m_req := pass_mass p3;
       mv_D := pass_diameter p3;
       mv_m_class := 2.0 * U / (pass_efficiency p3 * v * v) |}.
Proof. reflexivity. Qed.

(** C1, as amended. In mode [v], on binary64 values and whatever [cbrt]
    and [pow] return, for every request that the program's own tests let
    through (the test [v_km_s <= 0.0 || rho <= 0.0 || eps <= 0.0] fails, and
    so does [beta >= 1.0] on the computed [beta = v_km_s * 1000.0 / c]), the
    run is exactly three passes with no convergence test: pass 1 takes the
    mass from the kinetic energy per unit mass at the given speed and from
    the requested efficiency alone, with no retention lookup, and derives
    the diameter of that mass at the given density; passes 2 and 3 each look
    the retention up at the diameter of the pass before and recompute
    efficiency, mass and diameter; the retention printed, and used in the
    mass printed, is the one of pass 3, looked up at the pass-2 diameter; the
    run ends with status 0.  The straight-line text is the same schedule
    over any table and any cube root, those of the QB64 block included.
    (A speed below [c] is not always let through: see
    [speed_below_c_turned_away].) *)
Theorem solve_by_speed_three_passes
    (cbrt : float -> float) (pow : float -> float -> float) (r : request) :
  is_mode "v" "V" (mode r) = true ->
  (quantity r <=? 0.0) || (rho r <=? 0.0) || (eps r <=? 0.0) = false ->
  (1.0 <=? quantity r * 1000.0 / c) = false ->
  let pt := get_planet_type (planet_name r) in
  let mt := get_material_type (material_name r) in
  let U := get_planetary_binding_energy pt in
  let v := quantity r * 1000.0 in
  let k := relativisticEnergyPerMass (v / c) in
  let p1 := passes atmospheric_retention cbrt 1 U k (rho r) (eps r) pt mt in
  let p2 := passes atmospheric_retention cbrt 2 U k (rho r) (eps r) pt mt in
  let p3 := passes atmospheric_retention cbrt 3 U k (rho r) (eps r) pt mt in
  (pass_retention p1 = None
   /\ pass_mass p1 = U / (eps r * k)
   /\ pass_diameter p1 = sphere_diameter cbrt (pass_mass p1) (rho r))
  /\ p2 = refine_pass atmospheric_retention cbrt U k (rho r) (eps r) pt mt p1
  /\ p3 = refine_pass atmospheric_retention cbrt U k (rho r) (eps r) pt mt p2
  /\ pass_retention p3
     = Some (atmospheric_retention (pass_diameter p2 / 1000.0) pt mt)
  /\ main cbrt pow r
     = {| out :=
            named (object_name r) OBJECT
            ++ [PLANET (display (planet_name r) "target") U]
            ++ named (material_name r)
                 (fun n =>
                    MATERIAL n
                      (atmospheric_retention (pass_diameter p2 / 1000.0)
                         pt mt))
            ++ [INPUT_v (quantity r) (rho r) (eps r);
                TARGET (U / pass_efficiency p3) (pass_efficiency p3);
                MASS_required (pass_mass p3) (pass_mass p3 / MERCURY_MASS)
                  (pass_mass p3 / CERES_MASS);
                MASS_classical (2.0 * U / (pass_efficiency p3 * v * v));
                DIAMETER_equivalent (pass_diameter p3 / 1000.0);
                NOTE_any_impactor (pass_diameter p3 / 1000.0) (quantity r)
                  (display (planet_name r) "target")];
          err := [];
          status := 0 |}
  /\ (forall (retention_of : float -> Z -> Z -> float)
        (cube_root : float -> float),
        let q2 := passes retention_of cube_root 2 U k (rho r) (eps r) pt mt in
        let q3 := passes retention_of cube_root 3 U k (rho r) (eps r) pt mt in
        mode_v retention_of cube_root U v (v / c) (rho r) (eps r) pt mt
        = {| mv_retention := retention_of (pass_diameter q2 / 1000.0) pt mt;
             mv_effective_eps := pass_efficiency q3;
             mv_m_req := pass_mass q3;
             mv_D := pass_diameter q3;
             mv_m_class := 2.0 * U / (pass_efficiency q3 * v * v) |}).
Proof.
  intros Hmd Hpos Hc pt mt U v k p1 p2 p3.
  split; [repeat split|]. split; [reflexivity|]. split; [reflexivity|].
  split; [reflexivity|]. split; [|intros; apply mode_v_schedule].
  destruct (mode_v_not_m_d _ Hmd) as [Hm Hd].
  unfold main. rewrite Hm, Hd, Hmd, Hpos. cbv zeta. rewrite Hc.
  rewrite <- app_assoc. reflexivity.
Qed.

Lemma solve_by_speed_three_passes_witness :
  status (main cbrt_by_newton pow_by_products run_v_pluto_stony) = 0%Z.
Proof.
  pose proof (solve_by_speed_three_passes cbrt_by_newton pow_by_products
                run_v_pluto_stony eq_refl eq_refl eq_refl) as H.
  cbv zeta in H. destruct H as (_ & _ & _ & _ & H & _).
  rewrite H. reflexivity.
Defined.

(** C1, counterexample. The speed 299792.458 km/s as [atof] returns it is
    [5150395210789814 * 2^-34] km/s, strictly between 0 and [c / 1000] (the
    text 299792.45799999999 reads as the same double); density and
    efficiency are the defaults, 3000 and 1.0.  The product
    [v_km_s * 1000.0] rounds to [c], [beta] is [1.0], and the run ends after
    the PLANET line with "Speed must be < c." and status 1: no pass is
    made, and neither [cbrt] nor [pow] is called. *)
Lemma speed_below_c_turned_away :
  FloatOps.Prim2SF (quantity run_v_just_below_c)
  = SpecFloat.S754_finite false 5150395210789814 (-34)
  /\ (0 < 5150395210789814 * 1000 < 299792458 * 2 ^ 34)%Z
  /\ (299792.45799999999 =? quantity run_v_just_below_c) = true
  /\ (quantity run_v_just_below_c * 1000.0 =? c) = true
  /\ (1.0 <=? quantity run_v_just_below_c * 1000.0 / c) = true
  /\ main cbrt_by_newton pow_by_products run_v_just_below_c
     = {| out := [PLANET "target" 2.49e32];
          err := [ERR_speed_must_be_below_c];
          status := 1 |}.
Proof.
  split; [vm_compute; reflexivity|]. split; [lia|].
  repeat split; vm_compute; reflexivity.
Qed.

Lemma verdict_after l1 l2 :
  printed_verdict l1 = None ->
  printed_verdict (l1 ++ l2) = printed_verdict l2.
Proof.
  induction l1 as [|l l1 IH]; [reflexivity|]. cbn [printed_verdict app].
  destruct (verdict_of_line l); [discriminate|exact IH].
Qed.

Lemma named_no_verdict (o : option string) (f : string -> line) :
  (forall n, verdict_of_line (f n) = None) ->
  printed_verdict (named o f) = None.
Proof.
  intros H. destruct o as [n|]; [|reflexivity].
  cbn [named printed_verdict]. rewrite H. reflexivity.
Qed.

Lemma verdict_of_conclusion (pl : option string) (v_rel : float) :
  printed_verdict (conclusion pl v_rel)
  = Some (if 0.99 * c <=? v_rel then SURVIVES else DESTROYED).
Proof. unfold conclusion. destruct (_ <=? _); reflexivity. Qed.

Lemma threshold_is_a_number : (0.99 * c =? 0.99 * c) = true.
Proof. vm_compute. reflexivity. Qed.

Lemma speed_run_fields
    (cbrt : float -> float) (pow : float -> float -> float) (r : request) :
  let s := speed_run cbrt pow r in
  let U := get_planetary_binding_energy (get_planet_type (planet_name r)) in
  sv_effective_eps s = eps r * sv_retention s
  /\ sv_v_class s = classical_speed U (sv_effective_eps s) (sv_m s)
  /\ sv_v_rel s = relativistic_speed U (sv_effective_eps s) (sv_m s).
Proof.
  unfold speed_run. destruct (is_mode "m" "M" (mode r)); repeat split.
Qed.

(** What an accepted run of mode [m] or [d] prints. *)
Lemma main_speeds
    (cbrt : float -> float) (pow : float -> float -> float) (r : request) :
  is_mode "m" "M" (mode r) || is_mode "d" "D" (mode r) = true ->
  turned_away r = false ->
  let s := speed_run cbrt pow r in
  let U := get_planetary_binding_energy (get_planet_type (planet_name r)) in
  status (main cbrt pow r) = 0%Z
  /\ err (main cbrt pow r) = []
  /\ In (TARGET (U / sv_effective_eps s) (sv_effective_eps s))
       (out (main cbrt pow r))
  /\ In (SPEED_classical (sv_v_class s / 1000.0)) (out (main cbrt pow r))
  /\ In (SPEED_relativistic (sv_v_rel s / 1000.0)) (out (main cbrt pow r))
  /\ printed_verdict (out (main cbrt pow r))
     = Some (if 0.99 * c <=? sv_v_rel s then SURVIVES else DESTROYED).
Proof.
  intros Hk Ht. unfold main, turned_away, speed_run in *.
  destruct (is_mode "m" "M" (mode r)) eqn:Hm.
  - rewrite Ht. cbv zeta. cbn [out status err].
    split; [reflexivity|]. split; [reflexivity|].
    rewrite !in_app_iff. cbn [In].
    split; [do 3 right; left; right; left; reflexivity|].
    split; [do 3 right; left; do 2 right; left; reflexivity|].
    split; [do 3 right; left; do 3 right; left; reflexivity|].
    rewrite !verdict_after;
      try (apply named_no_verdict; reflexivity); try reflexivity.
    apply verdict_of_conclusion.
  - cbn [orb] in Hk. rewrite Hk, Ht. cbv zeta. cbn [out status err].
    split; [reflexivity|]. split; [reflexivity|].
    rewrite !in_app_iff. cbn [In].
    split; [do 3 right; left; right; left; reflexivity|].
    split; [do 3 right; left; do 3 right; left; reflexivity|].
    split; [do 3 right; left; do 4 right; left; reflexivity|].
    rewrite !verdict_after;
      try (apply named_no_verdict; reflexivity); try reflexivity.
    apply verdict_of_conclusion.
Qed.

(** C4, as amended. On binary64 values and whatever [cbrt] and [pow]
    return: in modes [m] and [d], every request that passes the positivity
    test of its mode succeeds, prints the relativistic speed it computed,
    and prints SURVIVES exactly when the test [v_rel >= 0.99 * c] holds and
    DESTROYED exactly when it fails, that is when [v_rel] is strictly below
    [0.99 c] or is a NaN.  In mode [v] no verdict is printed. *)
Theorem verdict_by_mode
    (cbrt : float -> float) (pow : float -> float -> float) (r : request) :
  (is_mode "m" "M" (mode r) || is_mode "d" "D" (mode r) = true ->
   turned_away r = false ->
   let v_rel := sv_v_rel (speed_run cbrt pow r) in
   status (main cbrt pow r) = 0%Z
   /\ In (SPEED_relativistic (v_rel / 1000.0)) (out (main cbrt pow r))
   /\ (printed_verdict (out (main cbrt pow r)) = Some SURVIVES
       <-> (0.99 * c <=? v_rel) = true)
   /\ (printed_verdict (out (main cbrt pow r)) = Some DESTROYED
       <-> (v_rel <? 0.99 * c) = true \/ (v_rel =? v_rel) = false))
  /\ (is_mode "v" "V" (mode r) = true ->
      printed_verdict (out (main cbrt pow r)) = None).
Proof.
  split.
  - intros Hk Ht v_rel.
    destruct (main_speeds cbrt pow r Hk Ht) as (Hs & _ & _ & _ & Hin & Hv).
    fold v_rel in Hin, Hv.
    split; [exact Hs|]. split; [exact Hin|]. rewrite Hv.
    pose proof (leb_false_iff v_rel (0.99 * c)) as Hf.
    rewrite threshold_is_a_number in Hf.
    destruct (0.99 * c <=? v_rel); split; split; intros H;
      try reflexivity; try discriminate; try congruence.
    + destruct Hf as [_ Hf].
      assert (true = false) by (apply Hf; destruct H; auto). discriminate.
    + destruct Hf as [Hf _]. destruct (Hf eq_refl) as [H1|[H1|H1]]; auto.
      discriminate.
  - intros Hv. destruct (mode_v_not_m_d _ Hv) as [Hm Hd].
    unfold main. rewrite Hm, Hd, Hv.
    destruct (_ || _); [reflexivity|]. cbv zeta.
    destruct (1.0 <=? _); cbn [out]; rewrite <- ?app_assoc;
      repeat first
        [ rewrite verdict_after by (apply named_no_verdict; reflexivity)
        | progress cbn [app printed_verdict verdict_of_line] ];
      reflexivity.
Qed.

Lemma verdict_by_mode_witness :
  printed_verdict (out (main cbrt_by_newton pow_by_products run_d_pluto_iron))
  = Some DESTROYED.
Proof.
  apply (proj2 (proj2 (proj2 (proj2
           (proj1 (verdict_by_mode cbrt_by_newton pow_by_products
                     run_d_pluto_iron) eq_refl eq_refl))))).
  left. vm_compute. reflexivity.
Defined.

(** A NaN diameter passes the positivity tests, and a mass that overflows
    gives [inf / inf]: in both runs the speed is a NaN, the test
    [v_rel >= 0.99 * c] fails and DESTROYED is printed. *)
Lemma not_a_number_is_destroyed :
  (turned_away run_d_nan = false
   /\ (sv_v_rel (speed_run cbrt_by_newton pow_by_products run_d_nan)
       =? sv_v_rel (speed_run cbrt_by_newton pow_by_products run_d_nan))
      = false
   /\ status (main cbrt_by_newton pow_by_products run_d_nan) = 0%Z
   /\ printed_verdict (out (main cbrt_by_newton pow_by_products run_d_nan))
      = Some DESTROYED)
  /\ (turned_away run_d_overflow = false
      /\ sv_m (speed_run cbrt_by_newton pow_by_products run_d_overflow)
         = infinity
      /\ (sv_v_rel (speed_run cbrt_by_newton pow_by_products run_d_overflow)
          =? sv_v_rel
               (speed_run cbrt_by_newton pow_by_products run_d_overflow))
         = false
      /\ status (main cbrt_by_newton pow_by_products run_d_overflow) = 0%Z
      /\ printed_verdict
           (out (main cbrt_by_newton pow_by_products run_d_overflow))
         = Some DESTROYED).
Proof. repeat split; vm_compute; reflexivity. Qed.

(** A positive finite binary64 value, and what zero and infinity do to
    it. *)
Lemma positive_finite_SF (x : float) :
  positive_finite x = true ->
  exists m e, FloatOps.Prim2SF x = SpecFloat.S754_finite false m e.
Proof.
  unfold positive_finite. rewrite andb_true_iff, !FloatAxioms.ltb_spec.
  change (FloatOps.Prim2SF 0.0) with (SpecFloat.S754_zero false).
  change (FloatOps.Prim2SF infinity) with (SpecFloat.S754_infinity false).
  destruct (FloatOps.Prim2SF x) as [s|s| |s m e]; intros [H0 H1];
    try discriminate; try (destruct s; discriminate).
  destruct s; [discriminate|]. eauto.
Qed.

Lemma of_SF (x : float) (s : SpecFloat.spec_float) :
  FloatOps.Prim2SF x = s -> x = FloatOps.SF2Prim s.
Proof. intros <-. symmetry. apply FloatAxioms.SF2Prim_Prim2SF. Qed.

Lemma mul_zero (x : float) : positive_finite x = true -> x * 0.0 = 0.0.
Proof.
  intros H. destruct (positive_finite_SF x H) as (m & e & E).
  apply (of_SF _ (SpecFloat.S754_zero false)).
  rewrite FloatAxioms.mul_spec, E. reflexivity.
Qed.

Lemma div_zero (x : float) : positive_finite x = true -> x / 0.0 = infinity.
Proof.
  intros H. destruct (positive_finite_SF x H) as (m & e & E).
  apply (of_SF _ (SpecFloat.S754_infinity false)).
  rewrite FloatAxioms.div_spec, E. reflexivity.
Qed.

Lemma infinity_div (x : float) :
  positive_finite x = true -> infinity / x = infinity.
Proof.
  intros H. destruct (positive_finite_SF x H) as (m & e & E).
  apply (of_SF _ (SpecFloat.S754_infinity false)).
  rewrite FloatAxioms.div_spec, E. reflexivity.
Qed.

Lemma classical_speed_zero (U m : float) :
  positive_finite U = true -> positive_finite m = true ->
  classical_speed U 0.0 m = infinity.
Proof.
  intros HU Hm. unfold classical_speed. rewrite (div_zero U HU).
  change (2.0 * infinity) with infinity. rewrite (infinity_div m Hm).
  reflexivity.
Qed.

Lemma relativistic_speed_zero (U m : float) :
  positive_finite U = true -> positive_finite (m * c * c) = true ->
  relativistic_speed U 0.0 m = c.
Proof.
  intros HU Hm. unfold relativistic_speed. rewrite (div_zero U HU).
  rewrite (infinity_div _ Hm). vm_compute. reflexivity.
Qed.

Lemma binding_energy_positive_finite planet_type :
  positive_finite (get_planetary_binding_energy planet_type) = true.
Proof.
  unfold get_planetary_binding_energy.
  repeat match goal with |- context [if ?b then _ else _] =>
    destruct b end; vm_compute; reflexivity.
Qed.

(** X13. A retention of zero is carried on, not rejected; C port, on
    binary64 values and whatever [cbrt] and [pow] return.  In modes [m] and
    [d], for a request that passes the positivity test with a positive
    finite efficiency, when the table answers 0.00 (a body below the first
    band of Venus or of a gas giant) and the mass [m] and the product
    [m * c * c] are positive and finite, the effective efficiency is zero,
    the energy target [U / 0] is [+inf], the classical speed printed is
    [+inf], the relativistic speed printed is [c] itself, and the conclusion
    is SURVIVES, with exit status 0.  (When the mass overflows the speed is
    a NaN and the conclusion DESTROYED: [not_a_number_is_destroyed].) *)
Theorem zero_retention_survives
    (cbrt : float -> float) (pow : float -> float -> float) (r : request) :
  is_mode "m" "M" (mode r) || is_mode "d" "D" (mode r) = true ->
  turned_away r = false ->
  positive_finite (eps r) = true ->
  let s := speed_run cbrt pow r in
  let U := get_planetary_binding_energy (get_planet_type (planet_name r)) in
  sv_retention s = 0.00 ->
  positive_finite (sv_m s) = true ->
  positive_finite (sv_m s * c * c) = true ->
  sv_effective_eps s = 0.0
  /\ sv_v_class s = infinity
  /\ sv_v_rel s = c
  /\ status (main cbrt pow r) = 0%Z
  /\ In (TARGET infinity 0.0) (out (main cbrt pow r))
  /\ In (SPEED_classical infinity) (out (main cbrt pow r))
  /\ In (SPEED_relativistic (c / 1000.0)) (out (main cbrt pow r))
  /\ printed_verdict (out (main cbrt pow r)) = Some SURVIVES.
Proof.
  intros Hk Ht He s U Hz Hm Hmc.
  destruct (speed_run_fields cbrt pow r) as (Eeff & Ecl & Erel).
  destruct (main_speeds cbrt pow r Hk Ht)
    as (Hs & _ & Htarget & Hcl & Hrel & Hv).
  fold s U in Eeff, Ecl, Erel, Htarget, Hcl, Hrel, Hv.
  pose proof (binding_energy_positive_finite
                (get_planet_type (planet_name r))) as HU. fold U in HU.
  assert (E0 : sv_effective_eps s = 0.0)
    by (rewrite Eeff, Hz; apply mul_zero; exact He).
  rewrite E0 in *.
  rewrite (classical_speed_zero U _ HU Hm) in Ecl.
  rewrite (relativistic_speed_zero U _ HU Hmc) in Erel.
  rewrite (div_zero U HU) in Htarget. rewrite Ecl in Hcl.
  rewrite Erel in Hrel, Hv.
  repeat (split; [first [reflexivity | assumption]|]).
  exact Hv.
Qed.

Lemma zero_retention_survives_witness :
  sv_v_rel (speed_run cbrt_by_newton pow_by_products run_d_jupiter_stony) = c
  /\ printed_verdict
       (out (main cbrt_by_newton pow_by_products run_d_jupiter_stony))
     = Some SURVIVES.
Proof.
  pose proof (zero_retention_survives cbrt_by_newton pow_by_products
                run_d_jupiter_stony eq_refl eq_refl eq_refl eq_refl
                eq_refl eq_refl)
    as (_ & _ & Hc & _ & _ & _ & _ & Hv).
  split; assumption.
Defined.

End Binary64Facts.

(* ================================================================== *)
(** * The QB64 port: names and command line *)
(* ================================================================== *)

Lemma in_all_ascii x : In x all_ascii.
Proof.
  unfold all_ascii. apply in_map_iff. exists (nat_of_ascii x). split.
  - apply ascii_nat_embedding.
  - apply in_seq. pose proof (nat_ascii_bounded x). lia.
Qed.

(** A boolean fact checked on the 256 bytes holds of every byte. *)
Lemma by_bytes (p : ascii -> bool) :
  forallb p all_ascii = true -> forall x, p x = true.
Proof.
  intros H x. rewrite forallb_forall in H. apply H, in_all_ascii.
Qed.

(** [tolower] and [UCASE$] fold the case of a byte the same way. *)
Lemma fold_case_agree x y :
  (tolower x =? tolower y)%Z = Ascii.eqb (ucase_char x) (ucase_char y).
Proof.
  apply Bool.eqb_prop.
  refine (by_bytes
            (fun y => Bool.eqb (tolower x =? tolower y)%Z
                        (Ascii.eqb (ucase_char x) (ucase_char y))) _ y).
  revert x.
  refine (by_bytes
            (fun x =>
               forallb
                 (fun y => Bool.eqb (tolower x =? tolower y)%Z
                             (Ascii.eqb (ucase_char x) (ucase_char y)))
                 all_ascii) _).
  vm_compute. reflexivity.
Qed.

Lemma tolower_nul x : (tolower x =? 0)%Z = Ascii.eqb x zero.
Proof.
  apply Bool.eqb_prop.
  refine (by_bytes
            (fun x => Bool.eqb (tolower x =? 0)%Z (Ascii.eqb x zero)) _ x).
  vm_compute. reflexivity.
Qed.

Lemma strcasecmp_UCASE a : forall b,
  c_string a = true -> c_string b = true ->
  (strcasecmp a b =? 0)%Z = String.eqb (UCASE a) (UCASE b).
Proof.
  induction a as [|x a IH]; intros [|y b] Ha Hb;
    cbn [strcasecmp UCASE c_string String.eqb] in *.
  - reflexivity.
  - apply andb_true_iff in Hb as [Hy _].
    replace (0 - tolower y =? 0)%Z with (tolower y =? 0)%Z
      by (destruct (Z.eqb_spec (tolower y) 0), (Z.eqb_spec (0 - tolower y) 0);
          try reflexivity; lia).
    rewrite tolower_nul.
    destruct (Ascii.eqb y zero); [discriminate|reflexivity].
  - apply andb_true_iff in Ha as [Hx _].
    rewrite tolower_nul.
    destruct (Ascii.eqb x zero); [discriminate|reflexivity].
  - apply andb_true_iff in Ha as [Hx Ha], Hb as [Hy Hb].
    rewrite <- fold_case_agree.
    destruct (Z.eqb_spec (tolower x) (tolower y)) as [E|E].
    + apply IH; assumption.
    + apply Z.eqb_neq. lia.
Qed.

(** X1. The name lookups of the two ports agree on every name a C string
    can hold (no NUL byte): [GetPlanetType], which upper-cases the name and
    selects on it, returns the planet type [get_planet_type] finds with
    [strcasecmp], and [GetMaterialType] the material type of
    [get_material_type]; the empty QB64 string, which stands for a name that
    was not given, resolves as the C null pointer does. *)
Theorem name_lookups_agree (s : string) :
  c_string s = true ->
  GetPlanetType s = get_planet_type (Some s)
  /\ GetMaterialType s = get_material_type (Some s)
  /\ GetPlanetType "" = get_planet_type None
  /\ GetMaterialType "" = get_material_type None.
Proof.
  intros Hs. split; [|split; [|split; reflexivity]].
  - destruct s as [|x s]; [reflexivity|].
    unfold GetPlanetType, get_planet_type.
    change (String.length (String x s) =? 0)%nat with false. cbv iota zeta.
    rewrite !strcasecmp_UCASE by (assumption || reflexivity).
    reflexivity.
  - destruct s as [|x s]; [reflexivity|].
    unfold GetMaterialType, get_material_type.
    change (String.length (String x s) =? 0)%nat with false. cbv iota zeta.
    rewrite !strcasecmp_UCASE by (assumption || reflexivity).
    reflexivity.
Qed.

Lemma name_lookups_agree_witness :
  GetPlanetType "Pluto" = get_planet_type (Some "Pluto"%string)
  /\ GetMaterialType "IRON" = get_material_type (Some "IRON"%string).
Proof.
  split.
  - apply (name_lookups_agree "Pluto" eq_refl).
  - apply (name_lookups_agree "IRON" eq_refl).
Defined.

(** The table lookup of [IsNumeric], byte by byte. *)
Lemma numeric_table ch :
  truthy (Z.lnot (numeric (ASC ch))) = negb (numeric_char ch).
Proof.
  apply Bool.eqb_prop.
  refine (by_bytes
            (fun ch => Bool.eqb (truthy (Z.lnot (numeric (ASC ch))))
                         (negb (numeric_char ch))) _ ch).
  vm_compute. reflexivity.
Qed.

Lemma IsNumeric_scan_spec s :
  IsNumeric_scan s = if all_chars numeric_char s then (-1)%Z else 0%Z.
Proof.
  induction s as [|ch s IH]; [reflexivity|].
  cbn [IsNumeric_scan all_chars]. rewrite numeric_table.
  destruct (numeric_char ch); [exact IH | reflexivity].
Qed.

(** X2. [IsNumeric] answers [-1] exactly for the non-empty strings made of
    the characters [0] to [9], [.], [-], [+], [e] and [E] only, in any order
    and number, and [0] for every other string, the empty one included: the
    table built at start-up marks those fifteen byte codes and no other, and
    the loop asks nothing about the shape of the number. *)
Theorem IsNumeric_characters (A : string) :
  IsNumeric A
  = if (0 <? String.length A)%nat && all_chars numeric_char A
    then (-1)%Z else 0%Z.
Proof.
  unfold IsNumeric. destruct A as [|ch s]; [reflexivity|].
  change (String.length (String ch s) =? 0)%nat with false.
  change (0 <? String.length (String ch s))%nat with true.
  cbv iota. rewrite andb_true_l. apply IsNumeric_scan_spec.
Qed.

(** ** [ParseArgs] *)

Lemma append_cons_assoc (u : string) ch (v : string) :
  ((u ++ String ch EmptyString) ++ v = u ++ String ch v)%string.
Proof. induction u as [|x u IH]; cbn; [reflexivity | now rewrite IH]. Qed.

Lemma append_assoc_string (u v w : string) :
  ((u ++ v) ++ w = u ++ (v ++ w))%string.
Proof. induction u as [|x u IH]; cbn; [reflexivity | now rewrite IH]. Qed.

Lemma append_empty_r (u : string) : (u ++ EmptyString)%string = u.
Proof. induction u as [|x u IH]; cbn; [reflexivity | now rewrite IH]. Qed.

Lemma has_char_cons ch x s :
  has_char ch (String x s) = Ascii.eqb x ch || has_char ch s.
Proof.
  unfold has_char. cbn [all_chars].
  destruct (Ascii.eqb x ch); reflexivity.
Qed.

Lemma has_char_app ch u v :
  has_char ch (u ++ v) = has_char ch u || has_char ch v.
Proof.
  induction u as [|x u IH]; [reflexivity|].
  cbn [append]. rewrite !has_char_cons, IH. apply orb_assoc.
Qed.

Lemma length_append (u v : string) :
  String.length (u ++ v) = (String.length u + String.length v)%nat.
Proof. induction u as [|x u IH]; cbn; [reflexivity | now rewrite IH]. Qed.

Lemma parse_loop_app u : forall w st,
  parse_loop (u ++ w) st
  = match parse_loop u st with
    | Some st' => parse_loop w st'
    | None => None
    end.
Proof.
  induction u as [|x u IH]; intros w st; [reflexivity|].
  cbn [append parse_loop]. destruct (parse_char st x); [apply IH|reflexivity].
Qed.

(** A quote only flips [in_quotes]. *)
Lemma parse_char_quote st :
  parse_char st CHR34
  = Some {| pa_in_quotes := (1 - pa_in_quotes st)%Z;
            pa_current_arg := pa_current_arg st;
            pa_args := pa_args st |}.
Proof. reflexivity. Qed.

(** Any other character is appended, unless it is a space met outside
    quotes. *)
Lemma parse_char_append st ch :
  Ascii.eqb ch CHR34 = false ->
  Ascii.eqb ch " " && (pa_in_quotes st =? 0)%Z = false ->
  parse_char st ch
  = Some {| pa_in_quotes := pa_in_quotes st;
            pa_current_arg :=
              (pa_current_arg st ++ String ch EmptyString)%string;
            pa_args := pa_args st |}.
Proof. intros Hq Hs. unfold parse_char. rewrite Hq, Hs. reflexivity. Qed.

(** A space outside quotes closes the current argument, if there is one. *)
Lemma parse_char_space cur done :
  parse_char {| pa_in_quotes := 0; pa_current_arg := cur; pa_args := done |}
    " "
  = if (0 <? String.length cur)%nat then
      if (List.length done <? 25)%nat then
        Some {| pa_in_quotes := 0; pa_current_arg := EmptyString;
                pa_args := done ++ [cur] |}
      else None
    else
      Some {| pa_in_quotes := 0; pa_current_arg := cur; pa_args := done |}.
Proof. reflexivity. Qed.

Lemma parse_loop_text a : forall rest q cur done,
  has_char CHR34 a = false ->
  (q =? 0)%Z && has_char " " a = false ->
  parse_loop (a ++ rest)
    {| pa_in_quotes := q; pa_current_arg := cur; pa_args := done |}
  = parse_loop rest
      {| pa_in_quotes := q; pa_current_arg := (cur ++ a)%string;
         pa_args := done |}.
Proof.
  induction a as [|x a IH]; intros rest q cur done Hq Hs.
  - cbn [append]. now rewrite append_empty_r.
  - rewrite has_char_cons in Hq, Hs.
    apply orb_false_iff in Hq as [Hxq Haq].
    cbn [append parse_loop]. rewrite parse_char_append; cbn [pa_in_quotes];
      [|assumption|].
    + cbn [pa_current_arg pa_args]. rewrite IH.
      * now rewrite append_cons_assoc.
      * assumption.
      * destruct (q =? 0)%Z; [|reflexivity].
        cbn [andb] in *. now apply orb_false_iff in Hs as [_ Hs].
    + destruct (q =? 0)%Z; [|apply andb_false_r].
      cbn [andb] in *. apply orb_false_iff in Hs as [Hs _].
      now rewrite Hs.
Qed.

(** One argument, written bare or between quotes, followed by a space. *)
Lemma parse_loop_argument a rest done :
  plain_arg a = true ->
  parse_loop (show_arg a ++ String " " rest)
    {| pa_in_quotes := 0; pa_current_arg := EmptyString; pa_args := done |}
  = if (List.length done <? 25)%nat then
      parse_loop rest
        {| pa_in_quotes := 0; pa_current_arg := EmptyString;
           pa_args := done ++ [a] |}
    else None.
Proof.
  intros Ha. apply andb_true_iff in Ha as [Hlen Hq].
  apply negb_true_iff in Hq.
  unfold show_arg. destruct (has_char " " a) eqn:Hsp.
  - unfold quote_arg. cbn [append parse_loop].
    rewrite parse_char_quote. cbn [pa_in_quotes pa_current_arg pa_args].
    rewrite append_assoc_string.
    rewrite parse_loop_text by (assumption || reflexivity).
    cbn [append parse_loop]. rewrite parse_char_quote.
    cbn [pa_in_quotes pa_current_arg pa_args Z.sub Z.add Z.opp Z.pos_sub].
    rewrite parse_char_space. rewrite Hlen.
    destruct (List.length done <? 25)%nat; reflexivity.
  - rewrite parse_loop_text
      by (assumption || (rewrite Hsp; reflexivity)).
    cbn [append parse_loop]. rewrite parse_char_space. rewrite Hlen.
    destruct (List.length done <? 25)%nat; reflexivity.
Qed.

Lemma show_args_cons a rest :
  (show_args (a :: rest) ++ " ")%string
  = (show_arg a
     ++ String " " (match rest with
                    | [] => EmptyString
                    | _ :: _ => show_args rest ++ " "
                    end))%string.
Proof.
  destruct rest as [|b r]; cbn [show_args].
  - reflexivity.
  - rewrite append_assoc_string. reflexivity.
Qed.

(** The guard of [ParseArgs], on the length of the command line. *)
Lemma ParseArgs_counter cmdline :
  (32766 <? Z.of_nat (String.length (cmdline ++ " ")))%Z
  = negb (Z.of_nat (String.length cmdline) <=? 32765)%Z.
Proof.
  rewrite length_append. cbn [String.length].
  destruct (Z.ltb_spec 32766 (Z.of_nat (String.length cmdline + 1))),
           (Z.leb_spec (Z.of_nat (String.length cmdline)) 32765);
    try reflexivity; lia.
Qed.

(** What [ParseArgs] does after the loop, as a function of the loop's
    result, on a line that the counter can run through. *)
Lemma ParseArgs_loop cmdline :
  (Z.of_nat (String.length cmdline) <= 32765)%Z ->
  ParseArgs cmdline
  = match parse_loop (cmdline ++ " ")
            {| pa_in_quotes := 0; pa_current_arg := EmptyString;
               pa_args := [] |} with
    | None => None
    | Some st =>
        if (0 <? String.length (pa_current_arg st))%nat then
          match store_arg st with
          | Some st' => Some (pa_args st')
          | None => None
          end
        else Some (pa_args st)
    end.
Proof.
  intros H. unfold ParseArgs. cbv zeta. rewrite ParseArgs_counter.
  apply Z.leb_le in H. rewrite H. reflexivity.
Qed.

Lemma ParseArgs_too_long cmdline :
  (32765 < Z.of_nat (String.length cmdline))%Z -> ParseArgs cmdline = None.
Proof.
  intros H. unfold ParseArgs. cbv zeta. rewrite ParseArgs_counter.
  destruct (Z.leb_spec (Z.of_nat (String.length cmdline)) 32765);
    [lia | reflexivity].
Qed.

Lemma parse_loop_arguments l : forall done,
  forallb plain_arg l = true ->
  l <> [] ->
  parse_loop (show_args l ++ " ")
    {| pa_in_quotes := 0; pa_current_arg := EmptyString; pa_args := done |}
  = if (List.length done + List.length l <=? 25)%nat then
      Some {| pa_in_quotes := 0; pa_current_arg := EmptyString;
              pa_args := done ++ l |}
    else None.
Proof.
  induction l as [|a rest IH]; intros done Hl Hne; [congruence|].
  cbn [forallb] in Hl. apply andb_true_iff in Hl as [Ha Hrest].
  rewrite show_args_cons, parse_loop_argument by assumption.
  destruct rest as [|b r].
  - cbn [parse_loop List.length].
    destruct (Nat.ltb_spec (List.length done) 25),
             (Nat.leb_spec (List.length done + 1) 25);
      try reflexivity; lia.
  - rewrite IH by (assumption || discriminate).
    rewrite <- app_assoc. cbn [app]. rewrite length_app.
    cbn [List.length].
    destruct (Nat.ltb_spec (List.length done) 25),
      (Nat.leb_spec (List.length done + 1 + S (List.length r)) 25),
      (Nat.leb_spec (List.length done + S (S (List.length r))) 25);
      try reflexivity; lia.
Qed.

(** X3. [ParseArgs] reads back what was written: for every list of
    arguments that are not empty and hold no double quote, written one space
    apart with the arguments that hold a space put between double quotes, on
    a line of at most 32765 characters (the 16-bit counter [i] must reach
    [LEN(cmdline + " ") + 1]), the function stores exactly that list, in
    order, when it has at most 25 elements; with more it stops on the
    twenty-sixth store, outside [args(1 TO 25)].  On a longer line it
    returns nothing. *)
Theorem ParseArgs_reads_back (l : list string) :
  forallb plain_arg l = true ->
  ((Z.of_nat (String.length (show_args l)) <= 32765)%Z ->
   ParseArgs (show_args l)
   = if (List.length l <=? 25)%nat then Some l else None)
  /\ ((32765 < Z.of_nat (String.length (show_args l)))%Z ->
      ParseArgs (show_args l) = None).
Proof.
  intros Hl. split; [|apply ParseArgs_too_long].
  intros Hfit. rewrite ParseArgs_loop by exact Hfit.
  destruct l as [|a rest]; [reflexivity|].
  rewrite parse_loop_arguments by (assumption || discriminate).
  cbn [List.length Nat.add app].
  destruct (S (List.length rest) <=? 25)%nat; reflexivity.
Qed.

Lemma ParseArgs_reads_back_witness :
  ParseArgs (show_args ["d"; "1.0"; "7800"; "0.25"; "1km iron"; "pluto";
                        "iron"]%string)
  = Some ["d"; "1.0"; "7800"; "0.25"; "1km iron"; "pluto"; "iron"]%string.
Proof.
  apply (proj1 (ParseArgs_reads_back
                  ["d"; "1.0"; "7800"; "0.25"; "1km iron"; "pluto";
                   "iron"]%string eq_refl)).
  apply Z.leb_le. reflexivity.
Defined.

Lemma store_arg_invariant st st' :
  parse_invariant st ->
  (0 <? String.length (pa_current_arg st))%nat = true ->
  store_arg st = Some st' ->
  parse_invariant st'.
Proof.
  intros (Hlen & Hall & Hcur) Hne. unfold store_arg.
  destruct (Nat.ltb_spec (List.length (pa_args st)) 25) as [Hlt|];
    [|discriminate].
  intros [= <-]. unfold parse_invariant.
  cbn [pa_args pa_current_arg]. rewrite length_app, forallb_app.
  cbn [List.length forallb]. unfold plain_arg at 2.
  rewrite Hall, Hne, Hcur. repeat split; try reflexivity. lia.
Qed.

Lemma parse_char_invariant st ch st' :
  parse_invariant st -> parse_char st ch = Some st' -> parse_invariant st'.
Proof.
  intros Hinv. pose proof Hinv as (Hlen & Hall & Hcur). unfold parse_char.
  destruct (Ascii.eqb ch CHR34) eqn:Hq.
  - intros [= <-]. exact Hinv.
  - destruct (Ascii.eqb ch " " && (pa_in_quotes st =? 0)%Z).
    + destruct (0 <? String.length (pa_current_arg st))%nat eqn:Hne.
      * apply store_arg_invariant; assumption.
      * intros [= <-]. exact Hinv.
    + cbn [negb]. intros [= <-]. unfold parse_invariant.
      cbn [pa_args pa_current_arg]. rewrite has_char_app, Hcur.
      rewrite has_char_cons, Hq. repeat split; assumption.
Qed.

Lemma parse_loop_invariant temp : forall st st',
  parse_invariant st -> parse_loop temp st = Some st' -> parse_invariant st'.
Proof.
  induction temp as [|ch temp IH]; intros st st' Hinv; cbn [parse_loop].
  - intros [= <-]. exact Hinv.
  - destruct (parse_char st ch) as [st1|] eqn:E; [|discriminate].
    apply IH. exact (parse_char_invariant st ch st1 Hinv E).
Qed.

(** X4. Whatever the command line, the arguments [ParseArgs] stores are at
    most 25, none of them is empty and none holds a double quote: a quote is
    never copied, and an argument is stored only when it has a character.  So
    an empty argument cannot be passed, quoted or not. *)
Theorem ParseArgs_arguments (cmdline : string) (l : list string) :
  ParseArgs cmdline = Some l ->
  (List.length l <= 25)%nat
  /\ Forall (fun a => a <> EmptyString /\ has_char CHR34 a = false) l.
Proof.
  destruct (Z.leb_spec (Z.of_nat (String.length cmdline)) 32765) as [Hfit|Hno];
    [|rewrite ParseArgs_too_long by exact Hno; discriminate].
  rewrite ParseArgs_loop by exact Hfit.
  destruct (parse_loop _ _) as [st|] eqn:E; [|discriminate].
  assert (Hinv : parse_invariant st).
  { refine (parse_loop_invariant _ _ _ _ E).
    repeat split. cbn. lia. }
  intros H.
  assert (Hl : (List.length l <= 25)%nat /\ forallb plain_arg l = true).
  { destruct (0 <? String.length (pa_current_arg st))%nat eqn:Hne.
    - destruct (store_arg st) as [st'|] eqn:Es; [|discriminate].
      injection H as <-.
      destruct (store_arg_invariant st st' Hinv Hne Es) as (? & ? & _).
      split; assumption.
    - injection H as <-. destruct Hinv as (? & ? & _). split; assumption. }
  destruct Hl as [Hlen Hall]. split; [exact Hlen|].
  apply Forall_forall. intros a Ha.
  rewrite forallb_forall in Hall. specialize (Hall a Ha).
  apply andb_true_iff in Hall as [Hne Hq]. apply negb_true_iff in Hq.
  split; [|exact Hq]. intros ->. discriminate.
Qed.

Lemma ParseArgs_arguments_witness :
  (List.length ["m"; "1e22"; "big rock"]%string <= 25)%nat
  /\ Forall (fun a => a <> EmptyString /\ has_char CHR34 a = false)
       ["m"; "1e22"; "big rock"]%string.
Proof.
  apply (ParseArgs_arguments
           (String "m" (String " " (String CHR34 (String CHR34
              (String " " (String "1" (String "e" (String "2" (String "2"
              (String " " (String "b" (String "i" (String "g"
              (String CHR34 (String " " (String CHR34
              (String "r" (String "o" (String "c" (String "k"
              EmptyString))))))))))))))))))))).
  reflexivity.
Defined.

(** X5. Quotes only switch the meaning of spaces; they do not delimit.
    On a line of at most 32765 characters (the 16-bit counter [i] must reach
    [LEN(cmdline + " ") + 1]), two double quotes in a row, anywhere in the
    line, change nothing: the line parses as it does without them.  And a
    quote that is never closed runs to the end of the line: a line of at most
    32765 characters that is one quote followed by text without quotes yields
    a single argument, the text followed by the space that [ParseArgs] itself
    appends to the line. *)
Theorem ParseArgs_quotes (u v : string) :
  ((Z.of_nat (String.length (u ++ String CHR34 (String CHR34 v))) <= 32765)%Z
   -> ParseArgs (u ++ String CHR34 (String CHR34 v)) = ParseArgs (u ++ v))
  /\ ((Z.of_nat (String.length (String CHR34 v)) <= 32765)%Z ->
      has_char CHR34 v = false ->
      ParseArgs (String CHR34 v) = Some [(v ++ " ")%string]).
Proof.
  split.
  - intros Hfit.
    assert (Hfit' : (Z.of_nat (String.length (u ++ v)) <= 32765)%Z)
      by (rewrite length_append in *; cbn [String.length] in Hfit; lia).
    rewrite !ParseArgs_loop by assumption.
    rewrite !append_assoc_string, !parse_loop_app.
    destruct (parse_loop u _) as [st|]; [|reflexivity].
    cbn [append parse_loop]. rewrite !parse_char_quote.
    cbn [pa_in_quotes pa_current_arg pa_args].
    replace (1 - (1 - pa_in_quotes st))%Z with (pa_in_quotes st) by lia.
    destruct st; reflexivity.
  - intros Hfit Hv. rewrite ParseArgs_loop by exact Hfit.
    cbn [append parse_loop].
    rewrite parse_char_quote. cbn [pa_in_quotes pa_current_arg pa_args].
    assert (H : has_char CHR34 (v ++ " ") = false)
      by (rewrite has_char_app, Hv; reflexivity).
    pose proof (parse_loop_text (v ++ " ") EmptyString (1 - 0)%Z EmptyString
                  [] H eq_refl) as E.
    rewrite append_empty_r in E. rewrite E.
    cbn [parse_loop pa_current_arg append].
    rewrite length_append. cbn [String.length].
    replace (0 <? String.length v + 1)%nat with true
      by (symmetry; apply Nat.ltb_lt; lia).
    reflexivity.
Qed.

Lemma ParseArgs_quotes_witness :
  ParseArgs (String CHR34 "big rock") = Some ["big rock "%string].
Proof.
  apply (proj2 (ParseArgs_quotes EmptyString "big rock"));
    [apply Z.leb_le|]; reflexivity.
Defined.

(* ================================================================== *)
(** * Reading [argv], C port *)
(* ================================================================== *)

Lemma mode_d_or_v md :
  is_mode "d" "D" md || is_mode "v" "V" md = true ->
  is_mode "m" "M" md = false.
Proof.
  intros H. apply orb_true_iff in H as [H|H].
  - apply mode_d_not_m, H.
  - apply mode_v_not_m_d, H.
Qed.

(** X6. In modes [d] and [v] the efficiency argument is read only when an
    object name was found.  With the four numbers alone,
    [d <diameter> <rho> <epsilon>], and with planet and material after them,
    [d <diameter> <rho> <epsilon> <planet> <material>], the run computes with
    an efficiency of 1.0 whatever the efficiency argument says; this holds
    for every behaviour of [strtod] and [atof] under which that argument
    reads as a number and the two names do not. *)
Theorem epsilon_needs_object_name
    (consumed : string -> bool) (atof : string -> dbl)
    (prog md q r e p m : string) :
  is_mode "d" "D" (first_char md) || is_mode "v" "V" (first_char md) = true ->
  consumed e = true ->
  request_of_argv consumed atof [prog; md; q; r; e]
  = Some {| mode := first_char md; quantity := atof q; rho := atof r;
            eps := #1.0; object_name := None; planet_name := None;
            material_name := None |}
  /\ (consumed p = false -> consumed m = false ->
      request_of_argv consumed atof [prog; md; q; r; e; p; m]
      = Some {| mode := first_char md; quantity := atof q; rho := atof r;
                eps := #1.0; object_name := None; planet_name := Some p;
                material_name := Some m |}).
Proof.
  intros Hmd He. pose proof (mode_d_or_v _ Hmd) as Hm. split.
  - read_argv. reflexivity.
  - intros Hp Hmat. read_argv. reflexivity.
Qed.

Lemma epsilon_needs_object_name_witness :
  request_of_argv (fun s => negb (IsNumeric s =? 0)%Z) (fun _ => #0.25)
    ["unbindEnergy"; "d"; "1.0"; "7800"; "0.25"]%string
  = Some {| mode := "d"; quantity := #0.25; rho := #0.25; eps := #1.0;
            object_name := None; planet_name := None;
            material_name := None |}.
Proof.
  apply (epsilon_needs_object_name
           (fun s => negb (IsNumeric s =? 0)%Z) (fun _ => #0.25)
           "unbindEnergy" "d" "1.0" "7800" "0.25" "pluto" "iron");
    reflexivity.
Defined.

(** X7. In modes [d] and [v] a name in fifth place is also read as the
    efficiency: for [d <diameter> <rho> <name>], with or without planet and
    material after it, the object name is [argv[4]] and the efficiency is
    [atof (argv[4])], the number the name starts with.  When that number is
    not positive (zero, for a name that starts with no number) the run ends
    with "Inputs must be positive." and status 1, nothing printed. *)
Theorem name_read_as_epsilon
    (consumed : string -> bool) (atof : string -> dbl)
    (prog md q r name p m : string) :
  is_mode "d" "D" (first_char md) || is_mode "v" "V" (first_char md) = true ->
  consumed name = false ->
  request_of_argv consumed atof [prog; md; q; r; name]
  = Some {| mode := first_char md; quantity := atof q; rho := atof r;
            eps := atof name; object_name := Some name;
            planet_name := None; material_name := None |}
  /\ (consumed p = false -> consumed m = false ->
      request_of_argv consumed atof [prog; md; q; r; name; p; m]
      = Some {| mode := first_char md; quantity := atof q; rho := atof r;
                eps := atof name; object_name := Some name;
                planet_name := Some p; material_name := Some m |})
  /\ (non_positive (atof name) ->
      main_argv consumed atof [prog; md; q; r; name]
      = Some {| out := []; err := [ERR_inputs_must_be_positive];
                status := 1 |}).
Proof.
  intros Hmd Hn. pose proof (mode_d_or_v _ Hmd) as Hm.
  assert (E : request_of_argv consumed atof [prog; md; q; r; name]
              = Some {| mode := first_char md; quantity := atof q;
                        rho := atof r; eps := atof name;
                        object_name := Some name; planet_name := None;
                        material_name := None |})
    by (read_argv; reflexivity).
  split; [exact E|]. split.
  - intros Hp Hmat. read_argv. reflexivity.
  - intros Hneg. unfold main_argv. rewrite E. f_equal.
    apply main_rejects_non_positive.
    + unfold known_mode. cbn [mode]. rewrite Hm. exact Hmd.
    + right. left. exact Hneg.
Qed.

Lemma name_read_as_epsilon_witness :
  main_argv (fun s => negb (IsNumeric s =? 0)%Z) (fun _ => #0)
    ["unbindEnergy"; "d"; "1.0"; "7800"; "Ceres"]%string
  = Some {| out := []; err := [ERR_inputs_must_be_positive]; status := 1 |}.
Proof.
  refine (proj2 (proj2 (name_read_as_epsilon
                          (fun s => negb (IsNumeric s =? 0)%Z) (fun _ => #0)
                          "unbindEnergy" "d" "1.0" "7800" "Ceres" "pluto"
                          "iron" eq_refl eq_refl)) _).
  cbn. lra.
Defined.

(** X8. The forms of the usage text that [main] reads as documented, for
    every behaviour of [strtod] and [atof] under which the names do not read
    as numbers: with the mode and one number alone the defaults apply
    (efficiency 1.0, density 3000); a name after that one number is the
    object, the defaults still applying; and with every optional number
    given, [m <mass> <epsilon> <name> <planet> <material>] and
    [d <diameter> <rho> <epsilon> <name> <planet> <material>] (the same for
    [v]) yield those numbers and those three names.  With fewer than two
    arguments after the program name only the usage is printed. *)
Theorem documented_forms
    (consumed : string -> bool) (atof : string -> dbl)
    (prog md q r e name p m : string) :
  consumed name = false -> consumed p = false -> consumed m = false ->
  main_argv consumed atof [prog] = None
  /\ main_argv consumed atof [prog; md] = None
  /\ (is_mode "m" "M" (first_char md) = true ->
      request_of_argv consumed atof [prog; md; q]
      = Some {| mode := first_char md; quantity := atof q; rho := #3000.0;
                eps := #1.0; object_name := None; planet_name := None;
                material_name := None |}
      /\ request_of_argv consumed atof [prog; md; q; name]
         = Some {| mode := first_char md; quantity := atof q;
                   rho := #3000.0; eps := #1.0; object_name := Some name;
                   planet_name := None; material_name := None |}
      /\ request_of_argv consumed atof [prog; md; q; e; name; p; m]
         = Some {| mode := first_char md; quantity := atof q;
                   rho := #3000.0; eps := atof e; object_name := Some name;
                   planet_name := Some p; material_name := Some m |})
  /\ (is_mode "d" "D" (first_char md) || is_mode "v" "V" (first_char md)
      = true ->
      request_of_argv consumed atof [prog; md; q]
      = Some {| mode := first_char md; quantity := atof q; rho := #3000.0;
                eps := #1.0; object_name := None; planet_name := None;
                material_name := None |}
      /\ request_of_argv consumed atof [prog; md; q; name]
         = Some {| mode := first_char md; quantity := atof q;
                   rho := #3000.0; eps := #1.0; object_name := Some name;
                   planet_name := None; material_name := None |}
      /\ request_of_argv consumed atof [prog; md; q; r; e; name; p; m]
         = Some {| mode := first_char md; quantity := atof q; rho := atof r;
                   eps := atof e; object_name := Some name;
                   planet_name := Some p; material_name := Some m |}).
Proof.
  intros Hn Hp Hmat. split; [reflexivity|]. split; [reflexivity|]. split.
  - intros Hm. repeat split; read_argv; reflexivity.
  - intros Hmd. pose proof (mode_d_or_v _ Hmd) as Hm.
    repeat split; read_argv; reflexivity.
Qed.

Lemma documented_forms_witness :
  request_of_argv (fun s => negb (IsNumeric s =? 0)%Z) (fun _ => #0.25)
    ["unbindEnergy"; "d"; "1.0"; "7800"; "0.25"; "1km iron"; "pluto";
     "iron"]%string
  = Some {| mode := "d"; quantity := #0.25; rho := #0.25; eps := #0.25;
            object_name := Some "1km iron"%string;
            planet_name := Some "pluto"%string;
            material_name := Some "iron"%string |}.
Proof.
  exact (proj2 (proj2 (proj2 (proj2 (proj2
           (documented_forms
              (fun s => negb (IsNumeric s =? 0)%Z) (fun _ => #0.25)
              "unbindEnergy" "d" "1.0" "7800" "0.25" "1km iron" "pluto"
              "iron" eq_refl eq_refl eq_refl))) eq_refl))).
Defined.

(* ================================================================== *)
(** * Names on the QB64 command line *)
(* ================================================================== *)

Lemma arg_at_app front l i :
  (Z.of_nat (List.length front) < i)%Z ->
  arg_at (front ++ l) i
  = nth (Z.to_nat (i - 1 - Z.of_nat (List.length front))) l EmptyString.
Proof.
  intros H. unfold arg_at.
  rewrite app_nth2 by lia. f_equal. lia.
Qed.

Lemma qb_names_three front name p m :
  (3 <= List.length front)%nat ->
  IsNumeric name = 0%Z -> IsNumeric p = 0%Z -> IsNumeric m = 0%Z ->
  qb_names (front ++ [name; p; m])
  = {| nv_arg_count := Z.of_nat (List.length front);
       nv_object_name := name;
       nv_planet_name := p;
       nv_material_name := m;
       nv_has_object := 1;
       nv_has_atmospheric := 1 |}.
Proof.
  intros Hlen Hn Hp Hm. unfold qb_names.
  rewrite length_app. cbn [List.length].
  set (n := List.length front) in *.
  assert (E3 : arg_at (front ++ [name; p; m]) (Z.of_nat (n + 3)) = m).
  { rewrite arg_at_app by (fold n; lia). fold n.
    replace (Z.to_nat (Z.of_nat (n + 3) - 1 - Z.of_nat n)) with 2%nat by lia.
    reflexivity. }
  assert (E2 : arg_at (front ++ [name; p; m]) (Z.of_nat (n + 3) - 1) = p).
  { rewrite arg_at_app by (fold n; lia). fold n.
    replace (Z.to_nat (Z.of_nat (n + 3) - 1 - 1 - Z.of_nat n))
      with 1%nat by lia.
    reflexivity. }
  assert (E1 : arg_at (front ++ [name; p; m]) (Z.of_nat (n + 3) - 2) = name).
  { rewrite arg_at_app by (fold n; lia). fold n.
    replace (Z.to_nat (Z.of_nat (n + 3) - 2 - 1 - Z.of_nat n))
      with 0%nat by lia.
    reflexivity. }
  cbv zeta. rewrite E3, E2, E1, Hn, Hp, Hm.
  replace (6 <=? Z.of_nat (n + 3))%Z with true
    by (symmetry; apply Z.leb_le; lia).
  replace (4 <=? Z.of_nat (n + 3) - 2)%Z with true
    by (symmetry; apply Z.leb_le; lia).
  cbn [Z.lnot Z.pred Z.opp Z.add Z.land truthy Z.eqb negb
       nv_has_atmospheric].
  f_equal. lia.
Qed.

Lemma ParseArgs_show_args l :
  forallb plain_arg l = true -> (List.length l <= 25)%nat ->
  (Z.of_nat (String.length (show_args l)) <= 32765)%Z ->
  ParseArgs (show_args l) = Some l.
Proof.
  intros Hl Hlen Hfit. rewrite ParseArgs_loop by exact Hfit.
  destruct l as [|a rest]; [reflexivity|].
  rewrite parse_loop_arguments by (assumption || discriminate).
  cbn [List.length Nat.add app] in *.
  destruct (Nat.leb_spec (S (List.length rest)) 25); [reflexivity | lia].
Qed.

Lemma show_args_not_empty a rest :
  plain_arg a = true ->
  (0 <? String.length (show_args (a :: rest)))%nat = true.
Proof.
  intros Ha. apply andb_true_iff in Ha as [Hlen _].
  apply Nat.ltb_lt in Hlen. apply Nat.ltb_lt.
  assert (H : (0 < String.length (show_arg a))%nat).
  { unfold show_arg, quote_arg. destruct (has_char " " a); cbn; lia. }
  cbn [show_args]. destruct rest; [exact H|].
  rewrite length_append. lia.
Qed.

(** X9. From the command line to the names, QB64 port: for a line written
    as [show_args] writes it, of at most 32765 characters (the 16-bit counter
    of [ParseArgs]), holding at least three arguments and then a name, a
    planet and a material, none of the three made of numeric characters
    only, 25 arguments at most, the top-level code finds exactly those three
    names, sets both flags, and leaves in [arg_count] the number of arguments
    before the name. *)
Theorem qb_command_line_names (front : list string) (name p m : string) :
  forallb plain_arg (front ++ [name; p; m]) = true ->
  (3 <= List.length front <= 22)%nat ->
  (Z.of_nat (String.length (show_args (front ++ [name; p; m]))) <= 32765)%Z ->
  IsNumeric name = 0%Z -> IsNumeric p = 0%Z -> IsNumeric m = 0%Z ->
  qb_command_line (show_args (front ++ [name; p; m]))
  = Some {| nv_arg_count := Z.of_nat (List.length front);
            nv_object_name := name;
            nv_planet_name := p;
            nv_material_name := m;
            nv_has_object := 1;
            nv_has_atmospheric := 1 |}.
Proof.
  intros Hall [Hlo Hhi] Hfit Hn Hp Hm. unfold qb_command_line.
  destruct front as [|a front']; [cbn in Hlo; lia|].
  cbn [app] in *. rewrite show_args_not_empty
    by (cbn [forallb] in Hall; apply andb_true_iff in Hall; tauto).
  change (a :: front' ++ [name; p; m]) with ((a :: front') ++ [name; p; m]).
  rewrite ParseArgs_show_args
    by (assumption || (rewrite length_app; cbn [List.length] in *; lia)).
  f_equal. apply qb_names_three; assumption.
Qed.

Lemma qb_command_line_names_witness :
  qb_command_line
    (show_args (["d"; "1.0"; "7800"; "0.25"]%string
                ++ ["1km iron"; "pluto"; "iron"]%string)%list)
  = Some {| nv_arg_count := 4;
            nv_object_name := "1km iron";
            nv_planet_name := "pluto";
            nv_material_name := "iron";
            nv_has_object := 1;
            nv_has_atmospheric := 1 |}.
Proof.
  apply (qb_command_line_names ["d"; "1.0"; "7800"; "0.25"]%string
           "1km iron" "pluto" "iron");
    try reflexivity.
  - cbn. lia.
  - apply Z.leb_le. reflexivity.
Defined.

Lemma qb_names_few args :
  (List.length args < 6)%nat ->
  nv_planet_name (qb_names args) = EmptyString
  /\ nv_material_name (qb_names args) = EmptyString
  /\ nv_has_atmospheric (qb_names args) = 0%Z.
Proof.
  intros H. unfold qb_names.
  replace (6 <=? Z.of_nat (List.length args))%Z with false
    by (symmetry; apply Z.leb_gt; lia).
  cbv zeta. cbn [nv_has_atmospheric nv_arg_count Z.eqb].
  destruct (3 <? _)%Z; [|repeat split].
  destruct (truthy _); repeat split.
Qed.

(** X10. The two ports do not find planet and material on the same
    command lines.  The QB64 port looks for them only when there are six
    arguments or more: with fewer, the planet and material names stay empty,
    so the target is Earth and the material stony.  The C port looks from
    [argc >= 6] on, which is five arguments after the program name.  So for
    [<mode> <number> <number> <planet> <material>], with names neither
    [strtod] nor [IsNumeric] takes for numbers, the C port reads planet and
    material and no object name, and the QB64 port reads the material as the
    object name and targets Earth. *)
Theorem ports_disagree_on_five_arguments
    (consumed : string -> bool) (prog md q e p m : string) :
  consumed p = false -> consumed m = false ->
  IsNumeric p = 0%Z -> IsNumeric m = 0%Z ->
  (forall args, (List.length args < 6)%nat ->
     GetPlanetType (nv_planet_name (qb_names args)) = PLANET_EARTH
     /\ GetMaterialType (nv_material_name (qb_names args)) = MATERIAL_STONY)
  /\ find_names consumed [prog; md; q; e; p; m]
     = {| fn_object_name := None; fn_planet_name := Some p;
          fn_material_name := Some m; fn_has_object := false;
          fn_has_atmospheric := true |}
  /\ qb_names [md; q; e; p; m]
     = {| nv_arg_count := 4;
          nv_object_name := m;
          nv_planet_name := EmptyString;
          nv_material_name := EmptyString;
          nv_has_object := 1;
          nv_has_atmospheric := 0 |}.
Proof.
  intros Hp Hm Np Nm. split; [|split].
  - intros args H. destruct (qb_names_few args H) as (-> & -> & _).
    split; reflexivity.
  - unfold find_names.
    cbn [List.length Nat.ltb Nat.leb Nat.sub argv_at nth].
    rewrite Hp, Hm. reflexivity.
  - unfold qb_names. cbn [List.length].
    change (Z.of_nat 5) with 5%Z. cbv zeta.
    change (6 <=? 5)%Z with false. cbv iota.
    cbn [nv_has_atmospheric nv_arg_count].
    change (0 =? 0)%Z with true. change (3 <? 5)%Z with true. cbv iota.
    change (arg_at [md; q; e; p; m] 5) with m.
    rewrite Nm. reflexivity.
Qed.

Lemma ports_disagree_on_five_arguments_witness :
  find_names (fun s => negb (IsNumeric s =? 0)%Z)
    ["unbindEnergy"; "m"; "1e22"; "0.5"; "pluto"; "iron"]%string
  = {| fn_object_name := None; fn_planet_name := Some "pluto"%string;
       fn_material_name := Some "iron"%string; fn_has_object := false;
       fn_has_atmospheric := true |}
  /\ qb_names ["m"; "1e22"; "0.5"; "pluto"; "iron"]%string
     = {| nv_arg_count := 4;
          nv_object_name := "iron";
          nv_planet_name := EmptyString;
          nv_material_name := EmptyString;
          nv_has_object := 1;
          nv_has_atmospheric := 0 |}.
Proof.
  exact (proj2 (ports_disagree_on_five_arguments
                  (fun s => negb (IsNumeric s =? 0)%Z)
                  "unbindEnergy" "m" "1e22" "0.5" "pluto" "iron"
                  eq_refl eq_refl eq_refl eq_refl)).
Defined.

(** ** Numbers on the QB64 command line *)

Lemma qb_names_short args :
  (List.length args <= 3)%nat ->
  qb_names args
  = {| nv_arg_count := Z.of_nat (List.length args);
       nv_object_name := EmptyString;
       nv_planet_name := EmptyString;
       nv_material_name := EmptyString;
       nv_has_object := 0;
       nv_has_atmospheric := 0 |}.
Proof.
  intros H. unfold qb_names.
  replace (6 <=? Z.of_nat (List.length args))%Z with false
    by (symmetry; apply Z.leb_gt; lia).
  cbv zeta. cbn [nv_has_atmospheric nv_arg_count Z.eqb].
  replace (3 <? Z.of_nat (List.length args))%Z with false
    by (symmetry; apply Z.ltb_ge; lia).
  reflexivity.
Qed.

Lemma qb_names_numeric_last args :
  (List.length args < 6)%nat ->
  IsNumeric (arg_at args (Z.of_nat (List.length args))) = (-1)%Z ->
  qb_names args
  = {| nv_arg_count := Z.of_nat (List.length args);
       nv_object_name := EmptyString;
       nv_planet_name := EmptyString;
       nv_material_name := EmptyString;
       nv_has_object := 0;
       nv_has_atmospheric := 0 |}.
Proof.
  intros H N. unfold qb_names.
  replace (6 <=? Z.of_nat (List.length args))%Z with false
    by (symmetry; apply Z.leb_gt; lia).
  cbv zeta. cbn [nv_has_atmospheric nv_arg_count Z.eqb].
  rewrite N. destruct (3 <? _)%Z; reflexivity.
Qed.

Lemma mode_char_d md :
  is_mode "d" "D" (first_char md) = true -> UCASE (LEFT1 md) = "D"%string.
Proof.
  intros H. destruct md as [|ch rest]; [discriminate|].
  cbn [first_char] in H.
  destruct (is_mode_cases _ _ _ H) as [-> | ->]; reflexivity.
Qed.

Lemma mode_char_v md :
  is_mode "v" "V" (first_char md) = true -> UCASE (LEFT1 md) = "V"%string.
Proof.
  intros H. destruct md as [|ch rest]; [discriminate|].
  cbn [first_char] in H.
  destruct (is_mode_cases _ _ _ H) as [-> | ->]; reflexivity.
Qed.

Lemma mode_char_m md :
  is_mode "m" "M" (first_char md) = true -> UCASE (LEFT1 md) = "M"%string.
Proof.
  intros H. destruct md as [|ch rest]; [discriminate|].
  cbn [first_char] in H.
  destruct (is_mode_cases _ _ _ H) as [-> | ->]; reflexivity.
Qed.

Lemma mode_char_d_or_v md :
  is_mode "d" "D" (first_char md) || is_mode "v" "V" (first_char md) = true ->
  String.eqb (UCASE (LEFT1 md)) "M" = false
  /\ String.eqb (UCASE (LEFT1 md)) "D" || String.eqb (UCASE (LEFT1 md)) "V"
     = true.
Proof.
  intros H. apply orb_true_iff in H as [H|H].
  - rewrite (mode_char_d md H). split; reflexivity.
  - rewrite (mode_char_v md H). split; reflexivity.
Qed.

(** X11. The two ports do not read the same numbers from the same
    command line.  For [d <diameter> <rho> <epsilon>] (the same for [v]),
    all numbers, the C port leaves the efficiency at 1.0 and the QB64 port
    reads it from the fourth argument.  For [d <diameter> <name>] the C port
    takes the name for the object name and keeps the default density, and
    the QB64 port, which looks for an object name only from the fourth
    argument on, reads the density from the name and finds no object. *)
Theorem ports_disagree_on_numbers
    (consumed : string -> bool) (atof VAL : string -> dbl)
    (prog md q r e name : string) :
  is_mode "d" "D" (first_char md) || is_mode "v" "V" (first_char md) = true ->
  consumed e = true -> IsNumeric e = (-1)%Z ->
  consumed name = false ->
  (request_of_argv consumed atof [prog; md; q; r; e]
   = Some {| mode := first_char md; quantity := atof q; rho := atof r;
             eps := #1.0; object_name := None; planet_name := None;
             material_name := None |}
   /\ qb_request VAL [md; q; r; e]
      = Some {| mode := first_char (UCASE (LEFT1 md)); quantity := VAL q;
                rho := VAL r; eps := VAL e; object_name := None;
                planet_name := None; material_name := None |})
  /\ (request_of_argv consumed atof [prog; md; q; name]
      = Some {| mode := first_char md; quantity := atof q; rho := #3000.0;
                eps := #1.0; object_name := Some name; planet_name := None;
                material_name := None |}
      /\ qb_request VAL [md; q; name]
         = Some {| mode := first_char (UCASE (LEFT1 md)); quantity := VAL q;
                   rho := VAL name; eps := #1.0; object_name := None;
                   planet_name := None; material_name := None |}).
Proof.
  intros Hmd He Ne Hn. pose proof (mode_d_or_v _ Hmd) as Hm.
  destruct (mode_char_d_or_v md Hmd) as [Qm Qd].
  split; split.
  - read_argv. reflexivity.
  - unfold qb_request.
    rewrite (qb_names_numeric_last [md; q; r; e]) by (cbn; lia || exact Ne).
    eval_closed. rewrite Qm, Qd. reflexivity.
  - read_argv. reflexivity.
  - unfold qb_request.
    rewrite (qb_names_short [md; q; name]) by (cbn; lia).
    eval_closed. rewrite Qm, Qd. reflexivity.
Qed.

Lemma ports_disagree_on_numbers_witness :
  request_of_argv (fun s => negb (IsNumeric s =? 0)%Z) (fun _ => #0.25)
    ["unbindEnergy"; "d"; "1.0"; "7800"; "0.25"]%string
  = Some {| mode := "d"; quantity := #0.25; rho := #0.25; eps := #1.0;
            object_name := None; planet_name := None;
            material_name := None |}
  /\ qb_request (fun _ => #0.25) ["d"; "1.0"; "7800"; "0.25"]%string
     = Some {| mode := "D"; quantity := #0.25; rho := #0.25; eps := #0.25;
               object_name := None; planet_name := None;
               material_name := None |}.
Proof.
  exact (proj1 (ports_disagree_on_numbers
                  (fun s => negb (IsNumeric s =? 0)%Z) (fun _ => #0.25)
                  (fun _ => #0.25) "unbindEnergy" "d" "1.0" "7800" "0.25"
                  "Ceres" eq_refl eq_refl eq_refl eq_refl)).
Defined.

(** X12. The forms of the usage text that the QB64 main module reads as
    documented, for every behaviour of [VAL]: with fewer than two arguments
    only the usage is printed; with the mode and one number the defaults
    apply; and with every optional number given and names that are not made
    of numeric characters only, [m <mass> <epsilon> <name> <planet>
    <material>] and [d <diameter> <rho> <epsilon> <name> <planet>
    <material>] (the same for [v]) yield those numbers and those three
    names: on these forms the two ports read the same arguments as the same
    parameters. *)
Theorem qb_documented_forms
    (VAL : string -> dbl) (md q r e name p m : string) :
  IsNumeric name = 0%Z -> IsNumeric p = 0%Z -> IsNumeric m = 0%Z ->
  (0 <? String.length p)%nat = true -> (0 <? String.length m)%nat = true ->
  qb_request VAL [] = None
  /\ qb_request VAL [md] = None
  /\ (is_mode "m" "M" (first_char md) = true ->
      qb_request VAL [md; q]
      = Some {| mode := "M"; quantity := VAL q; rho := #3000.0;
                eps := #1.0; object_name := None; planet_name := None;
                material_name := None |}
      /\ qb_request VAL [md; q; e; name; p; m]
         = Some {| mode := "M"; quantity := VAL q; rho := #3000.0;
                   eps := VAL e; object_name := Some name;
                   planet_name := Some p; material_name := Some m |})
  /\ (is_mode "d" "D" (first_char md) || is_mode "v" "V" (first_char md)
      = true ->
      qb_request VAL [md; q]
      = Some {| mode := first_char (UCASE (LEFT1 md)); quantity := VAL q;
                rho := #3000.0; eps := #1.0; object_name := None;
                planet_name := None; material_name := None |}
      /\ qb_request VAL [md; q; r; e; name; p; m]
         = Some {| mode := first_char (UCASE (LEFT1 md)); quantity := VAL q;
                   rho := VAL r; eps := VAL e; object_name := Some name;
                   planet_name := Some p; material_name := Some m |}).
Proof.
  intros Nn Np Nm Lp Lm.
  split; [reflexivity|]. split; [reflexivity|]. split.
  - intros Hm. pose proof (mode_char_m md Hm) as Qm. split.
    + unfold qb_request. rewrite (qb_names_short [md; q]) by (cbn; lia).
      eval_closed. rewrite Qm. reflexivity.
    + unfold qb_request.
      change (qb_names [md; q; e; name; p; m])
        with (qb_names ([md; q; e] ++ [name; p; m])).
      rewrite (qb_names_three [md; q; e] name p m)
        by (assumption || (cbn; lia)).
      eval_closed. rewrite Lp, Lm, Qm. reflexivity.
  - intros Hmd. destruct (mode_char_d_or_v md Hmd) as [Qm Qd]. split.
    + unfold qb_request. rewrite (qb_names_short [md; q]) by (cbn; lia).
      eval_closed. rewrite Qm, Qd. reflexivity.
    + unfold qb_request.
      change (qb_names [md; q; r; e; name; p; m])
        with (qb_names ([md; q; r; e] ++ [name; p; m])).
      rewrite (qb_names_three [md; q; r; e] name p m)
        by (assumption || (cbn; lia)).
      eval_closed. rewrite Lp, Lm, Qm, Qd. reflexivity.
Qed.

Lemma qb_documented_forms_witness :
  qb_request (fun _ => #0.25)
    ["d"; "1.0"; "7800"; "0.25"; "1km iron"; "pluto"; "iron"]%string
  = Some {| mode := "D"; quantity := #0.25; rho := #0.25; eps := #0.25;
            object_name := Some "1km iron"%string;
            planet_name := Some "pluto"%string;
            material_name := Some "iron"%string |}.
Proof.
  exact (proj2 (proj2 (proj2 (proj2
           (qb_documented_forms (fun _ => #0.25)
              "d" "1.0" "7800" "0.25" "1km iron" "pluto" "iron"
              eq_refl eq_refl eq_refl eq_refl eq_refl))) eq_refl)).
Defined.

(* ================================================================== *)
(** * The solver, in the exact reading *)
(* ================================================================== *)

Lemma ddiv_inf_pos y : (0 <= y)%R -> PInf / Num y = PInf.
Proof. intros H. cbn [ddiv]. destruct (Rlt_dec y 0); [lra | reflexivity]. Qed.

Lemma main_speed_run r :
  known_mode r = true -> is_mode "v" "V" (mode r) = false ->
  valid_inputs r ->
  exists front,
    printed_verdict front = None
    /\ main r
       = {| out :=
              front
              ++ [SPEED_classical (sv_v_class (speed_run r) / #1000.0);
                  SPEED_relativistic (sv_v_rel (speed_run r) / #1000.0)]
              ++ conclusion (planet_name r) (sv_v_rel (speed_run r));
            err := [];
            status := 0 |}.
Proof.
  unfold known_mode. intros Hk Hv (Hq & He & Hr).
  rewrite Hv, orb_false_r in Hk. unfold speed_run.
  destruct (is_mode "m" "M" (mode r)) eqn:Hm.
  - rewrite (main_mode_m r Hm Hq He). cbv zeta.
    match goal with
    | |- context [?a ++ ?b ++ ?d ++ [?x; ?y; _; _] ++ conclusion _ _] =>
        exists (a ++ b ++ d ++ [x; y])
    end.
    split.
    + rewrite !printed_verdict_app, !printed_verdict_named by reflexivity.
      reflexivity.
    + f_equal. rewrite <- !app_assoc. reflexivity.
  - cbn [orb] in Hk. specialize (Hr eq_refl).
    rewrite (main_mode_d r Hk Hq Hr He). cbv zeta.
    match goal with
    | |- context [?a ++ ?b ++ ?d ++ [?x; ?y; ?z; _; _] ++ conclusion _ _] =>
        exists (a ++ b ++ d ++ [x; y; z])
    end.
    split.
    + rewrite !printed_verdict_app, !printed_verdict_named by reflexivity.
      reflexivity.
    + f_equal. rewrite <- !app_assoc. reflexivity.
Qed.

(** The mass a request in mode [m] or [d] runs with is a positive number. *)
Lemma speed_run_vars r :
  known_mode r = true -> is_mode "v" "V" (mode r) = false ->
  valid_inputs r ->
  exists u ep t m,
    get_planetary_binding_energy (get_planet_type (planet_name r)) = Num u
    /\ eps r = Num ep
    /\ sv_retention (speed_run r) = Num t
    /\ sv_m (speed_run r) = Num m
    /\ (0 < u)%R /\ (0 < ep)%R /\ (0 <= t <= 1)%R /\ (0 < m)%R
    /\ sv_effective_eps (speed_run r) = Num (ep * t)
    /\ sv_v_class (speed_run r)
       = classical_speed (Num u) (Num (ep * t)) (Num m)
    /\ sv_v_rel (speed_run r)
       = relativistic_speed (Num u) (Num (ep * t)) (Num m).
Proof.
  unfold known_mode. intros Hk Hv (Hq & He & Hr).
  rewrite Hv, orb_false_r in Hk.
  destruct Hq as (q & Eq & Hq), He as (ep & Ee & He).
  destruct (binding_energy_pos (get_planet_type (planet_name r)))
    as (u & EU & Hu).
  unfold speed_run. rewrite EU, Eq, Ee.
  destruct (is_mode "m" "M" (mode r)) eqn:Hm.
  - unfold mode_m.
    cbn [sv_retention sv_effective_eps sv_m sv_v_class sv_v_rel].
    match goal with |- context [atmospheric_retention ?d ?p ?m] =>
      destruct (retention_range d p m) as (t & -> & Ht) end.
    exists u, ep, t, q.
    do 4 (split; [reflexivity|]).
    do 4 (split; [assumption|]).
    split; [reflexivity|]. split; reflexivity.
  - cbn [orb] in Hk. destruct (Hr eq_refl) as (rh & Er & Hrh). rewrite Er.
    unfold mode_d.
    cbn [sv_retention sv_effective_eps sv_m sv_v_class sv_v_rel].
    destruct (retention_range (Num q) (get_planet_type (planet_name r))
                (get_material_type (material_name r))) as (t & -> & Ht).
    destruct (sphere_mass_num q rh Hq Hrh) as (mm & -> & Hmm).
    exists u, ep, t, mm.
    do 4 (split; [reflexivity|]).
    do 4 (split; [assumption|]).
    split; [reflexivity|]. split; reflexivity.
Qed.

Section RealSolver.
Local Open Scope R_scope.

Lemma Rcbrt_pos x : 0 < x -> 0 < Rcbrt x.
Proof.
  intros Hx. unfold Rcbrt. destruct (Rlt_dec 0 x); [apply exp_pos | lra].
Qed.

Lemma Rcbrt_le x y : 0 <= x -> x <= y -> Rcbrt x <= Rcbrt y.
Proof.
  intros Hx Hxy.
  assert (Hy : 0 <= y) by lra.
  pose proof (Rcbrt_nonneg x Hx) as Hrx.
  pose proof (Rcbrt_nonneg y Hy) as Hry.
  pose proof (Rcbrt_cube x Hx) as Hcx.
  pose proof (Rcbrt_cube y Hy) as Hcy.
  destruct (Rle_lt_dec (Rcbrt x) (Rcbrt y)) as [H|H]; [assumption|].
  pose proof (cube_lt (Rcbrt y) (Rcbrt x) Hry H). lra.
Qed.

Lemma sphere_argument_pos m rh :
  0 < m -> 0 < rh -> 0 < 3.0 * (m / rh) / (4.0 * 3.14159265358979323846).
Proof.
  intros Hm Hr.
  assert (H : 0 < m / rh) by (apply Rdiv_lt_0_compat; assumption).
  apply Rdiv_lt_0_compat; lra.
Qed.

Lemma diameter_of_pos m rh : 0 < m -> 0 < rh -> 0 < diameter_of m rh.
Proof.
  intros Hm Hr. unfold diameter_of.
  pose proof (Rcbrt_pos _ (sphere_argument_pos m rh Hm Hr)). lra.
Qed.

Lemma diameter_of_le m1 m2 rh :
  0 < m1 -> m1 <= m2 -> 0 < rh -> diameter_of m1 rh <= diameter_of m2 rh.
Proof.
  intros Hm H12 Hr. unfold diameter_of.
  assert (H : 3.0 * (m1 / rh) / (4.0 * 3.14159265358979323846)
              <= 3.0 * (m2 / rh) / (4.0 * 3.14159265358979323846)).
  { apply Rmult_le_compat_r; [apply Rlt_le, Rinv_0_lt_compat; lra|].
    apply Rmult_le_compat_l; [lra|].
    apply Rmult_le_compat_r; [apply Rlt_le, Rinv_0_lt_compat; lra | lra]. }
  pose proof (Rcbrt_le _ _ (Rlt_le _ _ (sphere_argument_pos m1 rh Hm Hr)) H).
  lra.
Qed.

Lemma beta2_of_mono y1 y2 : 0 <= y1 -> y1 <= y2 -> beta2_of y1 <= beta2_of y2.
Proof.
  intros H1 H12. unfold beta2_of.
  assert (Ha : 0 < (1 + y1) * (1 + y1)) by nra.
  assert (Hb : (1 + y1) * (1 + y1) <= (1 + y2) * (1 + y2)) by nra.
  assert (Hi : / ((1 + y2) * (1 + y2)) <= / ((1 + y1) * (1 + y1)))
    by (apply Rinv_le_contravar; assumption).
  unfold Rdiv. lra.
Qed.

End RealSolver.

Lemma sphere_diameter_num m rh :
  (0 < rh)%R ->
  sphere_diameter cbrt (Num m) (Num rh) = Num (diameter_of m rh).
Proof.
  intros Hr. unfold sphere_diameter, PI, diameter_of.
  rewrite ddiv_num by lra. cbn [dmul]. rewrite ddiv_num by lra.
  reflexivity.
Qed.

Lemma sphere_diameter_inf rh :
  (0 < rh)%R -> sphere_diameter cbrt PInf (Num rh) = PInf.
Proof.
  intros Hr. unfold sphere_diameter, PI.
  rewrite ddiv_inf_pos by lra. cbn [dmul]. unfold Rsgn.
  destruct (Rlt_dec 0 3.0); [|lra]. cbn [inf_of].
  rewrite ddiv_inf_pos by lra. cbn [cbrt dmul]. unfold Rsgn.
  destruct (Rlt_dec 0 2.0); [|lra]. reflexivity.
Qed.

(** The table is non-decreasing in the diameter. *)
Lemma retention_le d1 d2 planet_type material_type :
  (d1 <= d2)%R ->
  exists t1 t2,
    atmospheric_retention (Num d1) planet_type material_type = Num t1
    /\ atmospheric_retention (Num d2) planet_type material_type = Num t2
    /\ (0 <= t1)%R /\ (t1 <= t2)%R /\ (t2 <= 1)%R.
Proof.
  intros H.
  destruct (retention_range (Num d1) planet_type material_type)
    as (t1 & E1 & Ht1).
  destruct (retention_range (Num d2) planet_type material_type)
    as (t2 & E2 & Ht2).
  exists t1, t2. split; [exact E1|]. split; [exact E2|].
  split; [lra|]. split; [|lra].
  destruct H as [H|H].
  - pose proof (retention_monotone d1 d2 planet_type material_type H) as M.
    rewrite E1, E2 in M. apply dleb_num_iff in M. exact M.
  - subst d2. rewrite E1 in E2. injection E2 as <-. lra.
Qed.

(** At an infinite diameter the table answers with its last band, which is
    never zero. *)
Lemma retention_top planet_type material_type :
  exists t,
    atmospheric_retention PInf planet_type material_type = Num t
    /\ (0 < t <= 1)%R.
Proof.
  unfold atmospheric_retention.
  case_planet; cbn [dltb]; (eexists; split; [reflexivity | lra]).
Qed.

Lemma quotient_le u e1 e2 m1 m2 :
  (0 < u)%R -> (0 < e1)%R -> (e1 <= e2)%R -> (0 < m1)%R -> (m1 <= m2)%R ->
  (u / e2 / m2 <= u / e1 / m1)%R.
Proof.
  intros Hu He1 He Hm1 Hm.
  assert (H1 : (/ e2 <= / e1)%R) by (apply Rinv_le_contravar; lra).
  assert (H2 : (/ m2 <= / m1)%R) by (apply Rinv_le_contravar; lra).
  assert (P1 : (0 < / e2)%R) by (apply Rinv_0_lt_compat; lra).
  assert (P2 : (0 < / m2)%R) by (apply Rinv_0_lt_compat; lra).
  unfold Rdiv. rewrite !Rmult_assoc.
  apply Rmult_le_compat_l; [lra|].
  apply Rmult_le_compat; lra.
Qed.

(** More efficiency and more mass never ask for more speed. *)
Lemma speeds_decrease u e1 e2 m1 m2 :
  (0 < u)%R -> (0 <= e1)%R -> (e1 <= e2)%R -> (0 < m1)%R -> (m1 <= m2)%R ->
  (relativistic_speed (Num u) (Num e2) (Num m2)
     <=? relativistic_speed (Num u) (Num e1) (Num m1)) = true
  /\ (classical_speed (Num u) (Num e2) (Num m2)
        <=? classical_speed (Num u) (Num e1) (Num m1)) = true.
Proof.
  intros Hu He1 He Hm1 Hm. pose proof c_real_pos as Hc.
  assert (Hm2 : (0 < m2)%R) by lra.
  destruct (Req_dec_T e1 0) as [-> | Hne1].
  - rewrite (relativistic_speed_inf u m1), (classical_speed_inf u m1)
      by assumption.
    destruct (Req_dec_T e2 0) as [-> | Hne2].
    + rewrite relativistic_speed_inf, classical_speed_inf by assumption.
      split; [apply dleb_true; lra | reflexivity].
    + rewrite relativistic_speed_num, classical_speed_num by lra.
      split; [|reflexivity]. apply dleb_true.
      pose proof (over_c2_nonneg _ (quotient_nonneg u e2 m2 (Rlt_le _ _ Hu)
                                      ltac:(lra) Hm2)) as Hy.
      pose proof (sqrt_lt_one _ (beta2_of_range _ Hy)).
      pose proof (sqrt_pos (beta2_of (u / e2 / m2 / (c_real * c_real)))).
      nra.
  - assert (P1 : (0 < e1)%R) by lra. assert (P2 : (0 < e2)%R) by lra.
    rewrite !relativistic_speed_num, !classical_speed_num by lra.
    pose proof (quotient_le u e1 e2 m1 m2 Hu P1 He Hm1 Hm) as Hx.
    pose proof (quotient_nonneg u e2 m2 (Rlt_le _ _ Hu) P2 Hm2) as Hx2.
    split; apply dleb_true.
    + apply Rmult_le_compat_l; [lra|]. apply sqrt_le_1_alt.
      apply beta2_of_mono; [apply over_c2_nonneg; assumption|].
      apply Rmult_le_compat_r; [|assumption].
      apply Rlt_le, Rinv_0_lt_compat, c_real_sq_pos.
    + apply sqrt_le_1_alt. lra.
Qed.

(** X14. In the exact reading, a bigger body never needs more speed.  In
    mode [m], for masses [0 < m1 <= m2] at the same efficiency against the
    same body and material, the retention looked up for [m2] is at least the
    one for [m1], and both required speeds, relativistic and classical, for
    [m2] are at most those for [m1], an infinite classical speed counting as
    the largest.  In mode [d] the same holds for diameters
    [0 < D1 <= D2] at the same density, the mass growing with the
    diameter. *)
Theorem heavier_needs_less_speed
    (x1 x2 rh ep : R) (planet_type material_type : Z) :
  (0 < x1)%R -> (x1 <= x2)%R -> (0 < rh)%R -> (0 < ep)%R ->
  let U := get_planetary_binding_energy planet_type in
  let by_mass x :=
    mode_m atmospheric_retention cbrt U (Num x) (Num ep)
      planet_type material_type in
  let by_diameter x :=
    mode_d atmospheric_retention U (Num x) (Num rh) (Num ep)
      planet_type material_type in
  ((sv_retention (by_mass x1) <=? sv_retention (by_mass x2)) = true
   /\ (sv_v_rel (by_mass x2) <=? sv_v_rel (by_mass x1)) = true
   /\ (sv_v_class (by_mass x2) <=? sv_v_class (by_mass x1)) = true)
  /\ ((sv_m (by_diameter x1) <=? sv_m (by_diameter x2)) = true
      /\ (sv_v_rel (by_diameter x2) <=? sv_v_rel (by_diameter x1)) = true
      /\ (sv_v_class (by_diameter x2) <=? sv_v_class (by_diameter x1))
         = true).
Proof.
  intros H1 H12 Hr He U by_mass by_diameter. subst U by_mass by_diameter.
  cbv beta.
  destruct (binding_energy_pos planet_type) as (u & -> & Hu).
  assert (H2 : (0 < x2)%R) by lra.
  split.
  - unfold mode_m. cbn [sv_retention sv_v_rel sv_v_class].
    change (#2.0 * cbrt (#3.0 * (Num ?m / #3000.0) / (#4.0 * PI)))
      with (sphere_diameter cbrt (Num m) #3000.0).
    rewrite !sphere_diameter_num by lra.
    rewrite !ddiv_num by lra.
    assert (Hd : (diameter_of x1 3000.0 / 1000.0
                  <= diameter_of x2 3000.0 / 1000.0)%R).
    { pose proof (diameter_of_le x1 x2 3000.0 H1 H12 ltac:(lra)). lra. }
    destruct (retention_le _ _ planet_type material_type Hd)
      as (t1 & t2 & -> & -> & Ht1 & Ht & Ht2).
    cbn [dmul]. split; [apply dleb_true; exact Ht|].
    apply speeds_decrease; try assumption.
    + apply Rmult_le_pos; lra.
    + apply Rmult_le_compat_l; lra.
  - unfold mode_d. cbn [sv_m sv_v_rel sv_v_class].
    destruct (retention_le x1 x2 planet_type material_type H12)
      as (t1 & t2 & -> & -> & Ht1 & Ht & Ht2).
    destruct (sphere_mass_num x1 rh H1 Hr) as (m1 & E1 & Hm1).
    destruct (sphere_mass_num x2 rh H2 Hr) as (m2 & E2 & Hm2).
    assert (Hm : (m1 <= m2)%R).
    { revert E1 E2. unfold PI.
      rewrite (ddiv_num 4.0) by lra. cbn [dmul].
      rewrite !ddiv_num by lra. cbn [pow3 dmul].
      intros [= <-] [= <-].
      assert (Hh : (0 < x1 * 1000.0 / 2.0 <= x2 * 1000.0 / 2.0)%R) by lra.
      set (h1 := (x1 * 1000.0 / 2.0)%R) in *.
      set (h2 := (x2 * 1000.0 / 2.0)%R) in *.
      assert (Hc : (h1 * h1 * h1 <= h2 * h2 * h2)%R).
      { destruct (proj2 Hh) as [Hlt|Heq]; [|rewrite Heq; lra].
        apply Rlt_le, cube_lt; lra. }
      apply Rmult_le_compat_l; [lra|].
      apply Rmult_le_compat_l; [lra|]. exact Hc. }
    rewrite E1, E2. cbn [dmul]. split; [apply dleb_true; exact Hm|].
    apply speeds_decrease; try assumption.
    + apply Rmult_le_pos; lra.
    + apply Rmult_le_compat_l; lra.
Qed.

Lemma heavier_needs_less_speed_witness :
  (sv_v_rel (mode_d atmospheric_retention
               (get_planetary_binding_energy PLANET_EARTH)
               #2 #3000 #0.25 PLANET_EARTH MATERIAL_IRON)
   <=? sv_v_rel (mode_d atmospheric_retention
                   (get_planetary_binding_energy PLANET_EARTH)
                   #1 #3000 #0.25 PLANET_EARTH MATERIAL_IRON)) = true.
Proof.
  apply (heavier_needs_less_speed 1 2 3000 0.25 PLANET_EARTH MATERIAL_IRON);
    lra.
Defined.

(** ** The passes of mode [v] on numbers *)

Lemma first_pass_num u kk rh ep :
  (0 < ep)%R -> (0 < kk)%R -> (0 < rh)%R ->
  first_pass cbrt (Num u) (Num kk) (Num rh) (Num ep)
  = {| pass_retention := None;
       pass_efficiency := Num ep;
       pass_mass := Num (u / (ep * kk));
       pass_diameter := Num (diameter_of (u / (ep * kk)) rh) |}.
Proof.
  intros He Hk Hr. unfold first_pass. cbn [dmul].
  assert (Hek : (0 < ep * kk)%R) by (apply Rmult_lt_0_compat; assumption).
  rewrite ddiv_num by lra. rewrite sphere_diameter_num by assumption.
  reflexivity.
Qed.

Lemma refine_pass_num u kk rh ep planet_type material_type prev t :
  (0 < ep)%R -> (0 < kk)%R -> (0 < rh)%R -> (0 < t)%R ->
  atmospheric_retention (pass_diameter prev / #1000.0) planet_type
    material_type = Num t ->
  refine_pass atmospheric_retention cbrt (Num u) (Num kk) (Num rh) (Num ep)
    planet_type material_type prev
  = {| pass_retention := Some (Num t);
       pass_efficiency := Num (ep * t);
       pass_mass := Num (u / (ep * t * kk));
       pass_diameter := Num (diameter_of (u / (ep * t * kk)) rh) |}.
Proof.
  intros He Hk Hr Ht E. unfold refine_pass. rewrite E. cbn [dmul].
  assert (Het : (0 < ep * t)%R) by (apply Rmult_lt_0_compat; assumption).
  assert (Hek : (0 < ep * t * kk)%R)
    by (apply Rmult_lt_0_compat; assumption).
  rewrite ddiv_num by lra. rewrite sphere_diameter_num by assumption.
  reflexivity.
Qed.

Lemma refine_pass_zero u kk rh ep planet_type material_type prev :
  (0 < u)%R -> (0 < rh)%R ->
  atmospheric_retention (pass_diameter prev / #1000.0) planet_type
    material_type = Num 0 ->
  pass_diameter
    (refine_pass atmospheric_retention cbrt (Num u) (Num kk) (Num rh)
       (Num ep) planet_type material_type prev)
  = PInf.
Proof.
  intros Hu Hr E. unfold refine_pass. rewrite E. cbn [dmul pass_diameter].
  rewrite ddiv_by_zero by (assumption || ring).
  apply sphere_diameter_inf. assumption.
Qed.

(** The retention mode [v] ends with is never zero. *)
Lemma second_retention_pos u kk rh ep planet_type material_type :
  (0 < u)%R -> (0 < ep)%R -> (0 < kk)%R -> (0 < rh)%R ->
  exists t,
    atmospheric_retention
      (pass_diameter
         (passes atmospheric_retention cbrt 2 (Num u) (Num kk) (Num rh)
            (Num ep) planet_type material_type) / #1000.0)
      planet_type material_type = Num t
    /\ (0 < t <= 1)%R.
Proof.
  intros Hu He Hk Hr. unfold passes, Nat.iter. cbn [Nat.pred nat_rect].
  rewrite first_pass_num by assumption.
  set (m1 := (u / (ep * kk))%R).
  assert (Hek : (0 < ep * kk)%R) by (apply Rmult_lt_0_compat; assumption).
  assert (Hm1 : (0 < m1)%R) by (apply Rdiv_lt_0_compat; assumption).
  set (p1 := {| pass_retention := None; pass_efficiency := Num ep;
                pass_mass := Num m1;
                pass_diameter := Num (diameter_of m1 rh) |}).
  destruct (retention_range (pass_diameter p1 / #1000.0) planet_type
              material_type) as (t1 & E1 & Ht1).
  destruct (Req_dec_T t1 0) as [Hz | Hnz].
  - subst t1. rewrite (refine_pass_zero u kk rh ep _ _ p1 Hu Hr E1).
    rewrite ddiv_inf_pos by lra. apply retention_top.
  - assert (Hpos : (0 < t1)%R) by lra.
    rewrite (refine_pass_num u kk rh ep _ _ p1 t1 He Hk Hr Hpos E1).
    cbn [pass_diameter]. rewrite ddiv_num by lra.
    revert E1. unfold p1. cbn [pass_diameter]. rewrite ddiv_num by lra.
    intros E1.
    assert (Hm : (m1 <= u / (ep * t1 * kk))%R).
    { unfold m1. unfold Rdiv. apply Rmult_le_compat_l; [lra|].
      apply Rinv_le_contravar.
      - apply Rmult_lt_0_compat; [apply Rmult_lt_0_compat|]; assumption.
      - apply Rmult_le_compat_r; [lra|].
        rewrite <- (Rmult_1_r ep) at 2. apply Rmult_le_compat_l; lra. }
    pose proof (diameter_of_le m1 _ rh Hm1 Hm Hr) as Hd.
    assert (Hd' : (diameter_of m1 rh / 1000.0
                   <= diameter_of (u / (ep * t1 * kk)) rh / 1000.0)%R)
      by lra.
    destruct (retention_le _ _ planet_type material_type Hd')
      as (a & b & Ea & Eb & Ha & Hab & Hb).
    rewrite E1 in Ea. injection Ea as <-.
    exists b. split; [exact Eb | lra].
Qed.

(** What mode [v] has computed, on numbers. *)
Lemma mode_v_vars u v_km_s rh ep planet_type material_type :
  (0 < u)%R -> (0 < v_km_s)%R -> (v_km_s * 1000 < c_real)%R ->
  (0 < rh)%R -> (0 < ep)%R ->
  let v := Num v_km_s * #1000.0 in
  let kk := energy_per_mass_at (v_km_s * 1000.0 / c_real) in
  exists t,
    (0 < t <= 1)%R /\ (0 < kk)%R
    /\ mode_v atmospheric_retention cbrt (Num u) v (v / c) (Num rh) (Num ep)
         planet_type material_type
       = {| mv_retention := Num t;
            mv_effective_eps := Num (ep * t);
            mv_m_req := Num (u / (ep * t * kk));
            mv_D := Num (diameter_of (u / (ep * t * kk)) rh);
            mv_m_class :=
              #2.0 * Num u / (Num (ep * t) * v * v) |}.
Proof.
  intros Hu Hv Hvc Hr He v kk. pose proof c_real_pos as Hc.
  pose proof (beta_in_range v_km_s Hv Hvc) as Hb.
  assert (Hk : (0 < kk)%R).
  { pose proof (energy_per_mass_at_bound (v_km_s * 1000.0 / c_real)
                  (conj (Rlt_le _ _ (proj1 Hb)) (proj2 Hb))) as H.
    fold kk in H.
    set (b := (v_km_s * 1000.0 / c_real)%R) in *.
    assert (0 < b * c_real * (b * c_real) / 2)%R; [|lra].
    assert (0 < b * c_real)%R by (apply Rmult_lt_0_compat; lra).
    assert (0 < b * c_real * (b * c_real))%R
      by (apply Rmult_lt_0_compat; assumption).
    lra. }
  rewrite mode_v_passes. subst v. cbn [dmul]. rewrite c_num.
  rewrite ddiv_num by lra. rewrite energy_per_mass_num by lra. fold kk.
  destruct (second_retention_pos u kk rh ep planet_type material_type
              Hu He Hk Hr) as (t & Et & Ht).
  exists t. split; [exact Ht|]. split; [exact Hk|].
  rewrite Et.
  assert (E3 : passes atmospheric_retention cbrt 3 (Num u) (Num kk) (Num rh)
                 (Num ep) planet_type material_type
               = refine_pass atmospheric_retention cbrt (Num u) (Num kk)
                   (Num rh) (Num ep) planet_type material_type
                   (passes atmospheric_retention cbrt 2 (Num u) (Num kk)
                      (Num rh) (Num ep) planet_type material_type))
    by reflexivity.
  rewrite E3.
  rewrite (refine_pass_num u kk rh ep _ _ _ t He Hk Hr (proj1 Ht) Et).
  reflexivity.
Qed.

Section RealVerdict.
Local Open Scope R_scope.

(** [s = sqrt (1 - b^2)], the inverse of the Lorentz factor at [b]. *)
Lemma lorentz_inverse b :
  0 <= b < 1 ->
  0 < sqrt (1 - b * b) <= 1 /\ sqrt (1 - b * b) * sqrt (1 - b * b) = 1 - b * b.
Proof.
  intros Hb.
  assert (Hbb : b * b < 1 * 1) by (apply Rmult_le_0_lt_compat; lra).
  assert (H : 0 < 1 - b * b) by lra.
  split; [split|].
  - apply sqrt_lt_R0. exact H.
  - assert (0 <= b * b) by (apply Rmult_le_pos; lra).
    apply Rle_trans with (sqrt 1); [apply sqrt_le_1_alt; lra|].
    rewrite sqrt_1. lra.
  - apply sqrt_sqrt. lra.
Qed.

(** With [w = 1 + y] and [s = sqrt (1 - b^2)]: the speed is below [b c]
    exactly when [w s < 1]. *)
Lemma beta2_below_iff y b :
  0 <= y -> 0 <= b < 1 ->
  (beta2_of y < b * b <-> (1 + y) * sqrt (1 - b * b) < 1).
Proof.
  intros Hy Hb. destruct (lorentz_inverse b Hb) as [[Hs0 Hs1] Hss].
  set (s := sqrt (1 - b * b)) in *. set (w := 1 + y).
  assert (Hw : 1 <= w) by (unfold w; lra).
  assert (Hww : 0 < w * w) by nra.
  unfold beta2_of. fold w.
  assert (Hi : 1 / (w * w) * (w * w) = 1) by (field; lra).
  assert (Hip : 0 < 1 / (w * w)) by (apply Rdiv_lt_0_compat; lra).
  set (iw := 1 / (w * w)) in *.
  assert (Hws : 0 < w * s) by (apply Rmult_lt_0_compat; lra).
  assert (Esq : w * s * (w * s) = s * s * (w * w)) by ring.
  split; intros H.
  - assert (H1 : s * s < iw) by lra.
    assert (H2 : s * s * (w * w) < iw * (w * w))
      by (apply Rmult_lt_compat_r; assumption).
    rewrite Hi, <- Esq in H2.
    destruct (Rlt_le_dec (w * s) 1) as [L|L]; [assumption|].
    assert (1 * 1 <= w * s * (w * s))
      by (apply Rmult_le_compat; lra).
    lra.
  - assert (H2 : w * s * (w * s) < 1 * 1)
      by (apply Rmult_le_0_lt_compat; lra).
    rewrite Esq, Rmult_1_r, <- Hi in H2.
    assert (H3 : s * s < iw)
      by (apply Rmult_lt_reg_r with (r := w * w); assumption).
    lra.
Qed.

Lemma energy_below_iff x b :
  0 <= x -> 0 <= b < 1 ->
  (x < energy_per_mass_at b
   <-> (1 + x / (c_real * c_real)) * sqrt (1 - b * b) < 1).
Proof.
  intros Hx Hb. destruct (lorentz_inverse b Hb) as [[Hs0 Hs1] Hss].
  pose proof c_real_sq_pos as Hcc. pose proof c_real_pos as Hc.
  unfold energy_per_mass_at.
  set (s := sqrt (1 - b * b)) in *.
  assert (Hy : x = x / (c_real * c_real) * (c_real * c_real))
    by (field; lra).
  set (y := x / (c_real * c_real)) in *.
  assert (Hy0 : 0 <= y) by (apply over_c2_nonneg; assumption).
  assert (Hi : 1 / s * s = 1) by (field; lra).
  assert (Hip : 0 < 1 / s) by (apply Rdiv_lt_0_compat; lra).
  set (g := 1 / s) in *.
  rewrite Hy at 1. rewrite Rmult_assoc.
  split; intros H.
  - assert (H1 : y < g - 1)
      by (apply Rmult_lt_reg_r with (r := c_real * c_real); assumption).
    assert (H2 : (1 + y) * s < g * s)
      by (apply Rmult_lt_compat_r; lra).
    lra.
  - apply Rmult_lt_compat_r; [assumption|].
    assert (H2 : (1 + y) * s < g * s) by lra.
    assert (H3 : 1 + y < g)
      by (apply Rmult_lt_reg_r with (r := s); assumption).
    lra.
Qed.

Lemma speed_below_iff x b :
  0 <= x -> 0 <= b < 1 ->
  (c_real * sqrt (beta2_of (x / (c_real * c_real))) < b * c_real
   <-> x < energy_per_mass_at b).
Proof.
  intros Hx Hb. pose proof c_real_pos as Hc.
  pose proof (over_c2_nonneg x Hx) as Hy.
  pose proof (beta2_of_range _ Hy) as Hr.
  rewrite (energy_below_iff x b Hx Hb).
  rewrite <- (beta2_below_iff _ b Hy Hb).
  set (q := beta2_of (x / (c_real * c_real))) in *.
  pose proof (sqrt_pos q) as Hs.
  pose proof (sqrt_sqrt q (proj1 Hr)) as Hq.
  assert (Hiff : sqrt q < b <-> q < b * b).
  { split; intros L.
    - rewrite <- Hq. apply Rmult_le_0_lt_compat; lra.
    - destruct (Rlt_le_dec (sqrt q) b) as [L'|L']; [assumption|].
      assert (b * b <= sqrt q * sqrt q) by (apply Rmult_le_compat; lra).
      lra. }
  rewrite <- Hiff. split; intros H.
  - apply Rmult_lt_reg_l with (r := c_real); [assumption|]. lra.
  - assert (c_real * sqrt q < c_real * b)
      by (apply Rmult_lt_compat_l; assumption).
    lra.
Qed.

(** The speed of the energy per unit mass at [b] is [b c]. *)
Lemma speed_of_energy b :
  0 <= b < 1 ->
  c_real * sqrt (beta2_of (energy_per_mass_at b / (c_real * c_real)))
  = b * c_real.
Proof.
  intros Hb. destruct (lorentz_inverse b Hb) as [[Hs0 Hs1] Hss].
  pose proof c_real_sq_pos as Hcc. pose proof c_real_pos as Hc.
  assert (E : beta2_of (energy_per_mass_at b / (c_real * c_real)) = b * b).
  { unfold beta2_of, energy_per_mass_at.
    set (s := sqrt (1 - b * b)) in *.
    replace (1 + (1 / s - 1) * c_real * c_real / (c_real * c_real))
      with (1 / s) by (field; lra).
    replace (1 / (1 / s * (1 / s))) with (s * s) by (field; lra).
    lra. }
  rewrite E, sqrt_square by lra. ring.
Qed.

End RealVerdict.

(** X15. In the exact reading, mode [v] never ends on a retention of
    zero: for a speed below [c] and positive density and efficiency, the
    retention it reports is positive and the mass and the diameter it
    reports are positive numbers, against every body and material.  When
    the first look-up, at the diameter of pass 1, answers 0.00, the mass of
    pass 2 is [U / 0 = +inf], so is its diameter, and the run ends with the
    last band of the table, the one [atmospheric_retention] returns for an
    infinite diameter, whatever the size of the body it then reports. *)
Theorem mode_v_never_infinite
    (v_km_s rh ep : R) (planet_type material_type : Z) :
  (0 < v_km_s)%R -> (v_km_s * 1000 < c_real)%R ->
  (0 < rh)%R -> (0 < ep)%R ->
  let U := get_planetary_binding_energy planet_type in
  let v := Num v_km_s * #1000.0 in
  let s := mode_v atmospheric_retention cbrt U v (v / c) (Num rh) (Num ep)
             planet_type material_type in
  let p1 := passes atmospheric_retention cbrt 1 U
              (relativisticEnergyPerMass (v / c)) (Num rh) (Num ep)
              planet_type material_type in
  (exists t m D : R,
     mv_retention s = Num t /\ mv_m_req s = Num m /\ mv_D s = Num D
     /\ (0 < t <= 1)%R /\ (0 < m)%R /\ (0 < D)%R)
  /\ (atmospheric_retention (pass_diameter p1 / #1000.0) planet_type
         material_type = #0.00 ->
      mv_retention s = atmospheric_retention PInf planet_type material_type).
Proof.
  intros Hv Hvc Hr He. cbv zeta.
  destruct (binding_energy_pos planet_type) as (u & EU & Hu).
  rewrite EU.
  destruct (mode_v_vars u v_km_s rh ep planet_type material_type
              Hu Hv Hvc Hr He) as (t & Ht & Hk & E).
  cbv zeta in E. split.
  - rewrite E. cbn [mv_retention mv_m_req mv_D].
    set (kk := energy_per_mass_at (v_km_s * 1000.0 / c_real)) in *.
    assert (Hm : (0 < u / (ep * t * kk))%R).
    { apply Rdiv_lt_0_compat; [assumption|].
      apply Rmult_lt_0_compat; [apply Rmult_lt_0_compat|]; lra. }
    exists t, (u / (ep * t * kk))%R, (diameter_of (u / (ep * t * kk)) rh).
    do 3 (split; [reflexivity|]). split; [exact Ht|].
    split; [exact Hm|]. apply diameter_of_pos; assumption.
  - intros Hzero. rewrite mode_v_passes. cbn [mv_retention].
    set (k := relativisticEnergyPerMass (Num v_km_s * #1000.0 / c)) in *.
    change (passes atmospheric_retention cbrt 2 (Num u) k (Num rh) (Num ep)
              planet_type material_type)
      with (refine_pass atmospheric_retention cbrt (Num u) k (Num rh)
              (Num ep) planet_type material_type
              (passes atmospheric_retention cbrt 1 (Num u) k (Num rh)
                 (Num ep) planet_type material_type)).
    pose proof c_real_pos as Hc.
    pose proof (beta_in_range v_km_s Hv Hvc) as Hb.
    assert (Ek : k = Num (energy_per_mass_at (v_km_s * 1000.0 / c_real))).
    { unfold k. cbn [dmul]. rewrite c_num, ddiv_num by lra.
      apply energy_per_mass_num. lra. }
    rewrite Ek in *.
    rewrite refine_pass_zero; try assumption.
    + rewrite ddiv_inf_pos by lra. reflexivity.
    + rewrite Hzero. f_equal. lra.
Qed.

(** At 299792.457999 km/s against Jupiter, the mass of pass 1 is below
    1e15 kg and its diameter below 10 km: the first look-up answers 0.00. *)
Lemma near_light_first_lookup :
  atmospheric_retention
    (pass_diameter
       (passes atmospheric_retention cbrt 1
          (get_planetary_binding_energy PLANET_JUPITER)
          (relativisticEnergyPerMass (#299792.457999 * #1000.0 / c))
          #2000 #0.25 PLANET_JUPITER MATERIAL_STONY) / #1000.0)
    PLANET_JUPITER MATERIAL_STONY
  = #0.00.
Proof.
  pose proof c_real_pos as Hc.
  assert (Hb : (0 < 299792.457999 * 1000.0 / c_real < 1)%R)
    by (apply beta_in_range; unfold c_real; lra).
  set (b := (299792.457999 * 1000.0 / c_real)%R) in *.
  assert (Hs : (0 <= sqrt (1 - b * b) < 1e-5)%R).
  { apply sqrt_between; try lra.
    - assert (b * b < 1 * 1)%R by (apply Rmult_le_0_lt_compat; lra). lra.
    - unfold b, c_real. lra. }
  assert (Hs0 : (0 < sqrt (1 - b * b))%R).
  { apply sqrt_lt_R0.
    assert (b * b < 1 * 1)%R by (apply Rmult_le_0_lt_compat; lra). lra. }
  assert (Hinv : (1e5 < 1 / sqrt (1 - b * b))%R).
  { replace 1e5%R with (1 / 1e-5)%R by lra.
    unfold Rdiv. rewrite !Rmult_1_l. apply Rinv_lt_contravar; [|lra].
    apply Rmult_lt_0_compat; lra. }
  assert (Hk : (8.9e21 < energy_per_mass_at b)%R).
  { unfold energy_per_mass_at.
    set (g := (1 / sqrt (1 - b * b))%R) in *.
    assert (H1 : (99999 * c_real < (g - 1) * c_real)%R)
      by (apply Rmult_lt_compat_r; lra).
    assert (H2 : (99999 * c_real * c_real < (g - 1) * c_real * c_real)%R)
      by (apply Rmult_lt_compat_r; lra).
    assert (H3 : (8.9e21 < 99999 * c_real * c_real)%R)
      by (unfold c_real; lra).
    lra. }
  set (kk := energy_per_mass_at b) in *.
  unfold passes, Nat.iter. cbn [Nat.pred nat_rect dmul].
  rewrite c_num, ddiv_num by lra. fold b.
  rewrite energy_per_mass_num by lra. fold kk.
  change (get_planetary_binding_energy PLANET_JUPITER) with #2.06e36.
  rewrite first_pass_num by lra. cbn [pass_diameter].
  rewrite ddiv_num by lra.
  change (atmospheric_retention ?d PLANET_JUPITER MATERIAL_STONY)
    with (if d <? #10.0 then #0.00 else #0.10).
  rewrite dltb_true; [reflexivity|].
  assert (Hm : (0 < 2.06e36 / (0.25 * kk) < 1e15)%R).
  { assert (Hek : (0 < 0.25 * kk)%R) by lra.
    split; [apply Rdiv_lt_0_compat; lra|].
    apply Rmult_lt_reg_r with (r := (0.25 * kk)%R); [assumption|].
    replace (2.06e36 / (0.25 * kk) * (0.25 * kk))%R with 2.06e36%R
      by (field; lra).
    lra. }
  set (m := (2.06e36 / (0.25 * kk))%R) in *.
  unfold diameter_of.
  assert (Hq : (0 <= Rcbrt (3.0 * (m / 2000) / (4.0 * 3.14159265358979323846))
                < 5000)%R)
    by (apply Rcbrt_between; lra).
  lra.
Qed.

Lemma mode_v_never_infinite_witness :
  mv_retention
    (mode_v atmospheric_retention cbrt
       (get_planetary_binding_energy PLANET_JUPITER)
       (#299792.457999 * #1000.0) (#299792.457999 * #1000.0 / c)
       #2000 #0.25 PLANET_JUPITER MATERIAL_STONY)
  = atmospheric_retention PInf PLANET_JUPITER MATERIAL_STONY.
Proof.
  refine (proj2 (mode_v_never_infinite 299792.457999 2000 0.25
                   PLANET_JUPITER MATERIAL_STONY _ _ _ _)
            near_light_first_lookup);
    unfold c_real; lra.
Defined.

(** X16. In the exact reading, modes [m] and [d] and mode [v] draw the
    same line.  For positive inputs, DESTROYED is printed exactly when the
    energy the impactor must bring per kilogram, [U / effective_eps / m], is
    below the kinetic energy per kilogram that mode [v] computes at
    [beta = 0.99]; with a retention of zero that energy is [+inf] and the
    comparison is false. *)
Theorem destroyed_iff_energy (r : request) :
  known_mode r = true -> is_mode "v" "V" (mode r) = false ->
  valid_inputs r ->
  let U := get_planetary_binding_energy (get_planet_type (planet_name r)) in
  let s := speed_run r in
  printed_verdict (out (main r)) = Some DESTROYED
  <-> (U / sv_effective_eps s / sv_m s <? relativisticEnergyPerMass #0.99)
      = true.
Proof.
  intros Hk Hv Hvalid U s. subst U s.
  destruct (main_speed_run r Hk Hv Hvalid) as (front & Hfront & ->).
  destruct (speed_run_vars r Hk Hv Hvalid)
    as (u & ep & t & m & EU & Ee & Et & Em & Hu & Hep & Ht & Hm
        & Eeff & Ecl & Erel).
  rewrite EU, Eeff, Em, Erel. cbn [out].
  rewrite app_assoc, printed_verdict_speed_lines
    by (rewrite printed_verdict_app, Hfront; reflexivity).
  rewrite energy_per_mass_num by lra.
  pose proof c_real_pos as Hc.
  destruct (Req_dec_T (ep * t) 0) as [E0 | Hne].
  - rewrite E0. rewrite relativistic_speed_inf by assumption.
    rewrite ddiv_pos_zero by assumption. rewrite ddiv_inf_pos by lra.
    rewrite (proj1 (verdict_of_speed _ _)), threshold_num.
    rewrite dltb_num_iff. cbn [dltb]. split; [lra | discriminate].
  - assert (Het : (0 < ep * t)%R).
    { assert (0 <= ep * t)%R by (apply Rmult_le_pos; lra). lra. }
    rewrite relativistic_speed_num by lra.
    rewrite !ddiv_num by lra.
    rewrite (proj1 (verdict_of_speed _ _)), threshold_num.
    rewrite !dltb_num_iff.
    pose proof (quotient_nonneg u (ep * t) m (Rlt_le _ _ Hu) Het Hm) as Hx.
    apply (speed_below_iff (u / (ep * t) / m) 0.99 Hx). lra.
Qed.

Lemma destroyed_iff_energy_witness :
  printed_verdict (out (main run_d_pluto_iron)) = Some DESTROYED
  <-> (get_planetary_binding_energy
         (get_planet_type (planet_name run_d_pluto_iron))
       / sv_effective_eps (speed_run run_d_pluto_iron)
       / sv_m (speed_run run_d_pluto_iron)
       <? relativisticEnergyPerMass #0.99) = true.
Proof.
  apply (destroyed_iff_energy run_d_pluto_iron eq_refl eq_refl).
  split; [|split; [|intros _]]; apply finite_positive_num; lra.
Defined.

(** X17. In the exact reading, mode [d] takes back what mode [v] gives.
    For a speed below [c] and positive density and efficiency, the diameter
    mode [v] reports, given to mode [d] with the same density, efficiency,
    body and material, yields the mass mode [v] reported; and when the
    retention mode [d] looks up at that diameter is the one mode [v] ended
    with, the relativistic speed mode [d] requires is the speed that was
    given. *)
Theorem mode_d_inverts_mode_v
    (v_km_s rh ep : R) (planet_type material_type : Z) :
  (0 < v_km_s)%R -> (v_km_s * 1000 < c_real)%R ->
  (0 < rh)%R -> (0 < ep)%R ->
  let U := get_planetary_binding_energy planet_type in
  let v := Num v_km_s * #1000.0 in
  let s := mode_v atmospheric_retention cbrt U v (v / c) (Num rh) (Num ep)
             planet_type material_type in
  let back := mode_d atmospheric_retention U (mv_D s / #1000.0) (Num rh)
                (Num ep) planet_type material_type in
  sv_m back = mv_m_req s
  /\ (sv_retention back = mv_retention s -> sv_v_rel back = v).
Proof.
  intros Hv Hvc Hr He. cbv zeta.
  destruct (binding_energy_pos planet_type) as (u & EU & Hu).
  rewrite EU.
  destruct (mode_v_vars u v_km_s rh ep planet_type material_type
              Hu Hv Hvc Hr He) as (t & Ht & Hk & E).
  cbv zeta in E.
  set (kk := energy_per_mass_at (v_km_s * 1000.0 / c_real)) in *.
  set (m := (u / (ep * t * kk))%R) in *.
  assert (Hek : (0 < ep * t * kk)%R)
    by (apply Rmult_lt_0_compat; [apply Rmult_lt_0_compat|]; lra).
  assert (Hm : (0 < m)%R) by (apply Rdiv_lt_0_compat; assumption).
  pose proof (sphere_argument_pos m rh Hm Hr) as Hq.
  assert (Emass : Num rh * ((#4.0 / #3.0) * PI
                            * pow3 (Num (diameter_of m rh) / #1000.0
                                    * #1000.0 / #2.0))
                  = Num m).
  { unfold PI. rewrite (ddiv_num 4.0) by lra.
    rewrite (ddiv_num (diameter_of m rh)) by lra. cbn [dmul].
    rewrite ddiv_num by lra. cbn [pow3 dmul]. f_equal.
    unfold diameter_of.
    set (q := (3.0 * (m / rh) / (4.0 * 3.14159265358979323846))%R) in *.
    pose proof (Rcbrt_cube q (Rlt_le _ _ Hq)) as Hc3.
    replace (2.0 * Rcbrt q / 1000.0 * 1000.0 / 2.0)%R with (Rcbrt q)
      by lra.
    rewrite Hc3. unfold q.
    replace 3.0%R with 3%R by lra. replace 4.0%R with 4%R by lra.
    field. lra. }
  rewrite E. unfold mode_d.
  cbn [mv_D mv_m_req mv_retention sv_m sv_retention sv_v_rel].
  split; [exact Emass|].
  intros Hret. rewrite Hret, Emass. cbn [dmul].
  rewrite relativistic_speed_num by (lra || (apply Rmult_lt_0_compat; lra)).
  cbn [dmul]. f_equal.
  pose proof c_real_pos as Hc.
  pose proof (beta_in_range v_km_s Hv Hvc) as Hb.
  replace (u / (ep * t) / m)%R with kk
    by (unfold m; field; repeat split; lra).
  unfold kk. rewrite speed_of_energy by lra. field. lra.
Qed.

Lemma mode_d_inverts_mode_v_witness :
  sv_v_rel
    (mode_d atmospheric_retention
       (get_planetary_binding_energy PLANET_VACUUM)
       (mv_D (mode_v atmospheric_retention cbrt
                (get_planetary_binding_energy PLANET_VACUUM)
                (#30000 * #1000.0) (#30000 * #1000.0 / c) #2000 #0.25
                PLANET_VACUUM MATERIAL_STONY) / #1000.0)
       #2000 #0.25 PLANET_VACUUM MATERIAL_STONY)
  = #30000 * #1000.0.
Proof.
  refine (proj2 (mode_d_inverts_mode_v 30000 2000 0.25 PLANET_VACUUM
                   MATERIAL_STONY _ _ _ _) _);
    try (unfold c_real; lra).
  rewrite mode_v_passes. unfold mode_d. cbn [sv_retention mv_retention].
  rewrite !vacuum_retention. reflexivity.
Defined.

(* ================================================================== *)
(** * The solver of the QB64 port *)
(* ================================================================== *)

Lemma AtmosphericRetention_value d planet_type material_type :
  exists t,
    AtmosphericRetention d planet_type material_type = Num t
    /\ (0 < t <= 1)%R.
Proof.
  unfold AtmosphericRetention.
  case_planet; (eexists; split; [reflexivity | lra]).
Qed.

Lemma refine_pass_constant cube_root U k rh ep planet_type material_type
    prev prev' :
  refine_pass AtmosphericRetention cube_root U k rh ep planet_type
    material_type prev
  = refine_pass AtmosphericRetention cube_root U k rh ep planet_type
      material_type prev'.
Proof.
  unfold refine_pass.
  rewrite (AtmosphericRetention_constant (pass_diameter prev / #1000.0)
             (pass_diameter prev' / #1000.0)).
  reflexivity.
Qed.

(** X18. In the QB64 port the passes of mode [v] after the second change
    nothing.  Its retention function does not look at the diameter, so the
    third pass recomputes the efficiency, mass and diameter of the second;
    the retention mode [v] reports is the one value the table holds for the
    body and material, whatever the speed, density and efficiency; and that
    value is never zero, so this port, unlike the C port, never divides by
    a retention of zero. *)
Theorem third_pass_is_idle
    (cube_root : dbl -> dbl) (U k rh ep : dbl)
    (planet_type material_type : Z) :
  passes AtmosphericRetention cube_root 3 U k rh ep planet_type material_type
  = passes AtmosphericRetention cube_root 2 U k rh ep planet_type
      material_type
  /\ (forall v beta d,
        mv_retention
          (mode_v AtmosphericRetention cube_root U v beta rh ep planet_type
             material_type)
        = AtmosphericRetention d planet_type material_type)
  /\ exists t,
       (forall d, AtmosphericRetention d planet_type material_type = Num t)
       /\ (0 < t <= 1)%R.
Proof.
  split; [|split].
  - unfold passes, Nat.iter. cbn [Nat.pred nat_rect].
    apply refine_pass_constant.
  - intros v beta d. rewrite mode_v_passes. cbn [mv_retention].
    apply AtmosphericRetention_constant.
  - destruct (AtmosphericRetention_value #0 planet_type material_type)
      as (t & E & Ht).
    exists t. split; [|exact Ht]. intros d.
    rewrite (AtmosphericRetention_constant d #0). exact E.
Qed.

(* ================================================================== *)
(** * unbindDose *)
(* ================================================================== *)

Module DoseFacts.
Import Dose.

(** The fluence and the two doses, on numbers. *)
Lemma doses_num (e h x a m g th tr : R) :
  (0 < x)%R -> (0 < m)%R ->
  let i := {| E := Num e; eta := Num h; d := Num x; A := Num a; M := Num m;
              f := Num g; theta_deg := Num th; atmos_trans := Num tr |} in
  let F := (h * e / (4.0 * 3.14159265358979323846 * x * x) * tr)%R in
  D_upper i = Num (F * a * g * 1.0 / m)
  /\ D_lower i
     = Num (F * a * g * cos (th * 3.14159265358979323846 / 180.0) / m).
Proof.
  intros Hx Hm i F. subst i F. unfold D_upper, D_lower, calc_dose, M_PI.
  cbn [E eta d A M f theta_deg atmos_trans dmul].
  assert (Hxx : (0 < x * x)%R) by (apply Rmult_lt_0_compat; assumption).
  assert (Hd : (4.0 * 3.14159265358979323846 * x * x <> 0)%R).
  { rewrite Rmult_assoc. apply Rgt_not_eq, Rmult_lt_0_compat; lra. }
  rewrite (ddiv_num (h * e)) by assumption. cbn [dmul].
  rewrite (ddiv_num (th * 3.14159265358979323846)) by lra.
  cbn [dcos dmul]. rewrite !ddiv_num by lra. split; reflexivity.
Qed.

(** X19. [unbindDose], in the exact reading (no rounding, no overflow, no
    underflow): for inputs that are numbers, with energy, fractions and
    transmission not negative and distance and mass positive, both doses are
    numbers and the lower-boundary dose lies between minus the
    upper-boundary dose and the upper-boundary dose, whatever the angle; so
    the warning after the lower dose is never printed without the warning
    after the upper dose. *)
Theorem lower_dose_bounded (i : inputs) :
  physical i ->
  exists upper lower : R,
    D_upper i = Num upper /\ D_lower i = Num lower
    /\ (- upper <= lower <= upper)%R
    /\ (In WARNING_lower (main i) -> In WARNING_upper (main i)).
Proof.
  intros (e & h & x & a & m & g & th & tr & -> & He & Hh & Hx & Ha & Hm
          & Hg & Htr).
  destruct (doses_num e h x a m g th tr Hx Hm) as [Eu El].
  cbv zeta in Eu, El.
  set (F := (h * e / (4.0 * 3.14159265358979323846 * x * x) * tr)%R) in *.
  set (co := cos (th * 3.14159265358979323846 / 180.0)) in *.
  assert (Hco : (-1 <= co <= 1)%R) by apply COS_bound.
  assert (HF : (0 <= F)%R).
  { unfold F. apply Rmult_le_pos; [|assumption].
    apply Rmult_le_pos; [apply Rmult_le_pos; assumption|].
    apply Rlt_le, Rinv_0_lt_compat.
    rewrite Rmult_assoc. apply Rmult_lt_0_compat; [lra|].
    apply Rmult_lt_0_compat; assumption. }
  assert (HP : (0 <= F * a * g / m)%R).
  { apply Rmult_le_pos; [|apply Rlt_le, Rinv_0_lt_compat; assumption].
    apply Rmult_le_pos; [apply Rmult_le_pos|]; assumption. }
  assert (Eup : (F * a * g * 1.0 / m = F * a * g / m)%R)
    by (replace 1.0%R with 1%R by lra; field; lra).
  assert (Elo : (F * a * g * co / m = F * a * g / m * co)%R)
    by (field; lra).
  set (P := (F * a * g / m)%R) in *.
  assert (Hb : (- P <= P * co <= P)%R).
  { split.
    - replace (- P)%R with (P * -1)%R by ring.
      apply Rmult_le_compat_l; lra.
    - rewrite <- (Rmult_1_r P) at 2. apply Rmult_le_compat_l; lra. }
  exists (F * a * g * 1.0 / m)%R, (F * a * g * co / m)%R.
  split; [exact Eu|]. split; [exact El|]. split; [lra|].
  unfold main. rewrite Eu, El. intros Hin.
  apply in_app_or in Hin. destruct Hin as [Hin|Hin].
  { cbn [In] in Hin. destruct Hin as [H|[H|[H|[H|[]]]]]; discriminate. }
  apply in_app_or in Hin. destruct Hin as [Hin|Hin].
  { destruct (_ <? _); cbn [In] in Hin; [destruct Hin as [H|[]]|destruct Hin].
    discriminate. }
  apply in_app_or in Hin. destruct Hin as [Hin|Hin].
  { cbn [In] in Hin. destruct Hin as [H|[]]. discriminate. }
  apply in_or_app. right. apply in_or_app. left.
  destruct (Num 8 <? Num (F * a * g * co / m)) eqn:Hw;
    [|destruct Hin].
  apply dltb_num_iff in Hw.
  rewrite dltb_true by lra. left. reflexivity.
Qed.

Lemma physical_defaults : physical defaults.
Proof.
  unfold physical, defaults. do 8 eexists.
  split; [reflexivity|]. repeat (split; [lra|]). lra.
Qed.

Lemma lower_dose_bounded_witness :
  exists upper lower : R,
    D_upper defaults = Num upper /\ D_lower defaults = Num lower
    /\ (- upper <= lower <= upper)%R.
Proof.
  destruct (lower_dose_bounded defaults physical_defaults)
    as (upper & lower & Eu & El & Hb & _).
  exists upper, lower. split; [exact Eu|]. split; [exact El | exact Hb].
Defined.

(** X20. [unbindDose], in the exact reading: the doses follow the inverse
    square of the distance.  For inputs as in X19, at [k] times the
    distance, [k > 0], the upper and the lower dose are the doses at the
    distance itself divided by [k] squared. *)
Theorem inverse_square (i : inputs) (k : R) :
  physical i -> (0 < k)%R ->
  exists upper lower : R,
    D_upper i = Num upper /\ D_lower i = Num lower
    /\ D_upper (at_distance k i) = Num (upper / (k * k))
    /\ D_lower (at_distance k i) = Num (lower / (k * k)).
Proof.
  intros (e & h & x & a & m & g & th & tr & -> & He & Hh & Hx & Ha & Hm
          & Hg & Htr) Hk.
  destruct (doses_num e h x a m g th tr Hx Hm) as [Eu El].
  assert (Hkx : (0 < k * x)%R) by (apply Rmult_lt_0_compat; assumption).
  destruct (doses_num e h (k * x) a m g th tr Hkx Hm) as [Eu' El'].
  cbv zeta in Eu, El, Eu', El'.
  unfold at_distance. cbn [E eta d A M f theta_deg atmos_trans dmul].
  rewrite Eu, El, Eu', El'.
  eexists. eexists. split; [reflexivity|]. split; [reflexivity|].
  assert (Hxx : (0 < x * x)%R) by (apply Rmult_lt_0_compat; assumption).
  split; f_equal; field; repeat split; lra.
Qed.

Lemma inverse_square_witness :
  exists upper lower : R,
    D_upper defaults = Num upper /\ D_lower defaults = Num lower
    /\ D_upper (at_distance 2 defaults) = Num (upper / (2 * 2))
    /\ D_lower (at_distance 2 defaults) = Num (lower / (2 * 2)).
Proof.
  apply (inverse_square defaults 2 physical_defaults). lra.
Defined.



End DoseFacts.
